(** * Si5351 quadrature driver for the RP2040: frequency planning and
      register encoding

    A shallow embedding of [src/si5351/si5351.cpp] and [si5351.h].
    Unsigned C++ integers are [Z] with the wrap-around written out,
    [double] is IEEE binary64 as specified by [SpecFloat], the chip's
    register file is a [gmap], and the driver object is a record that is
    passed from call to call. *)

From Stdlib Require Import ZArith Lia QArith Qabs Bool List.
From Stdlib Require Import SpecFloat.
From stdpp Require Import base gmap.
Import ListNotations.
Open Scope Z_scope.

(** ** Fixed-width unsigned integers *)

Definition u8 (z : Z) : Z := z mod 2 ^ 8.
Definition u32 (z : Z) : Z := z mod 2 ^ 32.
Definition u64 (z : Z) : Z := z mod 2 ^ 64.

(** ** IEEE binary64 [double] *)

Module Double.

Definition prec : Z := 53.
Definition emax : Z := 1024.

Definition double : Type := spec_float.

(** Conversion of an integer to [double] (exact below [2 ^ 53]). *)
Definition of_Z (n : Z) : double := binary_normalize prec emax n 0 false.

Definition mul : double -> double -> double := SFmul prec emax.
Definition div : double -> double -> double := SFdiv prec emax.
Definition sub : double -> double -> double := SFsub prec emax.

(** The integer [floor] of a finite value; a shift to the right of a
    negative [Z] rounds towards minus infinity. *)
Definition floorZ (s : bool) (m : positive) (e : Z) : Z :=
  Z.shiftl (cond_Zopp s (Zpos m)) e.

(** [floor] of [<math.h>]. *)
Definition floor (x : double) : double :=
  match x with
  | S754_finite s m e => binary_normalize prec emax (floorZ s m e) 0 s
  | _ => x
  end.

(** The cast [(uint32_t)x]: truncation towards zero.  Outside
    [0 .. 2^32-1] the cast is saturated, as the conversion routine of
    the RP2040 run time ([__aeabi_d2uiz]) does; a NaN gives 0. *)
Definition to_u32 (x : double) : Z :=
  match x with
  | S754_zero _ => 0
  | S754_nan => 0
  | S754_infinity s => if s then 0 else 2 ^ 32 - 1
  | S754_finite true _ _ => 0
  | S754_finite false m e => Z.min (Z.shiftl (Zpos m) e) (2 ^ 32 - 1)
  end.

(** The exact rational value of a finite [double]. *)
Definition to_Q (x : double) : option Q :=
  match x with
  | S754_zero _ => Some 0%Q
  | S754_finite s m e =>
      Some (if 0 <=? e
            then inject_Z (cond_Zopp s (Zpos m) * 2 ^ e)
            else Qmake (cond_Zopp s (Zpos m)) (Z.to_pos (2 ^ (- e))))
  | _ => None
  end.

End Double.

Abbreviation double := Double.double.

(** ** Constants of [si5351.h] *)

Definition PH000 : Z := 0.
Definition PH090 : Z := 1.
Definition PH180 : Z := 2.
Definition PH270 : Z := 3.

Definition SI5351_ADDR : Z := 0x60.
Definition SI_CLK_OE : Z := 3.
Definition SI_CLK0_CTL : Z := 16.
Definition SI_CLK1_CTL : Z := 17.
Definition SI_CLK2_CTL : Z := 18.
Definition SI_SYNTH_PLLA : Z := 26.
Definition SI_SYNTH_PLLB : Z := 34.
Definition SI_SYNTH_MS0 : Z := 42.
Definition SI_SYNTH_MS1 : Z := 50.
Definition SI_SYNTH_MS2 : Z := 58.
Definition SI_SS_EN : Z := 149.
Definition SI_CLK0_PHOFF : Z := 165.
Definition SI_CLK1_PHOFF : Z := 166.
Definition SI_CLK2_PHOFF : Z := 167.
Definition SI_PLL_RESET : Z := 177.

Definition SI_CLK_INT : Z := 0x40.
Definition SI_CLK_PLLB : Z := 0x20.
Definition SI_CLK_INV : Z := 0x10.
Definition SI_CLK_SRC_MS : Z := 0x0C.
Definition SI_CLK_IDRV_4mA : Z := 0x01.

Definition SI_VCO_LO : Z := 400000000.
Definition SI_VCO_HI : Z := 900000000.
Definition SI_PLL_C : Z := 1000000.

(** ** Data model *)

(** [vfo_t] of [si5351.h]. *)
Record vfo_t : Type := mk_vfo {
  freq : Z;      (* uint32_t: target frequency in Hz *)
  phase : Z;     (* uint8_t: quadrature phase *)
  ri : Z;        (* uint8_t: R divider value *)
  msi : Z;       (* uint8_t: MultiSynth integer divider *)
  msn : double   (* PLL multiplier a + b/c *)
}.

(** The I2C bus with the chip behind it.  [Wire] is the Arduino library
    object, which is not part of the repository: a register write
    transaction is logged and, when the chip acknowledges, stored in the
    chip's register file with the register address auto-incremented; a
    read returns the addressed register, and no byte when the chip does
    not answer. *)
Inductive bus_op : Type :=
  | BusWrite (reg : Z) (data : list Z)
  | BusRead (reg : Z).

Record TwoWire : Type := mk_wire {
  present : bool;
  regs : gmap Z Z;
  log : list bus_op
}.

(** The member data of [class Si5351], with the bus it talks to. *)
Record Si5351 : Type := mk_si5351 {
  _xtal : Z;        (* uint32_t *)
  _vfo0 : vfo_t;    (* _vfo[0] *)
  _vfo1 : vfo_t;    (* _vfo[1] *)
  Wire : TwoWire
}.

(** [_vfo[i]] for an index the code has checked to be 0 or 1. *)
Definition _vfo (s : Si5351) (i : Z) : vfo_t :=
  if i =? 0 then _vfo0 s else _vfo1 s.

Definition set_vfo (i : Z) (v : vfo_t) (s : Si5351) : Si5351 :=
  if i =? 0 then mk_si5351 (_xtal s) v (_vfo1 s) (Wire s)
  else mk_si5351 (_xtal s) (_vfo0 s) v (Wire s).

Definition set_Wire (w : TwoWire) (s : Si5351) : Si5351 :=
  mk_si5351 (_xtal s) (_vfo0 s) (_vfo1 s) w.

(** ** I2C communication functions *)

Fixpoint store_bytes (reg : Z) (data : list Z) (m : gmap Z Z) : gmap Z Z :=
  match data with
  | [] => m
  | b :: bs => store_bytes (reg + 1) bs (<[reg := b]> m)
  end.

Definition bus_write (reg : Z) (data : list Z) (w : TwoWire) : TwoWire :=
  mk_wire (present w)
          (if present w then store_bytes reg data (regs w) else regs w)
          (log w ++ [BusWrite reg data]).

(** [Si5351::_wr] *)
Definition _wr (reg val : Z) (s : Si5351) : Si5351 :=
  set_Wire (bus_write reg [val] (Wire s)) s.

(** [Si5351::_wrBulk]: the first [len] bytes of [data]. *)
Definition _wrBulk (reg : Z) (data : list Z) (len : Z) (s : Si5351) : Si5351 :=
  set_Wire (bus_write reg (firstn (Z.to_nat len) data) (Wire s)) s.

(** [Si5351::_rd]: [Wire.available() ? Wire.read() : 0xFF]. *)
Definition _rd (reg : Z) (s : Si5351) : Z * Si5351 :=
  let w := Wire s in
  let v := if present w then default 0 (regs w !! reg) else 0xFF in
  (v, set_Wire (mk_wire (present w) (regs w) (log w ++ [BusRead reg])) s).

(** [Si5351::_rDivToCode] *)
Definition _rDivToCode (r : Z) : Z :=
  match r with
  | 1 => 0
  | 2 => 1
  | 4 => 2
  | 8 => 3
  | 16 => 4
  | 32 => 5
  | 64 => 6
  | 128 => 7
  | _ => 0
  end.

(** ** The frequency planner, [Si5351::_evaluate] *)

(** Lines 210-213: the R divider by frequency band. *)
Definition evaluate_ri (freqHz : Z) : Z :=
  if freqHz <? 1000000 then 128
  else if freqHz <? 3000000 then 32
  else 1.

(** Lines 215-226: the MultiSynth divider. *)
Definition evaluate_msi (freqHz ri : Z) : Z :=
  if freqHz <? 6000000 then 126
  else
    let tentative := u32 (700000000 / u64 (freqHz * ri)) in
    let tentative := if tentative <? 4 then 4 else tentative in
    let tentative := if 126 <? tentative then 126 else tentative in
    let tentative :=
      if Z.land tentative 1 =? 0 then tentative else u32 (tentative + 1) in
    let tentative := if 126 <? tentative then 126 else tentative in
    u8 tentative.

(** Line 229: the VCO frequency as a 64-bit product. *)
Definition evaluate_fvco (freqHz msi ri : Z) : Z :=
  u64 (u64 (freqHz * msi) * ri).

(** Line 235: the PLL multiplier, in [double] arithmetic. *)
Definition evaluate_msn (msi ri freqHz xtal : Z) : double :=
  Double.div
    (Double.mul (Double.mul (Double.of_Z msi) (Double.of_Z ri))
                (Double.of_Z freqHz))
    (Double.of_Z xtal).

Definition _evaluate (vfoIdx freqHz : Z) (s : Si5351) : Si5351 :=
  if 1 <? vfoIdx then s
  else if freq (_vfo s vfoIdx) =? freqHz then s
  else
    let ri := evaluate_ri freqHz in
    let msi := evaluate_msi freqHz ri in
    let fvco := evaluate_fvco freqHz msi ri in
    (* the range test of lines 230-232 has an empty body *)
    let _ := if (fvco <? SI_VCO_LO) || (SI_VCO_HI <? fvco) then tt else tt in
    let msn := evaluate_msn msi ri freqHz (_xtal s) in
    set_vfo vfoIdx
      (mk_vfo freqHz (phase (_vfo s vfoIdx)) (u8 ri) msi msn) s.

(** ** The register encoders *)

(** Lines 160-161: the integer part and the numerator of the fraction, as
    the encoder reads them off the [double]. *)
Definition msn_A (msn : double) : Z := Double.to_u32 (Double.floor msn).

Definition msn_B (msn : double) : Z :=
  Double.to_u32
    (Double.mul (Double.sub msn (Double.of_Z (msn_A msn)))
                (Double.of_Z SI_PLL_C)).

(** Lines 160-179: the eight bytes of a PLL feedback divider. *)
Definition _setMSN_buf (msn : double) : list Z :=
  let A := msn_A msn in
  let B := msn_B msn in
  let P3 := SI_PLL_C in
  let tmp :=
    Double.to_u32
      (Double.floor (Double.div (Double.of_Z (u32 (128 * B)))
                                (Double.of_Z SI_PLL_C))) in
  let P1 := u32 (128 * A + tmp - 512) in
  let P2 := u32 (128 * B - SI_PLL_C * tmp) in
  [ Z.land (Z.shiftr P3 8) 0xFF;
    Z.land P3 0xFF;
    Z.land (Z.shiftr P1 16) 0x03;
    Z.land (Z.shiftr P1 8) 0xFF;
    Z.land P1 0xFF;
    Z.lor (Z.land (Z.shiftr P3 12) 0xF0) (Z.land (Z.shiftr P2 16) 0x0F);
    Z.land (Z.shiftr P2 8) 0xFF;
    Z.land P2 0xFF ].

(** [Si5351::_setMSN] *)
Definition _setMSN (pllIdx : Z) (msn : double) (s : Si5351) : Si5351 :=
  let base := if pllIdx =? 0 then SI_SYNTH_PLLA else SI_SYNTH_PLLB in
  _wrBulk base (_setMSN_buf msn) 8 s.

(** Lines 186-199: the eight bytes of an integer-mode MultiSynth divider. *)
Definition _setMSI_buf (msiEven rDivLog2 : Z) : list Z :=
  let P1 := u32 (128 * msiEven - 512) in
  let Rbits := u8 (Z.shiftl (Z.land rDivLog2 0x07) 4) in
  [ 0x00;
    0x01;
    u8 (Z.lor (u8 (Z.land (Z.shiftr P1 16) 0x03)) Rbits);
    u8 (Z.land (Z.shiftr P1 8) 0xFF);
    u8 (Z.land P1 0xFF);
    0x00;
    0x00;
    0x00 ].

(** [Si5351::_setMSI] *)
Definition _setMSI (clkIdx msiEven rDivLog2 : Z) (s : Si5351) : Si5351 :=
  let base :=
    if clkIdx =? 0 then SI_SYNTH_MS0
    else if clkIdx =? 1 then SI_SYNTH_MS1 else SI_SYNTH_MS2 in
  _wrBulk base (_setMSI_buf msiEven rDivLog2) 8 s.

(** ** Public operations *)

(** [Si5351::resetPLL] *)
Definition resetPLL (s : Si5351) : Si5351 := _wr SI_PLL_RESET 0xA0 s.

(** [Si5351::enable]: a read-modify-write of the output enable register. *)
Definition enable (vfoIdx : Z) (en : bool) (s : Si5351) : Si5351 :=
  let '(oe, s) := _rd SI_CLK_OE s in
  let oe :=
    if vfoIdx =? 0 then
      if en then u8 (Z.land oe (Z.lnot 0x03)) else u8 (Z.lor oe 0x03)
    else
      if en then u8 (Z.land oe (Z.lnot 0x04)) else u8 (Z.lor oe 0x04) in
  _wr SI_CLK_OE oe s.

(** [Si5351::setPhase] *)
Definition setPhase (vfoIdx phase : Z) (s : Si5351) : Si5351 :=
  if negb (vfoIdx =? 0) || (3 <? phase) then s
  else
    let v := _vfo s 0 in
    set_vfo 0 (mk_vfo (freq v) phase (ri v) (msi v) (msn v)) s.

(** [Si5351::setFreq] *)
Definition setFreq (vfoIdx freqHz : Z) (s : Si5351) : Si5351 :=
  if 1 <? vfoIdx then s else _evaluate vfoIdx freqHz s.

(** [Si5351::update] *)
Definition update (vfoIdx : Z) (s : Si5351) : Si5351 :=
  if 1 <? vfoIdx then s
  else
    let s := _setMSN (if vfoIdx =? 0 then 0 else 1) (msn (_vfo s vfoIdx)) s in
    let s :=
      if vfoIdx =? 0 then
        let rcode := _rDivToCode (ri (_vfo s 0)) in
        let s := _setMSI 0 (msi (_vfo s 0)) rcode s in
        let s := _setMSI 1 (msi (_vfo s 0)) rcode s in
        let s := _wr SI_CLK0_PHOFF 0 s in
        let s :=
          _wr SI_CLK1_PHOFF
              (if (phase (_vfo s 0) =? PH090) || (phase (_vfo s 0) =? PH270)
               then msi (_vfo s 0) else 0) s in
        let clk0ctl :=
          u8 (Z.lor (Z.lor SI_CLK_SRC_MS SI_CLK_INT) SI_CLK_IDRV_4mA) in
        let clk1ctl :=
          u8 (Z.lor (Z.lor SI_CLK_SRC_MS SI_CLK_INT) SI_CLK_IDRV_4mA) in
        let clk1ctl :=
          if (phase (_vfo s 0) =? PH180) || (phase (_vfo s 0) =? PH270)
          then u8 (Z.lor clk1ctl SI_CLK_INV) else clk1ctl in
        let s := _wr SI_CLK0_CTL clk0ctl s in
        _wr SI_CLK1_CTL clk1ctl s
      else
        let rcode := _rDivToCode (ri (_vfo s 1)) in
        let s := _setMSI 2 (msi (_vfo s 1)) rcode s in
        let clk2ctl :=
          u8 (Z.lor (Z.lor (Z.lor SI_CLK_SRC_MS SI_CLK_INT) SI_CLK_PLLB)
                    SI_CLK_IDRV_4mA) in
        _wr SI_CLK2_CTL clk2ctl s in
    resetPLL s.

(** [Si5351::begin]; [Wire.begin()] only starts the bus peripheral and
    leaves the modelled bus as it is. *)
Definition begin (s : Si5351) : Si5351 :=
  let s := _wr SI_SS_EN 0x00 s in
  let s := _wr SI_CLK0_CTL (u8 (Z.lor SI_CLK_SRC_MS SI_CLK_IDRV_4mA)) s in
  let s := _wr SI_CLK1_CTL (u8 (Z.lor SI_CLK_SRC_MS SI_CLK_IDRV_4mA)) s in
  let s :=
    _wr SI_CLK2_CTL
        (u8 (Z.lor (Z.lor SI_CLK_SRC_MS SI_CLK_PLLB) SI_CLK_IDRV_4mA)) s in
  let s := set_vfo 0 (mk_vfo 7074000 PH270 1 106 (Double.of_Z 30)) s in
  let s := set_vfo 1 (mk_vfo 10000000 PH000 1 76 (Double.of_Z 30)) s in
  let s := update 0 s in
  let s := update 1 s in
  let s := enable 0 true s in
  enable 1 false s.

(** The driver object as the constructor leaves it.  The object of
    [example.cpp] is a global: its [_vfo] array is zero-initialised before
    the constructor stores the crystal frequency. *)
Definition zero_vfo : vfo_t := mk_vfo 0 0 0 0 (S754_zero false).

Definition Si5351_ctor (xtalFreq : Z) (w : TwoWire) : Si5351 :=
  mk_si5351 xtalFreq zero_vfo zero_vfo w.

(** A chip that answers, with an empty register file and no traffic yet. *)
Definition idle_bus : TwoWire := mk_wire true ∅ [].

(** ** The specification's formulas *)

(** The R divider by band, as the specification words it. *)
Definition spec_rDivider (f : Z) : Z :=
  if f <? 1000000 then 128
  else if f <? 3000000 then 32
  else 1.

Definition clamp (lo hi n : Z) : Z := Z.max lo (Z.min hi n).

Definition round_up_even (n : Z) : Z := if Z.even n then n else n + 1.

(** The MultiSynth divider, as the specification words it: 126 below
    6 MHz, otherwise the floor of 700 MHz over [f * R], clamped to
    [4 .. 126], rounded up to even, capped at 126. *)
Definition spec_msDivider (f : Z) : Z :=
  if f <? 6000000 then 126
  else
    Z.min 126
      (round_up_even (clamp 4 126 (700000000 / (f * spec_rDivider f)))).

(** The implied VCO frequency of a stored VFO. *)
Definition vco_of (v : vfo_t) : Z := freq v * ri v * msi v.

Definition vco_in_range (v : vfo_t) : Prop :=
  SI_VCO_LO <= vco_of v <= SI_VCO_HI.

(** The bands of target frequencies in which the planner's dividers give
    a VCO frequency within the limits. *)
Definition vco_band (f : Z) : Prop :=
  24802 <= f <= 55803 \/ 3174604 <= f <= 225000000.

(** The drift of a stored multiplier from the ratio it stands for:
    [msn * xtal - msi * ri * freq], exactly, in Hz. *)
Definition pll_drift (xtal : Z) (v : vfo_t) : option Q :=
  match Double.to_Q (msn v) with
  | Some q =>
      Some (Qred (q * inject_Z xtal - inject_Z (msi v * ri v * freq v)))%Q
  | None => None
  end.

(** The stored multiplier is the ratio up to the resolution [1 / c] of the
    fraction [b / c]: the drift is at most [xtal / 1000000]. *)
Definition within_resolution (xtal : Z) (v : vfo_t) : Prop :=
  match pll_drift xtal v with
  | Some d => (Qabs d * inject_Z SI_PLL_C <= inject_Z xtal)%Q
  | None => False
  end.

(** The chip's layout of a divider's parameters P1 (18 bits), P2 and P3
    (20 bits each) in eight consecutive registers (AN619). *)
Definition pack_params (P1 P2 P3 : Z) : list Z :=
  [ Z.land (Z.shiftr P3 8) 0xFF;                 (* P3[15:8] *)
    Z.land P3 0xFF;                              (* P3[7:0] *)
    Z.land (Z.shiftr P1 16) 0x03;                (* P1[17:16] *)
    Z.land (Z.shiftr P1 8) 0xFF;                 (* P1[15:8] *)
    Z.land P1 0xFF;                              (* P1[7:0] *)
    Z.lor (Z.shiftl (Z.land (Z.shiftr P3 16) 0x0F) 4)
          (Z.land (Z.shiftr P2 16) 0x0F);        (* P3[19:16], P2[19:16] *)
    Z.land (Z.shiftr P2 8) 0xFF;                 (* P2[15:8] *)
    Z.land P2 0xFF ].                            (* P2[7:0] *)

(** The R divider code in bits 6:4 of the third byte of an output
    divider's registers. *)
Definition with_rdiv (rcode : Z) (img : list Z) : list Z :=
  match img with
  | b0 :: b1 :: b2 :: rest => b0 :: b1 :: Z.lor b2 (Z.shiftl rcode 4) :: rest
  | _ => img
  end.

(** The parameters of the PLL feedback divider for [a + b / c]. *)
Definition pll_P1 (a b : Z) : Z := 128 * a + 128 * b / SI_PLL_C - 512.
Definition pll_P2 (a b : Z) : Z := 128 * b - SI_PLL_C * (128 * b / SI_PLL_C).

(** Reading the parameters back from the eight registers, and the
    multiplier [(a, b)] back from the parameters; the denominator is the
    fixed P3. *)
Definition unpack_params (img : list Z) : option (Z * Z * Z) :=
  match img with
  | [b0; b1; b2; b3; b4; b5; b6; b7] =>
      Some ((b2 mod 4) * 65536 + b3 * 256 + b4,
            (b5 mod 16) * 65536 + b6 * 256 + b7,
            (b5 / 16) * 65536 + b0 * 256 + b1)
  | _ => None
  end.

Definition decodeMSN (img : list Z) : option (Z * Z) :=
  match unpack_params img with
  | Some (P1, P2, P3) =>
      let a := (P1 + 512) / 128 in
      let tmp := (P1 + 512) mod 128 in
      Some (a, (P2 + P3 * tmp) / 128)
  | None => None
  end.

(** The order of the bytes as the specification words it: the top four
    bits of P3 share the third byte with the top two bits of P1, and the
    next four bits of P3 share the sixth byte with the top four bits of
    P2. *)
Definition spec_pll_layout (P1 P2 P3 : Z) : list Z :=
  [ Z.land (Z.shiftr P3 8) 0xFF;
    Z.land P3 0xFF;
    Z.lor (Z.shiftl (Z.land (Z.shiftr P3 16) 0x0F) 4)
          (Z.land (Z.shiftr P1 16) 0x03);
    Z.land (Z.shiftr P1 8) 0xFF;
    Z.land P1 0xFF;
    Z.lor (Z.shiftl (Z.land (Z.shiftr P3 12) 0x0F) 4)
          (Z.land (Z.shiftr P2 16) 0x0F);
    Z.land (Z.shiftr P2 8) 0xFF;
    Z.land P2 0xFF ].

(** ** The demonstration program and the reachable states *)

(** [setup] of [example.cpp], on the global driver object; the messages
    on the serial port are left out. *)
Definition setup (s : Si5351) : Si5351 :=
  let s := begin s in
  let s := resetPLL s in
  let s := setFreq 0 7074000 s in
  let s := setPhase 0 PH090 s in
  let s := enable 0 true s in
  let s := update 0 s in
  let s := setFreq 1 10000000 s in
  let s := enable 1 true s in
  update 1 s.

(** A call of the public interface after [begin], with arguments of the
    C++ parameter types. *)
Inductive api_call : Type :=
  | CallResetPLL
  | CallEnable (vfoIdx : Z) (en : bool)
  | CallSetPhase (vfoIdx phase : Z)
  | CallSetFreq (vfoIdx freqHz : Z)
  | CallUpdate (vfoIdx : Z).

Definition call_args_ok (c : api_call) : Prop :=
  match c with
  | CallResetPLL => True
  | CallEnable i _ => 0 <= i < 2 ^ 8
  | CallSetPhase i ph => 0 <= i < 2 ^ 8 /\ 0 <= ph < 2 ^ 8
  | CallSetFreq i f => 0 <= i < 2 ^ 8 /\ 0 <= f < 2 ^ 32
  | CallUpdate i => 0 <= i < 2 ^ 8
  end.

Definition run_call (c : api_call) (s : Si5351) : Si5351 :=
  match c with
  | CallResetPLL => resetPLL s
  | CallEnable i en => enable i en s
  | CallSetPhase i ph => setPhase i ph s
  | CallSetFreq i f => setFreq i f s
  | CallUpdate i => update i s
  end.

(** The states a program can bring the driver into: [begin] first, then
    any calls. *)
Inductive reachable (s0 : Si5351) : Si5351 -> Prop :=
  | reach_begin : reachable s0 (begin s0)
  | reach_call (c : api_call) (s : Si5351) :
      reachable s0 s -> call_args_ok c -> reachable s0 (run_call c s).

(** What the comments of [vfo_t] promise of a stored VFO. *)
Definition vfo_ok (v : vfo_t) : Prop :=
  0 <= freq v < 2 ^ 32 /\
  0 <= phase v <= 3 /\
  (ri v = 1 \/ ri v = 32 \/ ri v = 128) /\
  Z.even (msi v) = true /\ 4 <= msi v <= 126.

(** The bits of the output enable register that belong to a VFO index, as
    [enable] takes it. *)
Definition oe_mask (vfoIdx : Z) : Z := if vfoIdx =? 0 then 0x03 else 0x04.

(** The current value of a chip register, as a read returns it. *)
Definition reg_value (s : Si5351) (reg : Z) : Z :=
  default 0 (regs (Wire s) !! reg).

(** Lines 95-103 of [enable]: the new value of the output enable
    register, from the value read. *)
Definition enable_oe (vfoIdx : Z) (en : bool) (oe : Z) : Z :=
  if vfoIdx =? 0 then
    if en then u8 (Z.land oe (Z.lnot 0x03)) else u8 (Z.lor oe 0x03)
  else
    if en then u8 (Z.land oe (Z.lnot 0x04)) else u8 (Z.lor oe 0x04).

(** * Properties *)

(** ** Rounding in binary64

    The lemmas of this section follow the definitions of [SpecFloat] for
    mantissas of 53 bits: what the conversion of an integer gives, and in
    which bracket a rounded quotient lies. *)

Lemma digits2_pos_bounds (p : positive) :
  2 ^ (Zpos (digits2_pos p) - 1) <= Zpos p < 2 ^ Zpos (digits2_pos p).
Proof.
  induction p as [p IH | p IH |]; cbn [digits2_pos].
  - rewrite Pos2Z.inj_succ.
    replace (Z.succ (Zpos (digits2_pos p)) - 1) with (Zpos (digits2_pos p) - 1 + 1) by lia.
    rewrite Z.pow_succ_r by lia. rewrite Z.pow_add_r by lia.
    change (2 ^ 1) with 2. lia.
  - rewrite Pos2Z.inj_succ.
    replace (Z.succ (Zpos (digits2_pos p)) - 1) with (Zpos (digits2_pos p) - 1 + 1) by lia.
    rewrite Z.pow_succ_r by lia. rewrite Z.pow_add_r by lia.
    change (2 ^ 1) with 2. lia.
  - cbn. lia.
Qed.

Lemma digits2_pos_unique (p : positive) (k : Z) :
  2 ^ (k - 1) <= Zpos p < 2 ^ k -> Zpos (digits2_pos p) = k.
Proof.
  intros [Hlo Hhi].
  pose proof (digits2_pos_bounds p) as [Dlo Dhi].
  destruct (Z.lt_trichotomy (Zpos (digits2_pos p)) k) as [Hlt | [Heq | Hgt]]; [| exact Heq |].
  - assert (2 ^ Zpos (digits2_pos p) <= 2 ^ (k - 1)) by (apply Z.pow_le_mono_r; lia). lia.
  - assert (0 <= k \/ k < 0) as [Hk | Hk] by lia.
    + assert (2 ^ k <= 2 ^ (Zpos (digits2_pos p) - 1)) by (apply Z.pow_le_mono_r; lia). lia.
    + rewrite (Z.pow_neg_r 2 k) in Hhi by lia. lia.
Qed.

Lemma round_nearest_even_bracket (m : Z) (l : location) :
  m <= round_nearest_even m l <= m + 1.
Proof.
  destruct l as [| []]; cbn; try lia. destruct (Z.even m); lia.
Qed.

Lemma shr_m_shr_record_of_loc (m : Z) (l : location) :
  shr_m (shr_record_of_loc m l) = m.
Proof. destruct l as [| []]; reflexivity. Qed.

Lemma shr_m_shr_1 (mrs : shr_record) :
  0 <= shr_m mrs -> shr_m (shr_1 mrs) = shr_m mrs / 2.
Proof.
  destruct mrs as [m r s]. cbn [shr_m]. intros Hm.
  destruct m as [| p | p]; [reflexivity | | lia].
  destruct p as [p | p |]; cbn [shr_1 shr_m].
  - rewrite Pos2Z.inj_xI. apply (Z.div_unique _ 2 _ 1); lia.
  - rewrite Pos2Z.inj_xO. apply (Z.div_unique _ 2 _ 0); lia.
  - reflexivity.
Qed.

(** One shift step of the rounding on a mantissa of 53 or 54 bits. *)
Lemma shr_fexp_wide (m : positive) (e : Z) (l : location) :
  2 ^ 52 <= Zpos m < 2 ^ 54 -> -1074 <= e ->
  exists mrs k,
    shr_fexp 53 1024 (Zpos m) e l = (mrs, e + k) /\
    0 <= k <= 1 /\ shr_m mrs = Zpos m / 2 ^ k /\
    2 ^ 52 <= Zpos m / 2 ^ k < 2 ^ 53.
Proof.
  intros Hm He. unfold shr_fexp, fexp, emin. cbn [Zdigits2].
  destruct (Z_lt_dec (Zpos m) (2 ^ 53)) as [Hlt | Hge].
  - rewrite (digits2_pos_unique m 53) by (change (53 - 1) with 52; lia).
    replace (Z.max (53 + e - 53) (3 - 1024 - 53) - e) with 0 by lia.
    exists (shr_record_of_loc (Zpos m) l), 0. cbn [shr].
    rewrite shr_m_shr_record_of_loc, Z.add_0_r, Z.div_1_r. repeat split; lia.
  - rewrite (digits2_pos_unique m 54) by (change (54 - 1) with 53; lia).
    replace (Z.max (54 + e - 53) (3 - 1024 - 53) - e) with 1 by lia.
    exists (shr_1 (shr_record_of_loc (Zpos m) l)), 1. cbn [shr iter_pos].
    rewrite shr_m_shr_1 by (rewrite shr_m_shr_record_of_loc; lia).
    rewrite shr_m_shr_record_of_loc. change (2 ^ 1) with 2.
    repeat split; try lia.
    + apply Z.div_le_lower_bound; lia.
    + apply Z.div_lt_upper_bound; lia.
Qed.

(** Rounding a quotient or a product whose mantissa has 53 or 54 bits:
    the result is finite and normal, and its mantissa is the truncated
    one or the next. *)
Lemma binary_round_aux_bracket (s : bool) (m : positive) (e : Z) (l : location) :
  2 ^ 52 <= Zpos m < 2 ^ 54 -> -1074 <= e <= 969 ->
  exists mz k,
    binary_round_aux 53 1024 s (Zpos m) e l = S754_finite s mz (e + k) /\
    0 <= k <= 2 /\
    2 ^ 52 <= Zpos mz < 2 ^ 53 /\
    Zpos m / 2 ^ k <= Zpos mz <= Zpos m / 2 ^ k + 1.
Proof.
  intros Hm He. unfold binary_round_aux.
  destruct (shr_fexp_wide m e l Hm) as (mrs1 & k1 & E1 & Hk1 & Hm1 & Hq1); [lia |].
  rewrite E1.
  pose proof (round_nearest_even_bracket (shr_m mrs1) (loc_of_shr_record mrs1)) as Hr.
  set (m2 := round_nearest_even (shr_m mrs1) (loc_of_shr_record mrs1)) in *.
  rewrite Hm1 in Hr.
  destruct m2 as [| p2 | p2]; [lia | | lia].
  destruct (shr_fexp_wide p2 (e + k1) loc_Exact) as (mrs2 & k2 & E2 & Hk2 & Hm2 & Hq2);
    [lia | lia |].
  rewrite E2, Hm2.
  assert (Hp2 : 0 < Zpos p2 / 2 ^ k2) by lia.
  destruct (Zpos p2 / 2 ^ k2) as [| mz | mz] eqn:Emz; [lia | | lia].
  replace (e + k1 + k2 <=? 1024 - 53) with true by (symmetry; apply Z.leb_le; lia).
  exists mz, (k1 + k2). rewrite Z.add_assoc.
  split; [reflexivity |]. split; [lia |]. split; [lia |].
  assert (k2 = 0 \/ k2 = 1) as [-> | ->] by lia.
  - rewrite Z.div_1_r in Emz. rewrite Z.add_0_r. lia.
  - (* the rounding carried into bit 53 *)
    change (2 ^ 1) with 2 in *.
    assert (Zpos p2 = 2 ^ 53).
    { assert (2 ^ 53 <= Zpos p2 \/ Zpos p2 < 2 ^ 53) as [? | Hs] by lia; [lia |].
      assert (Zpos p2 / 2 < 2 ^ 52) by (apply Z.div_lt_upper_bound; lia). lia. }
    assert (Hmz : Zpos mz = 2 ^ 52).
    { rewrite <- Emz. replace (Zpos p2) with (2 ^ 52 * 2) by lia.
      apply Z.div_mul; lia. }
    rewrite Z.pow_add_r by lia. change (2 ^ 1) with 2.
    rewrite <- Z.div_div by lia.
    assert (Zpos m / 2 ^ k1 = 2 ^ 53 - 1) as -> by lia.
    rewrite Hmz. replace (2 ^ 53 - 1) with (1 + (2 ^ 52 - 1) * 2) by lia.
    rewrite Z.div_add by lia. change (1 / 2) with 0. lia.
Qed.

Lemma binary_round_aux_exact (s : bool) (m : positive) (e : Z) :
  2 ^ 52 <= Zpos m < 2 ^ 53 -> -1074 <= e <= 971 ->
  binary_round_aux 53 1024 s (Zpos m) e loc_Exact = S754_finite s m e.
Proof.
  intros Hm He. unfold binary_round_aux, shr_fexp, fexp, emin.
  cbn [Zdigits2 shr_record_of_loc].
  rewrite (digits2_pos_unique m 53) by (change (53 - 1) with 52; lia).
  replace (Z.max (53 + e - 53) (3 - 1024 - 53) - e) with 0 by lia.
  cbn [shr shr_m loc_of_shr_record round_nearest_even Zdigits2 shr_record_of_loc].
  rewrite (digits2_pos_unique m 53) by (change (53 - 1) with 52; lia).
  replace (Z.max (53 + e - 53) (3 - 1024 - 53) - e) with 0 by lia.
  cbn [shr shr_m].
  replace (e <=? 1024 - 53) with true by (symmetry; apply Z.leb_le; lia).
  reflexivity.
Qed.

Lemma iter_xO_value (p n : positive) :
  Zpos (Pos.iter xO p n) = Zpos p * 2 ^ Zpos n.
Proof.
  induction n as [| n IH] using Pos.peano_ind.
  - cbn. lia.
  - rewrite Pos.iter_succ, Pos2Z.inj_xO, IH, Pos2Z.inj_succ, Z.pow_succ_r by lia. lia.
Qed.

(** An integer below [2 ^ 53] converts exactly, to a normal number. *)
Lemma of_Z_normal (x : Z) :
  0 < x < 2 ^ 53 ->
  exists m e,
    Double.of_Z x = S754_finite false m e /\
    2 ^ 52 <= Zpos m < 2 ^ 53 /\ -52 <= e <= 0 /\ Zpos m = x * 2 ^ (- e).
Proof.
  intros Hx. destruct x as [| p | p]; [lia | | lia].
  unfold Double.of_Z, binary_normalize, binary_round, shl_align, fexp, emin.
  unfold Double.prec, Double.emax.
  pose proof (digits2_pos_bounds p) as Hd.
  set (d := Zpos (digits2_pos p)) in *.
  assert (Hd53 : 1 <= d <= 53).
  { split; [unfold d; lia |].
    destruct (Z_le_gt_dec d 53) as [? | Hgt]; [assumption |].
    assert (2 ^ 53 <= 2 ^ (d - 1)) by (apply Z.pow_le_mono_r; lia). lia. }
  replace (Z.max (d + 0 - 53) (3 - 1024 - 53) - 0) with (d - 53) by lia.
  destruct (d - 53) as [| n | n] eqn:En; [| lia |].
  - assert (d = 53) as Hd' by lia. rewrite Hd' in Hd. change (53 - 1) with 52 in Hd.
    rewrite binary_round_aux_exact by lia.
    exists p, 0. repeat split; try lia.
  - assert (Hn : Zpos n = 53 - d) by lia.
    assert (Hv : Zpos (Pos.iter xO p n) = Zpos p * 2 ^ (53 - d))
      by (rewrite iter_xO_value, Hn; reflexivity).
    assert (Hp : 2 ^ (d - 1) * 2 ^ (53 - d) = 2 ^ 52)
      by (rewrite <- Z.pow_add_r by lia; f_equal; lia).
    assert (Hp' : 2 ^ d * 2 ^ (53 - d) = 2 ^ 53)
      by (rewrite <- Z.pow_add_r by lia; f_equal; lia).
    assert (0 < 2 ^ (53 - d)) by (apply Z.pow_pos_nonneg; lia).
    assert (Hb : 2 ^ 52 <= Zpos (Pos.iter xO p n) < 2 ^ 53) by (rewrite Hv; nia).
    replace (Z.max (d + 0 - 53) (3 - 1024 - 53)) with (d - 53) by lia.
    rewrite binary_round_aux_exact by lia.
    exists (Pos.iter xO p n), (d - 53). repeat split; try lia.
    rewrite Hv. f_equal. f_equal. lia.
Qed.

Lemma to_u32_of_Z (n : Z) :
  0 <= n < 2 ^ 53 -> Double.to_u32 (Double.of_Z n) = Z.min n (2 ^ 32 - 1).
Proof.
  intros Hn. destruct (Z.eq_dec n 0) as [-> | Hnz]; [reflexivity |].
  destruct (of_Z_normal n) as (m & e & E & Hm & He & Hv); [lia |].
  rewrite E. cbn [Double.to_u32]. f_equal.
  rewrite Z.shiftl_div_pow2 by lia. rewrite Hv. apply Z.div_mul.
  apply Z.pow_nonzero; lia.
Qed.

(** Division of two positive normal numbers: the mantissa of the quotient
    is the truncated quotient of the mantissas, or the next integer. *)
Lemma div_normal_bracket (mx my : positive) (ex ey : Z) :
  2 ^ 52 <= Zpos mx < 2 ^ 53 -> 2 ^ 52 <= Zpos my < 2 ^ 53 ->
  -1000 <= ex - ey <= 1000 ->
  exists mz k,
    Double.div (S754_finite false mx ex) (S754_finite false my ey)
    = S754_finite false mz (ex - ey - 53 + k) /\
    0 <= k <= 2 /\ 2 ^ 52 <= Zpos mz < 2 ^ 53 /\
    (Zpos mx * 2 ^ 53 / Zpos my) / 2 ^ k <= Zpos mz
      <= (Zpos mx * 2 ^ 53 / Zpos my) / 2 ^ k + 1.
Proof.
  intros Hx Hy He.
  unfold Double.div, SFdiv, SFdiv_core_binary, fexp, emin, Double.prec, Double.emax.
  cbn [Zdigits2 xorb].
  rewrite (digits2_pos_unique mx 53) by (change (53 - 1) with 52; lia).
  rewrite (digits2_pos_unique my 53) by (change (53 - 1) with 52; lia).
  replace (Z.min (Z.max (53 + ex - (53 + ey) - 53) (3 - 1024 - 53)) (ex - ey))
    with (ex - ey - 53) by lia.
  replace (ex - ey - (ex - ey - 53)) with 53 by lia.
  rewrite Z.shiftl_mul_pow2 by lia.
  pose proof (Z_div_mod_eq_full (Zpos mx * 2 ^ 53) (Zpos my)) as Hdm.
  pose proof (Z.mod_pos_bound (Zpos mx * 2 ^ 53) (Zpos my) ltac:(lia)) as Hmod.
  destruct (Z.div_eucl (Zpos mx * 2 ^ 53) (Zpos my)) as [q r] eqn:Eqr.
  assert (Eq : Zpos mx * 2 ^ 53 / Zpos my = q) by (unfold Z.div; now rewrite Eqr).
  assert (Er : (Zpos mx * 2 ^ 53) mod Zpos my = r)
    by (unfold Z.modulo; now rewrite Eqr).
  rewrite Eq in *. rewrite Er in *. clear Eqr Eq Er.
  assert (Hq : 2 ^ 52 <= q < 2 ^ 54).
  { split.
    - destruct (Z_le_gt_dec (2 ^ 52) q) as [? | Hs]; [assumption | exfalso].
      assert (Zpos my * q <= Zpos my * (2 ^ 52 - 1))
        by (apply Z.mul_le_mono_nonneg_l; lia).
      lia.
    - destruct (Z_lt_ge_dec q (2 ^ 54)) as [? | Hs]; [assumption | exfalso].
      assert (Zpos my * 2 ^ 54 <= Zpos my * q)
        by (apply Z.mul_le_mono_nonneg_l; lia).
      lia. }
  destruct q as [| pq | pq]; [lia | | lia].
  destruct (binary_round_aux_bracket false pq (ex - ey - 53)
              (new_location (Zpos my) r) Hq) as (mz & k & E & Hk & Bz & Hb); [lia |].
  exists mz, k. rewrite E. repeat split; lia.
Qed.

Lemma of_Z_PLL_C :
  Double.of_Z SI_PLL_C = S754_finite false 8589934592000000 (-33).
Proof. reflexivity. Qed.

(** A value between two multiples of [S] has the quotient of the lower
    one. *)
Lemma div_between (n S q : Z) : 0 < S -> q * S <= n < (q + 1) * S -> n / S = q.
Proof.
  intros HS Hn. symmetry. apply (Z.div_unique n S q (n - q * S)); lia.
Qed.

(** The quotient [(double)x / (double)SI_PLL_C] of line 165, floored and
    cast back, is the integer quotient: the rounding of the division
    cannot reach the next integer, which is at least [1 / 1000000]
    away. *)
Lemma floor_div_PLL_C (x : Z) :
  0 <= x < 2 ^ 32 ->
  Double.to_u32
    (Double.floor (Double.div (Double.of_Z x) (Double.of_Z SI_PLL_C)))
  = x / SI_PLL_C.
Proof.
  intros Hx. destruct (Z.eq_dec x 0) as [-> | Hnz]; [reflexivity |].
  destruct (of_Z_normal x) as (mx & ex & Ex & Hmx & Hex & Hvx); [lia |].
  rewrite Ex, of_Z_PLL_C.
  destruct (div_normal_bracket mx 8589934592000000 ex (-33))
    as (mz & k & Ez & Hk & _ & Hb); [lia | lia | lia |].
  rewrite Ez. clear Ez Ex.
  unfold Double.floor, Double.floorZ. cbn [cond_Zopp].
  fold (Double.of_Z (Z.shiftl (Zpos mz) (ex - -33 - 53 + k))).
  set (c := SI_PLL_C) in *. assert (Hc : c = 1000000) by reflexivity.
  (* the exponent of the first operand *)
  assert (HE : 21 <= - ex).
  { destruct (Z_le_gt_dec 21 (- ex)) as [? | Hs]; [assumption | exfalso].
    assert (2 ^ (- ex) <= 2 ^ 20) by (apply Z.pow_le_mono_r; lia).
    assert (x * 2 ^ (- ex) <= x * 2 ^ 20) by (apply Z.mul_le_mono_nonneg_l; lia).
    lia. }
  set (S := 2 ^ (- ex + 20 - k)).
  assert (HS : 2 ^ 39 <= S) by (apply Z.pow_le_mono_r; lia).
  assert (HT : 2 ^ (- ex) * 2 ^ 20 = S * 2 ^ k).
  { unfold S. rewrite <- !Z.pow_add_r by lia. f_equal. lia. }
  (* the quotient of the mantissas is [x * T / c] *)
  assert (HQ : Zpos mx * 2 ^ 53 / 8589934592000000 = x * (S * 2 ^ k) / c).
  { rewrite Hvx, <- HT.
    replace (x * 2 ^ (- ex) * 2 ^ 53) with (x * (2 ^ (- ex) * 2 ^ 20) * 2 ^ 33) by lia.
    replace 8589934592000000 with (c * 2 ^ 33) by (rewrite Hc; reflexivity).
    apply Z.div_mul_cancel_r; lia. }
  rewrite HQ in Hb. clear HQ.
  rewrite Z.shiftl_div_pow2 by lia.
  replace (- (ex - -33 - 53 + k)) with (- ex + 20 - k) by lia. fold S.
  pose proof (Z_div_mod_eq_full x c) as Hdm.
  pose proof (Z.mod_pos_bound x c ltac:(lia)) as Hmod.
  set (kc := x / c) in *. set (r := x mod c) in *.
  set (Q := x * (S * 2 ^ k) / c) in *.
  assert (H2k : 1 <= 2 ^ k <= 4).
  { assert (k = 0 \/ k = 1 \/ k = 2) as [-> | [-> | ->]] by lia; cbn; lia. }
  assert (HQlo : kc * (S * 2 ^ k) <= Q).
  { apply Z.div_le_lower_bound; [lia |]. nia. }
  assert (HQhi : Q < (kc + 1) * (S * 2 ^ k) - 2 ^ k).
  { apply Z.div_lt_upper_bound; [lia |]. nia. }
  assert (Hlo : kc * S <= Q / 2 ^ k).
  { apply Z.div_le_lower_bound; [lia |]. nia. }
  assert (Hhi : Q / 2 ^ k < (kc + 1) * S - 1).
  { apply Z.div_lt_upper_bound; [lia |]. nia. }
  assert (Hn : Zpos mz / S = kc) by (apply div_between; lia).
  rewrite Hn.
  assert (0 <= kc <= x). { unfold kc. split; [apply Z.div_pos; lia |]. apply Z.div_le_upper_bound; nia. }
  rewrite to_u32_of_Z by lia. lia.
Qed.

Lemma iter_pos_nat {A : Type} (f : A -> A) (p : positive) (x : A) :
  SpecFloat.iter_pos f p x = Nat.iter (Pos.to_nat p) f x.
Proof.
  revert x. induction p as [p IH | p IH |]; intros x; cbn [SpecFloat.iter_pos].
  - rewrite !IH, Pos2Nat.inj_xI, Nat.iter_succ_r.
    replace (2 * Pos.to_nat p)%nat with (Pos.to_nat p + Pos.to_nat p)%nat by lia.
    now rewrite Nat.iter_add.
  - rewrite !IH, Pos2Nat.inj_xO.
    replace (2 * Pos.to_nat p)%nat with (Pos.to_nat p + Pos.to_nat p)%nat by lia.
    now rewrite Nat.iter_add.
  - reflexivity.
Qed.

(** Shifting out zeros leaves an exact mantissa. *)
Lemma iter_shr_1_exact (n : nat) (m : positive) (M : Z) :
  M = Zpos m * 2 ^ Z.of_nat n ->
  Nat.iter n shr_1 (Build_shr_record M false false)
  = Build_shr_record (Zpos m) false false.
Proof.
  revert M. induction n as [| n IH]; intros M HM.
  - rewrite HM. cbn [Nat.iter Z.of_nat]. now rewrite Z.mul_1_r.
  - rewrite Nat.iter_succ_r.
    assert (HM' : M = 2 * (Zpos m * 2 ^ Z.of_nat n)).
    { rewrite HM, Nat2Z.inj_succ, Z.pow_succ_r by lia. ring. }
    assert (0 < Zpos m * 2 ^ Z.of_nat n) by (apply Z.mul_pos_pos; [lia | apply Z.pow_pos_nonneg; lia]).
    destruct (Zpos m * 2 ^ Z.of_nat n) as [| q | q] eqn:Eq; [lia | | lia].
    rewrite HM'. cbn [shr_1 Z.mul Pos.mul orb]. apply IH. reflexivity.
Qed.

(** Rounding an exact mantissa with trailing zeros drops the zeros. *)
Lemma binary_round_aux_exact_shift (s : bool) (M m : positive) (e n : Z) :
  2 ^ 52 <= Zpos m < 2 ^ 53 -> 0 <= n ->
  Zpos M = Zpos m * 2 ^ n ->
  -1074 <= e -> e + n <= 971 ->
  binary_round_aux 53 1024 s (Zpos M) e loc_Exact = S754_finite s m (e + n).
Proof.
  intros Hm Hn HM He Hen.
  destruct (Z.eq_dec n 0) as [-> | Hn0].
  { rewrite Z.mul_1_r in HM. injection HM as ->. rewrite Z.add_0_r.
    apply binary_round_aux_exact; lia. }
  assert (HdM : Zpos (digits2_pos M) = 53 + n).
  { apply digits2_pos_unique. rewrite HM.
    replace (53 + n - 1) with (52 + n) by lia. rewrite !Z.pow_add_r by lia.
    assert (0 < 2 ^ n) by (apply Z.pow_pos_nonneg; lia). nia. }
  unfold binary_round_aux, shr_fexp, fexp, emin. cbn [Zdigits2 shr_record_of_loc].
  rewrite HdM.
  replace (Z.max (53 + n + e - 53) (3 - 1024 - 53) - e) with n by lia.
  destruct n as [| pn | pn]; [lia | | lia]. cbn [shr].
  rewrite iter_pos_nat.
  rewrite (iter_shr_1_exact (Pos.to_nat pn) m (Zpos M))
    by (rewrite positive_nat_Z; exact HM).
  cbn [shr_m loc_of_shr_record round_nearest_even Zdigits2 shr_record_of_loc].
  rewrite (digits2_pos_unique m 53) by (change (53 - 1) with 52; lia).
  replace (Z.max (53 + (e + Zpos pn) - 53) (3 - 1024 - 53) - (e + Zpos pn)) with 0 by lia.
  cbn [shr shr_m].
  replace (e + Zpos pn <=? 1024 - 53) with true by (symmetry; apply Z.leb_le; lia).
  reflexivity.
Qed.

(** A product of integers that stays below [2 ^ 53] is exact. *)
Lemma mul_of_Z (a b : Z) :
  0 <= a < 2 ^ 53 -> 0 <= b < 2 ^ 53 -> a * b < 2 ^ 53 ->
  Double.mul (Double.of_Z a) (Double.of_Z b) = Double.of_Z (a * b).
Proof.
  intros Ha Hb Hab.
  destruct (Z.eq_dec a 0) as [-> | Ha0].
  { rewrite Z.mul_0_l. destruct (Z.eq_dec b 0) as [-> | Hb0]; [reflexivity |].
    destruct (of_Z_normal b) as (mb & eb & Eb & _); [lia |].
    rewrite Eb. reflexivity. }
  destruct (Z.eq_dec b 0) as [-> | Hb0].
  { rewrite Z.mul_0_r. destruct (of_Z_normal a) as (ma & ea & Ea & _); [lia |].
    rewrite Ea. reflexivity. }
  destruct (of_Z_normal a) as (ma & ea & Ea & Hma & Hea & Hva); [lia |].
  destruct (of_Z_normal b) as (mb & eb & Eb & Hmb & Heb & Hvb); [lia |].
  destruct (of_Z_normal (a * b)) as (mc & ec & Ec & Hmc & Hec & Hvc); [nia |].
  rewrite Ea, Eb, Ec. unfold Double.mul, SFmul, Double.prec, Double.emax.
  cbn [xorb].
  assert (Hprod : Zpos (ma * mb) = a * b * (2 ^ (- ea) * 2 ^ (- eb)))
    by (rewrite Pos2Z.inj_mul, Hva, Hvb; ring).
  rewrite <- Z.pow_add_r in Hprod by lia.
  assert (Hbig : 2 ^ 104 <= Zpos (ma * mb)) by (rewrite Pos2Z.inj_mul; nia).
  assert (Hn : 0 <= ec - ea - eb).
  { destruct (Z_le_gt_dec 0 (ec - ea - eb)) as [? | Hs]; [assumption | exfalso].
    assert (2 ^ (- ea + - eb) <= 2 ^ (- ec)) by (apply Z.pow_le_mono_r; lia).
    assert (a * b * 2 ^ (- ea + - eb) <= a * b * 2 ^ (- ec))
      by (apply Z.mul_le_mono_nonneg_l; nia).
    lia. }
  rewrite (binary_round_aux_exact_shift false (ma * mb) mc (ea + eb) (ec - ea - eb));
    try lia.
  - f_equal. lia.
  - rewrite Hprod, Hvc.
    replace (- ea + - eb) with (- ec + (ec - ea - eb)) by lia.
    rewrite Z.pow_add_r by lia. ring.
Qed.

(** The integer content of a rounded quotient [p / x] of two converted
    integers with [p < 2 ^ 32 * x]: the exponent of the result is at most
    [-20], and the mantissa is within one unit of the exact quotient. *)
Lemma quotient_drift (p x mp mx mz ep ex k : Z) :
  0 < p -> 0 < x -> p < 2 ^ 32 * x ->
  mp = p * 2 ^ (- ep) -> mx = x * 2 ^ (- ex) ->
  -52 <= ep <= 0 -> -52 <= ex <= 0 ->
  2 ^ 52 <= mp < 2 ^ 53 -> 2 ^ 52 <= mx < 2 ^ 53 ->
  0 <= k <= 2 -> 2 ^ 52 <= mz ->
  (mp * 2 ^ 53 / mx) / 2 ^ k <= mz <= (mp * 2 ^ 53 / mx) / 2 ^ k + 1 ->
  let E := - (ep - ex - 53 + k) in
  20 <= E /\ Z.abs (mz * x - p * 2 ^ E) <= x.
Proof.
  intros Hp Hx Hpx Hmp Hmx Hep Hex Bp Bx Hk Hmz Hb E.
  assert (HK : 1 <= 2 ^ k <= 4).
  { assert (k = 0 \/ k = 1 \/ k = 2) as [-> | [-> | ->]] by lia; cbn; lia. }
  set (K := 2 ^ k) in *.
  assert (Pp : 0 < 2 ^ (- ep)) by (apply Z.pow_pos_nonneg; lia).
  assert (Px : 0 < 2 ^ (- ex)) by (apply Z.pow_pos_nonneg; lia).
  (* the exponents of the operands differ by at most 32 *)
  assert (Hd : ep - ex <= 32).
  { destruct (Z_le_gt_dec (ep - ex) 32) as [? | Hs]; [assumption | exfalso].
    assert (2 ^ (- ex) = 2 ^ (- ep) * 2 ^ (ep - ex))
      by (rewrite <- Z.pow_add_r by lia; f_equal; lia).
    assert (2 ^ 33 <= 2 ^ (ep - ex)) by (apply Z.pow_le_mono_r; lia).
    assert (x * 2 ^ (- ep) * 2 ^ 33 <= x * 2 ^ (- ep) * 2 ^ (ep - ex))
      by (apply Z.mul_le_mono_nonneg_l; nia).
    assert (p * 2 ^ (- ep) < 2 ^ 32 * x * 2 ^ (- ep))
      by (apply Z.mul_lt_mono_pos_r; lia).
    nia. }
  assert (HE0 : 19 <= E) by (unfold E; lia).
  assert (PE : 0 < 2 ^ E) by (apply Z.pow_pos_nonneg; lia).
  (* the two roundings of the quotient as one *)
  rewrite Z.div_div in Hb by lia.
  pose proof (Z_div_mod_eq_full (mp * 2 ^ 53) (mx * K)) as Hdm.
  pose proof (Z.mod_pos_bound (mp * 2 ^ 53) (mx * K) ltac:(nia)) as Hmod.
  set (Q := mp * 2 ^ 53 / (mx * K)) in *.
  set (G := K * 2 ^ (- ex)).
  assert (PG : 0 < G) by (unfold G; nia).
  assert (HA : mp * 2 ^ 53 = p * 2 ^ E * G).
  { unfold G, K. rewrite Hmp.
    replace (p * 2 ^ E * (2 ^ k * 2 ^ (- ex))) with (p * (2 ^ E * 2 ^ k * 2 ^ (- ex))) by ring.
    rewrite <- !Z.pow_add_r by lia.
    replace (E + k + - ex) with (- ep + 53) by (unfold E; lia).
    rewrite Z.pow_add_r by lia. ring. }
  assert (HX : mx * K = x * G) by (unfold G; rewrite Hmx; ring).
  assert (Habs : Z.abs (mz * x - p * 2 ^ E) <= x).
  { assert (Z.abs (mz * x - p * 2 ^ E) * G <= x * G); [| nia].
    rewrite <- (Z.abs_eq G) at 1 by lia. rewrite <- Z.abs_mul.
    replace ((mz * x - p * 2 ^ E) * G) with (mz * (x * G) - p * 2 ^ E * G) by ring.
    rewrite <- HA, <- HX. apply Z.abs_le. nia. }
  split; [| exact Habs].
  destruct (Z_le_gt_dec 20 E) as [? | Hs]; [assumption | exfalso].
  assert (E = 19) by lia.
  assert (mz * x <= p * 2 ^ E + x) by lia.
  assert (2 ^ 52 * x <= mz * x) by (apply Z.mul_le_mono_nonneg_r; lia).
  replace E with 19 in * by lia. lia.
Qed.

Lemma Q_resolution (n : Z) (D : positive) (xtal p : Z) :
  Z.abs (n * xtal - p * Zpos D) * 1000000 <= xtal * Zpos D ->
  (Qabs (Qred ((n # D) * inject_Z xtal - inject_Z p)) * inject_Z SI_PLL_C
   <= inject_Z xtal)%Q.
Proof.
  intros H. rewrite Qred_correct.
  unfold Qle, Qabs, Qmult, Qminus, Qplus, Qopp, inject_Z, SI_PLL_C.
  cbn [Qnum Qden]. rewrite !Pos.mul_1_r, !Z.mul_1_r.
  replace (n * xtal + - p * Zpos D) with (n * xtal - p * Zpos D) by ring.
  exact H.
Qed.

(** The multiplier of line 235 is the ratio [msi * ri * freq / xtal] up to
    the resolution of the fraction, as long as the ratio is below
    [2 ^ 32]. *)
Lemma evaluate_msn_within_resolution (M R f xtal ph : Z) :
  0 <= M < 2 ^ 8 -> 0 <= R < 2 ^ 8 -> 0 <= f < 2 ^ 32 ->
  0 < xtal < 2 ^ 32 -> M * R * f < 2 ^ 32 * xtal ->
  within_resolution xtal (mk_vfo f ph R M (evaluate_msn M R f xtal)).
Proof.
  intros Hm Hr Hf Hx Hpx.
  unfold within_resolution, pll_drift, evaluate_msn. cbn [msn msi ri freq].
  assert (Hmr : 0 <= M * R < 2 ^ 16) by nia.
  assert (Hp : 0 <= M * R * f < 2 ^ 48) by nia.
  rewrite mul_of_Z by lia. rewrite mul_of_Z by lia.
  set (p := M * R * f) in *.
  destruct (of_Z_normal xtal) as (mx & ex & Ex & Bx & Hex & Hvx); [lia |].
  rewrite Ex.
  destruct (Z.eq_dec p 0) as [Hp0 | Hp0].
  - rewrite Hp0. cbn [Double.of_Z binary_normalize Double.div SFdiv xorb Double.to_Q].
    apply (Q_resolution 0 1 xtal 0). cbn. lia.
  - destruct (of_Z_normal p) as (mp & ep & Ep & Bp & Hep & Hvp); [lia |].
    rewrite Ep.
    destruct (div_normal_bracket mp mx ep ex Bp Bx)
      as (mz & k & Ez & Hk & Bz & Hb); [lia |].
    rewrite Ez.
    destruct (quotient_drift p xtal (Zpos mp) (Zpos mx) (Zpos mz) ep ex k)
      as [HE Habs]; try lia.
    set (E := - (ep - ex - 53 + k)) in *.
    cbn [Double.to_Q cond_Zopp].
    replace (0 <=? ep - ex - 53 + k) with false by (symmetry; apply Z.leb_gt; lia).
    fold E.
    assert (PE : 2 ^ 20 <= 2 ^ E) by (apply Z.pow_le_mono_r; lia).
    apply Q_resolution. rewrite Z2Pos.id by lia.
    change (2 ^ 20) with 1048576 in PE.
    apply Z.le_trans with (xtal * 1000000).
    + apply Z.mul_le_mono_nonneg_r; lia.
    + apply Z.mul_le_mono_nonneg_l; lia.
Qed.

(** ** Fixed-width arithmetic and the VFO array *)

Lemma u8_small (z : Z) : 0 <= z < 2 ^ 8 -> u8 z = z.
Proof. intros H. unfold u8. apply Z.mod_small, H. Qed.

Lemma u32_small (z : Z) : 0 <= z < 2 ^ 32 -> u32 z = z.
Proof. intros H. unfold u32. apply Z.mod_small, H. Qed.

Lemma u64_small (z : Z) : 0 <= z < 2 ^ 64 -> u64 z = z.
Proof. intros H. unfold u64. apply Z.mod_small, H. Qed.

Lemma land_1_parity (n : Z) : Z.land n 1 = if Z.even n then 0 else 1.
Proof.
  change 1 with (Z.ones 1) at 1. rewrite Z.land_ones by lia.
  change (2 ^ 1) with 2. apply Zmod_even.
Qed.

Lemma vfo_set_vfo (i : Z) (v : vfo_t) (s : Si5351) :
  0 <= i <= 1 -> _vfo (set_vfo i v s) i = v.
Proof.
  intros Hi. unfold _vfo, set_vfo. destruct (i =? 0) eqn:E; cbn; now rewrite ?E.
Qed.

Lemma vfo_set_vfo_other (i j : Z) (v : vfo_t) (s : Si5351) :
  0 <= i <= 1 -> 0 <= j <= 1 -> i <> j -> _vfo (set_vfo i v s) j = _vfo s j.
Proof.
  intros Hi Hj Hij. unfold _vfo, set_vfo.
  destruct (i =? 0) eqn:Ei, (j =? 0) eqn:Ej; cbn; try reflexivity; lia.
Qed.

(** ** The planner *)

(** What [setFreq] stores when the planner runs. *)
Lemma setFreq_planned (s : Si5351) (i f : Z) :
  0 <= i <= 1 -> freq (_vfo s i) <> f ->
  _vfo (setFreq i f s) i
  = mk_vfo f (phase (_vfo s i)) (u8 (evaluate_ri f))
           (evaluate_msi f (evaluate_ri f))
           (evaluate_msn (evaluate_msi f (evaluate_ri f)) (evaluate_ri f) f
                         (_xtal s)).
Proof.
  intros Hi Hf. unfold setFreq, _evaluate.
  replace (1 <? i) with false by (symmetry; apply Z.ltb_ge; lia).
  replace (freq (_vfo s i) =? f) with false by (symmetry; apply Z.eqb_neq, Hf).
  cbv zeta. now rewrite vfo_set_vfo.
Qed.

Lemma evaluate_ri_spec (f : Z) : evaluate_ri f = spec_rDivider f.
Proof. reflexivity. Qed.

Lemma evaluate_ri_cases (f : Z) :
  (f < 1000000 /\ evaluate_ri f = 128) \/
  (1000000 <= f < 3000000 /\ evaluate_ri f = 32) \/
  (3000000 <= f /\ evaluate_ri f = 1).
Proof.
  unfold evaluate_ri.
  destruct (f <? 1000000) eqn:E1; [left; split; [lia | reflexivity] |].
  destruct (f <? 3000000) eqn:E2; [right; left | right; right]; (split; [lia | reflexivity]).
Qed.

(** The tentative divider of line 220 for a frequency of 6 MHz or more. *)
Lemma tentative_bounds (f : Z) :
  6000000 <= f -> 0 <= 700000000 / f <= 116.
Proof.
  intros Hf. split.
  - apply Z.div_pos; lia.
  - apply Z.lt_succ_r. apply Z.div_lt_upper_bound; lia.
Qed.

Lemma evaluate_msi_spec (f : Z) :
  0 <= f < 2 ^ 32 -> evaluate_msi f (evaluate_ri f) = spec_msDivider f.
Proof.
  intros Hf. unfold evaluate_msi, spec_msDivider.
  change (spec_rDivider f) with (evaluate_ri f).
  destruct (f <? 6000000) eqn:E6; [reflexivity |].
  assert (H6 : 6000000 <= f) by lia.
  destruct (evaluate_ri_cases f) as [[? _] | [[? _] | [_ ->]]]; [lia | lia |].
  rewrite Z.mul_1_r. rewrite (u64_small f) by lia.
  pose proof (tentative_bounds f H6) as Ht.
  set (t := 700000000 / f) in *.
  rewrite (u32_small t) by lia.
  unfold clamp, round_up_even. cbv zeta.
  destruct (t <? 4) eqn:E4.
  - replace (Z.max 4 (Z.min 126 t)) with 4 by lia. reflexivity.
  - replace (Z.max 4 (Z.min 126 t)) with t by lia.
    replace (126 <? t) with false by (symmetry; apply Z.ltb_ge; lia).
    rewrite land_1_parity. destruct (Z.even t) eqn:Ev; cbn [Z.eqb].
    + replace (126 <? t) with false by (symmetry; apply Z.ltb_ge; lia).
      rewrite u8_small by lia. lia.
    + rewrite (u32_small (t + 1)) by lia.
      replace (126 <? t + 1) with false by (symmetry; apply Z.ltb_ge; lia).
      rewrite u8_small by lia. lia.
Qed.

Lemma spec_msDivider_even (f : Z) : Z.even (spec_msDivider f) = true.
Proof.
  unfold spec_msDivider. destruct (f <? 6000000); [reflexivity |].
  set (t := clamp 4 126 _). unfold round_up_even.
  destruct (Z.even t) eqn:Ev.
  - destruct (Z.min_spec 126 t) as [[_ ->] | [_ ->]]; [reflexivity | exact Ev].
  - assert (Ev' : Z.even (t + 1) = true).
    { rewrite Z.even_add, Ev. reflexivity. }
    destruct (Z.min_spec 126 (t + 1)) as [[_ ->] | [_ ->]]; [reflexivity | exact Ev'].
Qed.

Lemma spec_msDivider_range (f : Z) : 4 <= spec_msDivider f <= 126.
Proof.
  unfold spec_msDivider, clamp, round_up_even.
  destruct (f <? 6000000); [lia |].
  destruct (Z.even _); lia.
Qed.

(** C2: when the planner runs for a target frequency [f], it stores
    [rDivider] = 128 below 1 MHz, 32 from 1 MHz to below 3 MHz and 1 from
    3 MHz, and [msDivider] = 126 below 6 MHz and otherwise the floor of
    700,000,000 / (f * rDivider) clamped to [4,126], rounded up to even and
    capped at 126; so [msDivider] is even and within [4,126]. *)
Theorem planner_dividers (s : Si5351) (i f : Z) :
  0 <= i <= 1 -> 0 <= f < 2 ^ 32 -> freq (_vfo s i) <> f ->
  let v := _vfo (setFreq i f s) i in
  ri v = spec_rDivider f /\
  msi v = spec_msDivider f /\
  Z.even (msi v) = true /\
  4 <= msi v <= 126.
Proof.
  intros Hi Hf Hne v. subst v. rewrite setFreq_planned by assumption.
  cbn [ri msi]. rewrite evaluate_msi_spec by assumption.
  split; [| split; [reflexivity | split]].
  - rewrite evaluate_ri_spec. apply u8_small.
    unfold spec_rDivider. destruct (f <? 1000000), (f <? 3000000); lia.
  - apply spec_msDivider_even.
  - apply spec_msDivider_range.
Qed.

Lemma planner_dividers_witness :
  let v := _vfo (setFreq 1 14200000 (begin (Si5351_ctor 25000000 idle_bus))) 1 in
  ri v = 1 /\ msi v = 50 /\ Z.even (msi v) = true /\ 4 <= msi v <= 126.
Proof.
  apply (planner_dividers (begin (Si5351_ctor 25000000 idle_bus)) 1 14200000).
  - lia.
  - lia.
  - vm_compute. discriminate.
Defined.

(** The divider of the band from 6 MHz on, against the quotient it is
    derived from. *)
Lemma spec_msDivider_high (f : Z) :
  6000000 <= f ->
  let t := 700000000 / f in
  f * t <= 700000000 < f * t + f /\
  ((t < 4 /\ spec_msDivider f = 4) \/
   (4 <= t /\ (spec_msDivider f = t \/ spec_msDivider f = t + 1))).
Proof.
  intros Hf. cbv zeta. pose proof (tentative_bounds f Hf) as Ht.
  pose proof (Z.mul_div_le 700000000 f ltac:(lia)) as Hlo.
  pose proof (Z.mul_succ_div_gt 700000000 f ltac:(lia)) as Hhi.
  unfold spec_msDivider, clamp, round_up_even.
  replace (f <? 6000000) with false by (symmetry; apply Z.ltb_ge; lia).
  replace (spec_rDivider f) with 1
    by (unfold spec_rDivider; destruct (f <? 1000000) eqn:?, (f <? 3000000) eqn:?; lia).
  rewrite Z.mul_1_r.
  set (t := 700000000 / f) in *.
  split; [lia |].
  destruct (Z_lt_ge_dec t 4) as [H4 | H4].
  - left. split; [assumption |].
    replace (Z.max 4 (Z.min 126 t)) with 4 by lia. reflexivity.
  - right. split; [lia |].
    replace (Z.max 4 (Z.min 126 t)) with t by lia.
    destruct (Z.even t); [left | right]; lia.
Qed.

(** C1: when the planner runs for a target frequency [f], the stored
    parameters satisfy 400,000,000 <= f * rDivider * msDivider <=
    900,000,000 exactly when [f] lies in 24,802 .. 55,803 Hz or in
    3,174,604 .. 225,000,000 Hz, whatever the crystal frequency; at any
    other frequency the out-of-range parameters are stored all the same. *)
Theorem planner_vco_range_iff (s : Si5351) (i f : Z) :
  0 <= i <= 1 -> 0 <= f < 2 ^ 32 -> freq (_vfo s i) <> f ->
  vco_in_range (_vfo (setFreq i f s) i) <-> vco_band f.
Proof.
  intros Hi Hf Hne. rewrite setFreq_planned by assumption.
  unfold vco_in_range, vco_of, vco_band, SI_VCO_LO, SI_VCO_HI. cbn [freq ri msi].
  rewrite evaluate_msi_spec by assumption.
  destruct (evaluate_ri_cases f) as [[Hb ->] | [[Hb ->] | [Hb ->]]];
    rewrite u8_small by lia.
  - (* below 1 MHz: R = 128, M = 126 *)
    unfold spec_msDivider.
    replace (f <? 6000000) with true by (symmetry; apply Z.ltb_lt; lia). lia.
  - (* 1 MHz to 3 MHz: R = 32, M = 126 *)
    unfold spec_msDivider.
    replace (f <? 6000000) with true by (symmetry; apply Z.ltb_lt; lia). lia.
  - destruct (Z_lt_ge_dec f 6000000) as [H6 | H6].
    + (* 3 MHz to 6 MHz: R = 1, M = 126 *)
      unfold spec_msDivider.
      replace (f <? 6000000) with true by (symmetry; apply Z.ltb_lt; lia). lia.
    + (* from 6 MHz: R = 1, M from the 700 MHz quotient *)
      destruct (spec_msDivider_high f ltac:(lia)) as [Hq HM].
      set (t := 700000000 / f) in *.
      destruct HM as [[Ht ->] | [Ht [-> | ->]]].
      * assert (f * (t + 1) <= f * 4) by (apply Z.mul_le_mono_nonneg_l; lia). lia.
      * assert (f * 4 <= f * t) by (apply Z.mul_le_mono_nonneg_l; lia). lia.
      * assert (f * 4 <= f * t) by (apply Z.mul_le_mono_nonneg_l; lia). lia.
Qed.

Lemma planner_vco_range_iff_witness :
  vco_in_range
    (_vfo (setFreq 0 14200000 (begin (Si5351_ctor 25000000 idle_bus))) 0)
  <-> vco_band 14200000.
Proof.
  apply (planner_vco_range_iff (begin (Si5351_ctor 25000000 idle_bus)) 0 14200000).
  - lia.
  - lia.
  - vm_compute. discriminate.
Defined.

(** C1 as it is worded fails: planning 500 kHz stores R = 128 and
    M = 126, a VCO frequency of 8.064 GHz. *)
Lemma planner_vco_out_of_range :
  let s := setFreq 1 500000 (begin (Si5351_ctor 25000000 idle_bus)) in
  freq (_vfo s 1) = 500000 /\
  vco_of (_vfo s 1) = 8064000000 /\
  ~ vco_in_range (_vfo s 1).
Proof.
  cbv zeta. split; [reflexivity |]. split; [reflexivity |].
  unfold vco_in_range. replace (vco_of _) with 8064000000 by reflexivity.
  unfold SI_VCO_LO, SI_VCO_HI. lia.
Qed.

(** C7: with a 25 MHz crystal, [setFreq(0, 7074000)] on a VFO whose
    stored target is another frequency, so that the planner runs, yields
    R = 1 and M = 98: the quotient 700,000,000 / 7,074,000 is 98, which is
    even already.  M is even and within [4,126], the VCO frequency
    693,252,000 Hz is in range, and the multiplier read back by the encoder
    is 27 + 730080/1000000. *)
Theorem example_7074000_plan (s : Si5351) :
  _xtal s = 25000000 -> freq (_vfo s 0) <> 7074000 ->
  let v := _vfo (setFreq 0 7074000 s) 0 in
  ri v = 1 /\ msi v = 98 /\
  Z.even (msi v) = true /\ 4 <= msi v <= 126 /\
  vco_of v = 693252000 /\ vco_in_range v /\
  msn_A (msn v) = 27 /\ msn_B (msn v) = 730080.
Proof.
  intros Hx Hne v. subst v. rewrite setFreq_planned by (assumption || lia).
  rewrite Hx. unfold vco_in_range, vco_of. cbn [freq ri msi msn].
  replace (evaluate_ri 7074000) with 1 by reflexivity.
  replace (evaluate_msi 7074000 1) with 98 by reflexivity.
  replace (u8 1) with 1 by reflexivity.
  unfold SI_VCO_LO, SI_VCO_HI.
  repeat split; try reflexivity; lia.
Qed.

Lemma example_7074000_plan_witness :
  let v := _vfo (setFreq 0 7074000 (Si5351_ctor 25000000 idle_bus)) 0 in
  ri v = 1 /\ msi v = 98 /\
  Z.even (msi v) = true /\ 4 <= msi v <= 126 /\
  vco_of v = 693252000 /\ vco_in_range v /\
  msn_A (msn v) = 27 /\ msn_B (msn v) = 730080.
Proof.
  apply (example_7074000_plan (Si5351_ctor 25000000 idle_bus)).
  - reflexivity.
  - vm_compute. discriminate.
Defined.

(** C7 as it is worded fails: M is never 96.  Where the planner runs it
    stores 98; in the sequence of [example.cpp], where [begin] has stored
    the target already, the call changes nothing and M stays 106. *)
Lemma example_7074000_not_96 :
  let fresh := setFreq 0 7074000 (Si5351_ctor 25000000 idle_bus) in
  let started := setFreq 0 7074000 (begin (Si5351_ctor 25000000 idle_bus)) in
  msi (_vfo fresh 0) = 98 /\ msi (_vfo started 0) = 106 /\
  msi (_vfo fresh 0) <> 96 /\ msi (_vfo started 0) <> 96.
Proof.
  cbv zeta.
  replace (msi (_vfo (setFreq 0 7074000 (Si5351_ctor 25000000 idle_bus)) 0))
    with 98 by reflexivity.
  replace (msi (_vfo (setFreq 0 7074000
                        (begin (Si5351_ctor 25000000 idle_bus))) 0))
    with 106 by reflexivity.
  repeat split; lia.
Qed.

(** ** Calls that change nothing *)

(** C10: for a VFO index 0 or 1 and a frequency equal to the VFO's stored
    target, [setFreq] returns at once: the planner's computation is
    skipped, the driver state is unchanged, and nothing is written to the
    bus. *)
Theorem setFreq_same_frequency_noop (s : Si5351) (i f : Z) :
  0 <= i <= 1 -> freq (_vfo s i) = f -> setFreq i f s = s.
Proof.
  intros Hi Hf. unfold setFreq, _evaluate.
  replace (1 <? i) with false by (symmetry; apply Z.ltb_ge; lia).
  rewrite Hf, Z.eqb_refl. reflexivity.
Qed.

Lemma setFreq_same_frequency_noop_witness :
  setFreq 1 10000000 (begin (Si5351_ctor 25000000 idle_bus))
  = begin (Si5351_ctor 25000000 idle_bus).
Proof.
  apply (setFreq_same_frequency_noop
           (begin (Si5351_ctor 25000000 idle_bus)) 1 10000000).
  - lia.
  - reflexivity.
Defined.

Lemma setFreq_invalid_index (s : Si5351) (i f : Z) :
  1 < i -> setFreq i f s = s.
Proof.
  intros Hi. unfold setFreq.
  now replace (1 <? i) with true by (symmetry; apply Z.ltb_lt, Hi).
Qed.

Lemma update_invalid_index (s : Si5351) (i : Z) :
  1 < i -> update i s = s.
Proof.
  intros Hi. unfold update.
  now replace (1 <? i) with true by (symmetry; apply Z.ltb_lt, Hi).
Qed.

Lemma setPhase_invalid (s : Si5351) (i ph : Z) :
  i <> 0 \/ 3 < ph -> setPhase i ph s = s.
Proof.
  intros H. unfold setPhase.
  destruct (i =? 0) eqn:Ei, (3 <? ph) eqn:Ep; cbn; try reflexivity; lia.
Qed.

(** [enable] has no test of its index: any index other than 0 is taken
    for VFO1. *)
Lemma enable_other_index (s : Si5351) (i : Z) (en : bool) :
  i <> 0 -> enable i en s = enable 1 en s.
Proof.
  intros Hi. unfold enable. destruct (_rd SI_CLK_OE s) as [oe s'].
  now replace (i =? 0) with false by (symmetry; apply Z.eqb_neq, Hi).
Qed.

Lemma enable_writes (s : Si5351) (i : Z) (en : bool) :
  exists oe,
    log (Wire (enable i en s))
    = log (Wire s) ++ [BusRead SI_CLK_OE; BusWrite SI_CLK_OE [oe]].
Proof.
  unfold enable, _rd, _wr, bus_write, set_Wire. cbn.
  eexists. rewrite <- app_assoc. reflexivity.
Qed.

(** C9, at the failing input: after [begin], with CLK2 disabled,
    [enable(2, true)] reads the output enable register and writes it back
    with bit 2 cleared, which switches the output of VFO1 on. *)
Theorem enable_out_of_range_index_writes :
  let s := begin (Si5351_ctor 25000000 idle_bus) in
  regs (Wire s) !! SI_CLK_OE = Some 4 /\
  log (Wire (enable 2 true s))
  = log (Wire s) ++ [BusRead SI_CLK_OE; BusWrite SI_CLK_OE [0]] /\
  regs (Wire (enable 2 true s)) !! SI_CLK_OE = Some 0.
Proof. cbv zeta. split; [| split]; vm_compute; reflexivity. Qed.

(** ** Register images *)

Lemma land_ones_8 (x : Z) : Z.land x 0xFF = x mod 256.
Proof. change 0xFF with (Z.ones 8). now rewrite Z.land_ones by lia. Qed.

Lemma land_ones_4 (x : Z) : Z.land x 0x0F = x mod 16.
Proof. change 0x0F with (Z.ones 4). now rewrite Z.land_ones by lia. Qed.

Lemma land_ones_2 (x : Z) : Z.land x 0x03 = x mod 4.
Proof. change 0x03 with (Z.ones 2). now rewrite Z.land_ones by lia. Qed.

(** A field cut out of the low 32 bits does not see the wrap-around. *)
Lemma field_of_u32 (x k n : Z) :
  0 <= k -> 0 <= n -> k + n <= 32 ->
  Z.land (Z.shiftr (u32 x) k) (Z.ones n) = Z.land (Z.shiftr x k) (Z.ones n).
Proof.
  intros Hk Hn Hkn. apply Z.bits_inj'. intros i Hi.
  rewrite !Z.land_spec, !Z.shiftr_spec by assumption.
  destruct (Z_lt_ge_dec i n) as [Hlt | Hge].
  - unfold u32. rewrite Z.mod_pow2_bits_low by lia. reflexivity.
  - rewrite Z.ones_spec_high by lia. now rewrite !andb_false_r.
Qed.

(** Two nibbles side by side in one byte. *)
Lemma lor_nibbles (hi lo : Z) :
  0 <= hi -> 0 <= lo < 16 -> Z.lor (Z.shiftl hi 4) lo = 16 * hi + lo.
Proof.
  intros Hhi Hlo. rewrite Z.shiftl_mul_pow2 by lia. change (2 ^ 4) with 16.
  rewrite <- Z.lxor_lor.
  - rewrite <- Z.add_nocarry_lxor; [lia |].
    apply Z.bits_inj'. intros i Hi. rewrite Z.land_spec, Z.bits_0.
    destruct (Z_lt_ge_dec i 4) as [Hlt | Hge].
    + replace (hi * 16) with (hi * 2 ^ 4) by reflexivity.
      rewrite Z.mul_pow2_bits_low by lia. reflexivity.
    + replace lo with (lo mod 2 ^ 4) by (apply Z.mod_small; cbn; lia).
      rewrite Z.mod_pow2_bits_high by lia. apply andb_false_r.
  - apply Z.bits_inj'. intros i Hi. rewrite Z.land_spec, Z.bits_0.
    destruct (Z_lt_ge_dec i 4) as [Hlt | Hge].
    + replace (hi * 16) with (hi * 2 ^ 4) by reflexivity.
      rewrite Z.mul_pow2_bits_low by lia. reflexivity.
    + replace lo with (lo mod 2 ^ 4) by (apply Z.mod_small; cbn; lia).
      rewrite Z.mod_pow2_bits_high by lia. apply andb_false_r.
Qed.

Lemma rDivToCode_log2 :
  _rDivToCode 1 = 0 /\ _rDivToCode 2 = 1 /\ _rDivToCode 4 = 2 /\
  _rDivToCode 8 = 3 /\ _rDivToCode 16 = 4 /\ _rDivToCode 32 = 5 /\
  _rDivToCode 64 = 6 /\ _rDivToCode 128 = 7.
Proof. repeat split. Qed.

(** C8: for an even [msDivider] in [4,126] and an R divider code in
    [0,7], the output-divider encoder produces the eight bytes of the
    chip's parameter layout for P1 = 128 * msDivider - 512, P2 = 0 and
    P3 = 1, with the three bits of the R code in bits 6:4 of the byte that
    holds the top two bits of P1; the layout is the one of the PLL
    encoder. *)
Theorem setMSI_image (msiEven rDivLog2 : Z) :
  4 <= msiEven <= 126 -> Z.even msiEven = true -> 0 <= rDivLog2 <= 7 ->
  _setMSI_buf msiEven rDivLog2
  = with_rdiv rDivLog2 (pack_params (128 * msiEven - 512) 0 1) /\
  _setMSI_buf msiEven rDivLog2
  = [ 0; 1; 16 * rDivLog2;
      (128 * msiEven - 512) / 256; (128 * msiEven - 512) mod 256;
      0; 0; 0 ].
Proof.
  intros Hm _ Hr. unfold _setMSI_buf, pack_params, with_rdiv. cbv zeta.
  set (P1 := 128 * msiEven - 512).
  assert (HP1 : 0 <= P1 < 15617) by (unfold P1; lia).
  rewrite (u32_small P1) by lia.
  assert (Htop : Z.shiftr P1 16 = 0).
  { rewrite Z.shiftr_div_pow2 by lia. apply Z.div_small. cbn. lia. }
  assert (Hmid : Z.land (Z.shiftr P1 8) 0xFF = P1 / 256).
  { rewrite land_ones_8, Z.shiftr_div_pow2 by lia. change (2 ^ 8) with 256.
    apply Z.mod_small. split; [apply Z.div_pos | apply Z.div_lt_upper_bound]; lia. }
  assert (Hlow : Z.land P1 0xFF = P1 mod 256) by apply land_ones_8.
  rewrite Htop, Hmid, Hlow.
  assert (Hr7 : Z.land rDivLog2 0x07 = rDivLog2).
  { change 0x07 with (Z.ones 3). rewrite Z.land_ones by lia.
    apply Z.mod_small. cbn. lia. }
  rewrite Hr7. rewrite Z.shiftl_mul_pow2 by lia. change (2 ^ 4) with 16.
  change (Z.land 0 3) with 0. change (u8 0) with 0. rewrite !Z.lor_0_l.
  pose proof (Z.mod_pos_bound P1 256 ltac:(lia)).
  assert (0 <= P1 / 256 < 256)
    by (split; [apply Z.div_pos | apply Z.div_lt_upper_bound]; lia).
  rewrite (u8_small (rDivLog2 * 16)) by lia.
  rewrite (u8_small (rDivLog2 * 16)), (u8_small (P1 / 256)),
    (u8_small (P1 mod 256)) by lia.
  split; [reflexivity |]. now rewrite (Z.mul_comm rDivLog2 16).
Qed.

Lemma setMSI_image_witness :
  _setMSI_buf 98 0 = with_rdiv 0 (pack_params (128 * 98 - 512) 0 1) /\
  _setMSI_buf 98 0
  = [ 0; 1; 16 * 0; (128 * 98 - 512) / 256; (128 * 98 - 512) mod 256; 0; 0; 0 ].
Proof.
  apply (setMSI_image 98 0).
  - lia.
  - reflexivity.
  - lia.
Defined.

Lemma to_u32_range (x : double) : 0 <= Double.to_u32 x < 2 ^ 32.
Proof.
  destruct x as [s | s | | s m e]; cbn [Double.to_u32]; try (cbn; lia).
  - destruct s; cbn; lia.
  - destruct s; [cbn; lia |].
    assert (0 <= Z.shiftl (Zpos m) e) by (apply Z.shiftl_nonneg; lia). lia.
Qed.

(** The temporary of line 165 is the integer quotient [128 * B / c]. *)
Lemma setMSN_tmp (B : Z) :
  0 <= B < SI_PLL_C ->
  Double.to_u32
    (Double.floor (Double.div (Double.of_Z (u32 (128 * B)))
                              (Double.of_Z SI_PLL_C)))
  = 128 * B / SI_PLL_C.
Proof.
  intros HB. unfold SI_PLL_C in HB.
  rewrite (u32_small (128 * B)) by lia.
  apply floor_div_PLL_C. lia.
Qed.

(** The eight bytes of [_setMSN] are the chip's layout of the parameters
    of the multiplier that the encoder reads off its argument. *)
Lemma setMSN_buf_params (msn : double) :
  let a := msn_A msn in
  let b := msn_B msn in
  b < SI_PLL_C ->
  _setMSN_buf msn = pack_params (pll_P1 a b) (pll_P2 a b) SI_PLL_C.
Proof.
  intros a b Hb.
  pose proof (to_u32_range (Double.floor msn)) as Ha. fold (msn_A msn) in Ha.
  assert (Hb0 : 0 <= b) by apply to_u32_range.
  unfold _setMSN_buf. cbv zeta. fold a b.
  rewrite setMSN_tmp by lia.
  unfold pack_params, pll_P1, pll_P2.
  set (tmp := 128 * b / SI_PLL_C).
  assert (Htmp : 0 <= tmp < 128).
  { unfold tmp, SI_PLL_C in *. split.
    - apply Z.div_pos; lia.
    - apply Z.div_lt_upper_bound; lia. }
  assert (HP2 : 0 <= 128 * b - SI_PLL_C * tmp < SI_PLL_C).
  { pose proof (Z_div_mod_eq_full (128 * b) SI_PLL_C).
    pose proof (Z.mod_pos_bound (128 * b) SI_PLL_C ltac:(reflexivity)).
    fold tmp in H. lia. }
  rewrite (u32_small (128 * b - SI_PLL_C * tmp)) by (unfold SI_PLL_C in *; lia).
  change 0x03 with (Z.ones 2). change 0xFF with (Z.ones 8).
  rewrite (field_of_u32 _ 16 2), (field_of_u32 _ 8 8) by lia.
  rewrite <- (Z.shiftr_0_r (u32 (128 * a + tmp - 512))).
  rewrite (field_of_u32 _ 0 8) by lia. rewrite Z.shiftr_0_r.
  reflexivity.
Qed.

(** C4: for the multiplier [a + b / c] that the PLL encoder reads off its
    argument, with [a >= 4] and [b < c = 1,000,000], the encoder produces
    the eight bytes of P1 = 128 a + floor(128 b / c) - 512,
    P2 = 128 b - c floor(128 b / c) and P3 = c in the order P3[15:8],
    P3[7:0], P1[17:16] alone in its byte, P1[15:8], P1[7:0], P3[19:16] in
    the high nibble over P2[19:16] in the low nibble, P2[15:8], P2[7:0]. *)
Theorem setMSN_image (msn : double) :
  let a := msn_A msn in
  let b := msn_B msn in
  let P1 := 128 * a + 128 * b / SI_PLL_C - 512 in
  let P2 := 128 * b - SI_PLL_C * (128 * b / SI_PLL_C) in
  let P3 := SI_PLL_C in
  4 <= a -> b < SI_PLL_C ->
  0 <= P1 /\ 0 <= P2 < SI_PLL_C /\
  _setMSN_buf msn
  = [ (P3 / 2 ^ 8) mod 2 ^ 8;
      P3 mod 2 ^ 8;
      (P1 / 2 ^ 16) mod 2 ^ 2;
      (P1 / 2 ^ 8) mod 2 ^ 8;
      P1 mod 2 ^ 8;
      16 * ((P3 / 2 ^ 16) mod 2 ^ 4) + (P2 / 2 ^ 16) mod 2 ^ 4;
      (P2 / 2 ^ 8) mod 2 ^ 8;
      P2 mod 2 ^ 8 ].
Proof.
  intros a b P1 P2 P3 Ha Hb.
  assert (Hb0 : 0 <= b) by apply to_u32_range.
  assert (Htmp : 0 <= 128 * b / SI_PLL_C)
    by (apply Z.div_pos; [lia | reflexivity]).
  assert (HP2 : 0 <= P2 < SI_PLL_C).
  { pose proof (Z_div_mod_eq_full (128 * b) SI_PLL_C).
    pose proof (Z.mod_pos_bound (128 * b) SI_PLL_C ltac:(reflexivity)).
    unfold P2. lia. }
  split; [unfold P1; lia |]. split; [exact HP2 |].
  rewrite (setMSN_buf_params msn Hb). fold a b.
  unfold pack_params. fold P1 P2 P3.
  change 0x03 with (Z.ones 2). change 0xFF with (Z.ones 8).
  change 0x0F with (Z.ones 4).
  rewrite !Z.land_ones, !Z.shiftr_div_pow2 by lia.
  rewrite lor_nibbles.
  - rewrite Z.shiftr_0_r || idtac. reflexivity.
  - apply Z.mod_pos_bound. reflexivity.
  - apply Z.mod_pos_bound. reflexivity.
Qed.

Lemma setMSN_image_witness :
  let msn := evaluate_msn 98 1 7074000 25000000 in
  msn_A msn = 27 /\ msn_B msn = 730080 /\
  _setMSN_buf msn = [66; 64; 0; 11; 221; 246; 222; 192].
Proof.
  cbv zeta.
  pose proof (setMSN_image (evaluate_msn 98 1 7074000 25000000)) as H.
  cbv zeta in H.
  replace (msn_A (evaluate_msn 98 1 7074000 25000000)) with 27 in *
    by (vm_compute; reflexivity).
  replace (msn_B (evaluate_msn 98 1 7074000 25000000)) with 730080 in *
    by (vm_compute; reflexivity).
  destruct H as (_ & _ & H); [lia | reflexivity |].
  split; [reflexivity |]. split; [reflexivity |].
  rewrite H. vm_compute. reflexivity.
Defined.

(** C4 as it is worded fails on the third byte: for the multiplier 30 the
    encoder writes 0 there, the top two bits of P1 = 3328 and nothing
    else; the top four bits of P3, which are 15, are in the high nibble of
    the sixth byte instead. *)
Lemma setMSN_byte2_without_P3 :
  let img := _setMSN_buf (Double.of_Z 30) in
  msn_A (Double.of_Z 30) = 30 /\ msn_B (Double.of_Z 30) = 0 /\
  pll_P1 30 0 = 3328 /\ pll_P2 30 0 = 0 /\
  img = [66; 64; 0; 13; 0; 240; 0; 0] /\
  spec_pll_layout 3328 0 SI_PLL_C = [66; 64; 240; 13; 0; 64; 0; 0] /\
  img <> spec_pll_layout (pll_P1 30 0) (pll_P2 30 0) SI_PLL_C.
Proof.
  cbv zeta.
  split; [vm_compute; reflexivity |]. split; [vm_compute; reflexivity |].
  split; [reflexivity |]. split; [reflexivity |].
  split; [vm_compute; reflexivity |]. split; [vm_compute; reflexivity |].
  vm_compute. discriminate.
Qed.

(** ** Round trip of the PLL registers *)

Lemma unpack_pack_params (P1 P2 P3 : Z) :
  0 <= P1 < 2 ^ 18 -> 0 <= P2 < 2 ^ 20 -> 0 <= P3 < 2 ^ 20 ->
  unpack_params (pack_params P1 P2 P3) = Some (P1, P2, P3).
Proof.
  intros H1 H2 H3. unfold pack_params, unpack_params.
  rewrite !land_ones_8, !land_ones_4, land_ones_2.
  rewrite !Z.shiftr_div_pow2 by lia.
  rewrite lor_nibbles by (try apply Z.mod_pos_bound; lia).
  change (2 ^ 8) with 256. change (2 ^ 16) with 65536.
  change (2 ^ 18) with 262144 in H1. change (2 ^ 20) with 1048576 in H2, H3.
  f_equal. f_equal; [f_equal |]; Z.div_mod_to_equations; lia.
Qed.

(** ** Reading a multiplier in binary64

    What lines 160-161 of [_setMSN] read off a [double] between 4 and
    2052: the subtraction of the integer part is exact, and the product
    with [1,000,000] is rounded once before the cast truncates it. *)

(** An integer below [2 ^ 53] with an exponent normalizes exactly. *)
Lemma normalize_exact (x e0 : Z) :
  0 < x < 2 ^ 53 -> -1000 <= e0 <= 0 ->
  exists m e,
    binary_normalize 53 1024 x e0 false = S754_finite false m e /\
    2 ^ 52 <= Zpos m < 2 ^ 53 /\ e0 - 52 <= e <= e0 /\
    Zpos m = x * 2 ^ (e0 - e).
Proof.
  intros Hx He0. destruct x as [| p | p]; [lia | | lia].
  unfold binary_normalize, binary_round, shl_align, fexp, emin.
  pose proof (digits2_pos_bounds p) as Hd.
  set (d := Zpos (digits2_pos p)) in *.
  assert (Hd53 : 1 <= d <= 53).
  { split; [unfold d; lia |].
    destruct (Z_le_gt_dec d 53) as [? | Hgt]; [assumption |].
    assert (2 ^ 53 <= 2 ^ (d - 1)) by (apply Z.pow_le_mono_r; lia). lia. }
  replace (Z.max (d + e0 - 53) (3 - 1024 - 53) - e0) with (d - 53) by lia.
  destruct (d - 53) as [| n | n] eqn:En; [| lia |].
  - assert (d = 53) as Hd' by lia. rewrite Hd' in Hd. change (53 - 1) with 52 in Hd.
    rewrite binary_round_aux_exact by lia.
    exists p, e0. rewrite Z.sub_diag, Z.mul_1_r. repeat split; lia.
  - assert (Hn : Zpos n = 53 - d) by lia.
    assert (Hv : Zpos (Pos.iter xO p n) = Zpos p * 2 ^ (53 - d))
      by (rewrite iter_xO_value, Hn; reflexivity).
    assert (Hp : 2 ^ (d - 1) * 2 ^ (53 - d) = 2 ^ 52)
      by (rewrite <- Z.pow_add_r by lia; f_equal; lia).
    assert (Hp' : 2 ^ d * 2 ^ (53 - d) = 2 ^ 53)
      by (rewrite <- Z.pow_add_r by lia; f_equal; lia).
    assert (0 < 2 ^ (53 - d)) by (apply Z.pow_pos_nonneg; lia).
    assert (Hb : 2 ^ 52 <= Zpos (Pos.iter xO p n) < 2 ^ 53) by (rewrite Hv; nia).
    replace (Z.max (d + e0 - 53) (3 - 1024 - 53)) with (d + e0 - 53) by lia.
    rewrite binary_round_aux_exact by lia.
    exists (Pos.iter xO p n), (d + e0 - 53). repeat split; try lia.
    rewrite Hv. f_equal. f_equal. lia.
Qed.

Lemma shr_m_iter (n : nat) (mrs : shr_record) :
  0 <= shr_m mrs ->
  shr_m (Nat.iter n shr_1 mrs) = shr_m mrs / 2 ^ Z.of_nat n.
Proof.
  intros H0. induction n as [| n IH].
  - change (Nat.iter 0 shr_1 mrs) with mrs. change (Z.of_nat 0) with 0.
    rewrite Z.pow_0_r, Z.div_1_r. reflexivity.
  - rewrite Nat.iter_succ.
    assert (Hnn : 0 <= shr_m (Nat.iter n shr_1 mrs)).
    { rewrite IH. apply Z.div_pos; [exact H0 |]. apply Z.pow_pos_nonneg; lia. }
    rewrite shr_m_shr_1 by exact Hnn. rewrite IH.
    rewrite Z.div_div by (try apply Z.pow_pos_nonneg; lia).
    rewrite Nat2Z.inj_succ, Z.pow_succ_r by lia.
    f_equal. lia.
Qed.

(** The first shift of the rounding on an exact mantissa of [53 + n]
    bits. *)
Lemma shr_fexp_exact_shift (M : positive) (e n : Z) :
  0 <= n -> 2 ^ (52 + n) <= Zpos M < 2 ^ (53 + n) -> -1074 <= e ->
  exists mrs,
    shr_fexp 53 1024 (Zpos M) e loc_Exact = (mrs, e + n) /\
    shr_m mrs = Zpos M / 2 ^ n.
Proof.
  intros Hn HM He. unfold shr_fexp, fexp, emin. cbn [Zdigits2 shr_record_of_loc].
  rewrite (digits2_pos_unique M (53 + n))
    by (replace (53 + n - 1) with (52 + n) by lia; exact HM).
  replace (Z.max (53 + n + e - 53) (3 - 1024 - 53) - e) with n by lia.
  destruct n as [| pn | pn]; [| | lia].
  - cbn [shr]. eexists. split; [rewrite Z.add_0_r; reflexivity |].
    cbn [shr_m]. rewrite Z.pow_0_r, Z.div_1_r. reflexivity.
  - cbn [shr]. eexists. split; [reflexivity |].
    rewrite iter_pos_nat, shr_m_iter by (cbn [shr_m]; lia).
    cbn [shr_m]. rewrite positive_nat_Z. reflexivity.
Qed.

(** Rounding an exact mantissa of [53 + n] bits: the result is finite
    and normal, and its mantissa is the truncated one or the next. *)
Lemma binary_round_aux_bracket_shift (s : bool) (M : positive) (e n : Z) :
  0 <= n -> 2 ^ (52 + n) <= Zpos M < 2 ^ (53 + n) ->
  -1074 <= e -> e + n <= 969 ->
  exists mz k,
    binary_round_aux 53 1024 s (Zpos M) e loc_Exact
    = S754_finite s mz (e + n + k) /\
    0 <= k <= 1 /\
    2 ^ 52 <= Zpos mz < 2 ^ 53 /\
    Zpos M / 2 ^ (n + k) <= Zpos mz <= Zpos M / 2 ^ (n + k) + 1.
Proof.
  intros Hn HM He Hen. unfold binary_round_aux.
  destruct (shr_fexp_exact_shift M e n Hn HM He) as (mrs1 & E1 & Hm1).
  rewrite E1.
  pose proof (round_nearest_even_bracket (shr_m mrs1) (loc_of_shr_record mrs1)) as Hr.
  set (m2 := round_nearest_even (shr_m mrs1) (loc_of_shr_record mrs1)) in *.
  rewrite Hm1 in Hr.
  assert (Pn : 0 < 2 ^ n) by (apply Z.pow_pos_nonneg; lia).
  assert (Hq : 2 ^ 52 <= Zpos M / 2 ^ n < 2 ^ 53).
  { rewrite !Z.pow_add_r in HM by lia. split.
    - apply Z.div_le_lower_bound; lia.
    - apply Z.div_lt_upper_bound; lia. }
  destruct m2 as [| p2 | p2]; [lia | | lia].
  destruct (shr_fexp_wide p2 (e + n) loc_Exact) as (mrs2 & k2 & E2 & Hk2 & Hm2 & Hq2);
    [lia | lia |].
  rewrite E2, Hm2.
  assert (Hp2 : 0 < Zpos p2 / 2 ^ k2) by lia.
  destruct (Zpos p2 / 2 ^ k2) as [| mz | mz] eqn:Emz; [lia | | lia].
  replace (e + n + k2 <=? 1024 - 53) with true by (symmetry; apply Z.leb_le; lia).
  exists mz, k2.
  split; [reflexivity |]. split; [lia |]. split; [lia |].
  assert (k2 = 0 \/ k2 = 1) as [-> | ->] by lia.
  - rewrite Z.div_1_r in Emz. rewrite Z.add_0_r. lia.
  - change (2 ^ 1) with 2 in *.
    assert (Zpos p2 = 2 ^ 53).
    { assert (2 ^ 53 <= Zpos p2 \/ Zpos p2 < 2 ^ 53) as [? | Hs] by lia; [lia |].
      assert (Zpos p2 / 2 < 2 ^ 52) by (apply Z.div_lt_upper_bound; lia). lia. }
    assert (Hmz : Zpos mz = 2 ^ 52).
    { rewrite <- Emz. replace (Zpos p2) with (2 ^ 52 * 2) by lia.
      apply Z.div_mul; lia. }
    rewrite Z.pow_add_r by lia. change (2 ^ 1) with 2.
    rewrite <- Z.div_div by lia.
    assert (Zpos M / 2 ^ n = 2 ^ 53 - 1) as -> by lia.
    rewrite Hmz. replace (2 ^ 53 - 1) with (1 + (2 ^ 52 - 1) * 2) by lia.
    rewrite Z.div_add by lia. change (1 / 2) with 0. lia.
Qed.

(** The integer part that line 160 reads. *)
Lemma msn_A_finite (m : positive) (e : Z) :
  e <= 0 -> Zpos m / 2 ^ (- e) < 2 ^ 32 ->
  msn_A (S754_finite false m e) = Zpos m / 2 ^ (- e).
Proof.
  intros He Ha. unfold msn_A, Double.floor, Double.floorZ. cbn [cond_Zopp].
  fold (Double.of_Z (Z.shiftl (Zpos m) e)).
  rewrite Z.shiftl_div_pow2 by lia.
  assert (0 <= Zpos m / 2 ^ (- e))
    by (apply Z.div_pos; [lia | apply Z.pow_pos_nonneg; lia]).
  rewrite to_u32_of_Z by lia. lia.
Qed.

Lemma shl_align_value (m : positive) (e e' : Z) :
  e' <= e -> Zpos (fst (shl_align m e e')) = Zpos m * 2 ^ (e - e').
Proof.
  intros H. unfold shl_align. destruct (e' - e) as [| d | d] eqn:Ed; cbn [fst].
  - replace (e - e') with 0 by lia. lia.
  - lia.
  - rewrite iter_xO_value. f_equal. f_equal. lia.
Qed.

(** The numerator that line 161 reads off a normal [double] with
    mantissa [m] and exponent [e], a value from 4 to below 4096: with
    [F] the fraction bits of [m], it is [F * c / 2 ^ (- e)] truncated, or
    the next integer when the product was rounded up to it; it stays
    below [c]. *)
Lemma msn_B_bracket (m : positive) (e : Z) :
  2 ^ 52 <= Zpos m < 2 ^ 53 -> -50 <= e <= -41 ->
  let T := 2 ^ (- e) in
  let F := Zpos m mod T in
  let b := msn_B (S754_finite false m e) in
  F * SI_PLL_C / T <= b /\ b * T < F * SI_PLL_C + T /\ b < SI_PLL_C.
Proof.
  intros Hm He T F b.
  assert (HT : 2 ^ 41 <= T <= 2 ^ 50)
    by (unfold T; split; apply Z.pow_le_mono_r; lia).
  pose proof (Z_div_mod_eq_full (Zpos m) T) as Hdm.
  pose proof (Z.mod_pos_bound (Zpos m) T ltac:(lia)) as HF. fold F in Hdm, HF.
  set (a := Zpos m / T) in *.
  assert (Ha : 4 <= a < 2 ^ 12).
  { split.
    - apply Z.div_le_lower_bound; lia.
    - apply Z.div_lt_upper_bound; lia. }
  assert (HA : msn_A (S754_finite false m e) = a)
    by (apply msn_A_finite; fold T; fold a; lia).
  unfold b, msn_B. rewrite HA. clear b HA.
  destruct (of_Z_normal a) as (ma & ea & Ea & Bma & Hea & Hva); [lia |].
  rewrite Ea.
  assert (Pea : 0 < 2 ^ (- ea)) by (apply Z.pow_pos_nonneg; lia).
  (* the integer part has the smaller exponent *)
  assert (Hle : ea <= e).
  { destruct (Z_le_gt_dec ea e) as [? | Hs]; [assumption | exfalso].
    assert (2 ^ (- ea) * 2 ^ (ea - e) = T)
      by (unfold T; rewrite <- Z.pow_add_r by lia; f_equal; lia).
    assert (2 <= 2 ^ (ea - e))
      by (change 2 with (2 ^ 1) at 1; apply Z.pow_le_mono_r; lia).
    assert (a * 2 ^ (- ea) * 2 <= a * 2 ^ (- ea) * 2 ^ (ea - e))
      by (apply Z.mul_le_mono_nonneg_l; lia).
    nia. }
  set (U0 := 2 ^ (e - ea)).
  assert (PU0 : 0 < U0) by (apply Z.pow_pos_nonneg; lia).
  assert (HTU0 : T * U0 = 2 ^ (- ea))
    by (unfold T, U0; rewrite <- Z.pow_add_r by lia; f_equal; lia).
  unfold Double.sub, SFsub, Double.prec, Double.emax. cbn [cond_Zopp].
  rewrite Z.min_r by lia.
  rewrite (shl_align_value m e ea Hle), (shl_align_value ma ea ea) by lia.
  rewrite Z.sub_diag, Z.mul_1_r. fold U0.
  assert (HD : Zpos m * U0 - Zpos ma = F * U0) by (rewrite Hva, <- HTU0; nia).
  rewrite HD.
  destruct (Z.eq_dec F 0) as [HF0 | HF0].
  { rewrite HF0, (Z.mul_0_l U0), of_Z_PLL_C.
    change (Double.to_u32
              (Double.mul (binary_normalize 53 1024 0 ea false)
                          (S754_finite false 8589934592000000 (-33))))
      with 0.
    rewrite (Z.mul_0_l SI_PLL_C), Z.div_0_l by lia. unfold SI_PLL_C. lia. }
  assert (HDb : 0 < F * U0 < 2 ^ 53).
  { split; [nia |].
    assert (F * U0 < T * U0) by (apply Z.mul_lt_mono_pos_r; lia).
    assert (2 ^ (- ea) <= 2 ^ 52) by (apply Z.pow_le_mono_r; lia). lia. }
  destruct (normalize_exact (F * U0) ea HDb) as (mf & ef & Ef & Bmf & Hef & Hvf);
    [lia |].
  rewrite Ef, of_Z_PLL_C. clear Ef Ea.
  set (U := 2 ^ (e - ef)).
  assert (HU : U = U0 * 2 ^ (ea - ef))
    by (unfold U, U0; rewrite <- Z.pow_add_r by lia; f_equal; lia).
  assert (Hmf : Zpos mf = F * U) by (rewrite Hvf, HU; ring).
  assert (PU : 0 < U) by (apply Z.pow_pos_nonneg; lia).
  assert (HV : T * U = 2 ^ (- ef))
    by (unfold T, U; rewrite <- Z.pow_add_r by lia; f_equal; lia).
  assert (Hef53 : ef <= -53).
  { destruct (Z_le_gt_dec ef (-53)) as [? | Hs]; [assumption | exfalso].
    assert (2 ^ (- ef) <= 2 ^ 52) by (apply Z.pow_le_mono_r; lia).
    assert (F * U < T * U) by (apply Z.mul_lt_mono_pos_r; lia). lia. }
  assert (HU8 : 8 <= U)
    by (change 8 with (2 ^ 3); apply Z.pow_le_mono_r; lia).
  assert (HV53 : 2 ^ 53 <= T * U)
    by (rewrite HV; apply Z.pow_le_mono_r; lia).
  (* the product and its rounding *)
  unfold Double.mul, SFmul, Double.prec, Double.emax. cbn [xorb].
  set (c := SI_PLL_C) in *. assert (Hc : c = 1000000) by reflexivity.
  assert (HM : Zpos (mf * 8589934592000000) = F * U * c * 2 ^ 33)
    by (rewrite Pos2Z.inj_mul, Hmf, Hc; lia).
  assert (HMb : 2 ^ 104 <= Zpos (mf * 8589934592000000) < 2 ^ 106)
    by (rewrite Pos2Z.inj_mul; nia).
  assert (exists n, 52 <= n <= 53 /\
            2 ^ (52 + n) <= Zpos (mf * 8589934592000000) < 2 ^ (53 + n))
    as (n & Hn & HMn).
  { destruct (Z_lt_ge_dec (Zpos (mf * 8589934592000000)) (2 ^ 105)).
    - exists 52. split; [lia |]. change (52 + 52) with 104.
      change (53 + 52) with 105. lia.
    - exists 53. split; [lia |]. change (52 + 53) with 105.
      change (53 + 53) with 106. lia. }
  destruct (binary_round_aux_bracket_shift false (mf * 8589934592000000)
              (ef + -33) n) as (mz & k & Ez & Hk & Bmz & Hb); try lia.
  rewrite Ez. clear Ez. cbn [Double.to_u32].
  rewrite Z.shiftl_div_pow2 by lia.
  set (P := 2 ^ (n + k)) in *.
  set (S := 2 ^ (- (ef + -33 + n + k))).
  assert (PP : 0 < P) by (apply Z.pow_pos_nonneg; lia).
  assert (PS : 0 < S) by (apply Z.pow_pos_nonneg; lia).
  assert (HP54 : P <= 2 ^ 54) by (apply Z.pow_le_mono_r; lia).
  assert (HPS : P * S = 2 ^ 33 * (T * U)).
  { rewrite HV. unfold P, S. rewrite <- !Z.pow_add_r by lia. f_equal. lia. }
  rewrite HM in Hb.
  set (W := F * U * c * 2 ^ 33) in *.
  pose proof (Z.mul_div_le W P PP) as HWlo.
  pose proof (Z.mul_div_le (Zpos mz) S PS) as Hb0.
  set (b0 := Zpos mz / S) in *.
  assert (Hb0nn : 0 <= b0) by (apply Z.div_pos; lia).
  (* the truncation of the exact product is a lower bound *)
  assert (H1 : F * c / T <= b0).
  { apply Z.div_le_lower_bound; [lia |].
    apply Z.le_trans with (W / P); [| lia].
    apply Z.div_le_lower_bound; [lia |].
    pose proof (Z.mul_div_le (F * c) T ltac:(lia)) as Hg.
    set (g := F * c / T) in *.
    replace (P * (S * g)) with (T * g * (2 ^ 33 * U))
      by (rewrite (Z.mul_assoc P S g), HPS; ring).
    replace W with (F * c * (2 ^ 33 * U)) by (unfold W; ring).
    apply Z.mul_le_mono_nonneg_r; lia. }
  (* the rounded product is less than one unit above *)
  assert (Hup : b0 * (2 ^ 33 * (T * U)) <= W + P).
  { rewrite <- HPS.
    assert (P * (S * b0) <= P * Zpos mz) by (apply Z.mul_le_mono_nonneg_l; lia).
    assert (P * Zpos mz <= P * (W / P + 1)) by (apply Z.mul_le_mono_nonneg_l; lia).
    lia. }
  assert (H2 : b0 * T < F * c + T).
  { destruct (Z_lt_ge_dec (b0 * T) (F * c + T)) as [? | Hs]; [assumption | exfalso].
    assert ((F * c + T) * (2 ^ 33 * U) <= b0 * T * (2 ^ 33 * U))
      by (apply Z.mul_le_mono_nonneg_r; lia).
    assert (2 ^ 33 * 2 ^ 53 <= 2 ^ 33 * (T * U))
      by (apply Z.mul_le_mono_nonneg_l; lia).
    unfold W in Hup. lia. }
  assert (H3 : b0 < c).
  { destruct (Z_lt_ge_dec b0 c) as [? | Hs]; [assumption | exfalso].
    assert (c * (2 ^ 33 * (T * U)) <= b0 * (2 ^ 33 * (T * U)))
      by (apply Z.mul_le_mono_nonneg_r; lia).
    assert (F * (U * c * 2 ^ 33) <= (T - 1) * (U * c * 2 ^ 33))
      by (apply Z.mul_le_mono_nonneg_r; lia).
    assert (8 * (c * 2 ^ 33) <= U * (c * 2 ^ 33))
      by (apply Z.mul_le_mono_nonneg_r; lia).
    unfold W in Hup. lia. }
  rewrite Z.min_l by lia.
  split; [exact H1 |]. split; [exact H2 | exact H3].
Qed.

(** ** From the multiplier to the decoded pair *)

(** For the multiplier [a + b / c] that the encoder reads off its
    argument, with [4 <= a <= 2051], so that P1 fits its 18 bits, and
    [b < c = 1,000,000], decoding the eight bytes produced by the encoder
    gives [a] and [b] back. *)
Lemma setMSN_roundtrip_read (msn : double) :
  let a := msn_A msn in
  let b := msn_B msn in
  4 <= a <= 2051 -> b < SI_PLL_C ->
  decodeMSN (_setMSN_buf msn) = Some (a, b).
Proof.
  intros a b Ha Hb.
  assert (Hb0 : 0 <= b) by apply to_u32_range.
  rewrite (setMSN_buf_params msn Hb). fold a b.
  unfold decodeMSN, pll_P1, pll_P2.
  pose proof (Z_div_mod_eq_full (128 * b) SI_PLL_C) as Hdm.
  pose proof (Z.mod_pos_bound (128 * b) SI_PLL_C ltac:(reflexivity)) as Hmod.
  set (tmp := 128 * b / SI_PLL_C) in *.
  assert (Htmp : 0 <= tmp < 128).
  { unfold tmp, SI_PLL_C in *. split.
    - apply Z.div_pos; lia.
    - apply Z.div_lt_upper_bound; lia. }
  unfold SI_PLL_C in *.
  rewrite unpack_pack_params by lia.
  replace (128 * a + tmp - 512 + 512) with (tmp + a * 128) by lia.
  rewrite Z.div_add, Z.mod_add by lia.
  rewrite Z.div_small, Z.mod_small by lia.
  replace (128 * b - 1000000 * tmp + 1000000 * tmp) with (b * 128) by lia.
  rewrite Z.div_mul by lia. reflexivity.
Qed.

(** A binary64 number from 4 to below 2052 is positive and normal, with
    an exponent from -50 to -41. *)
Lemma valid_multiplier_normal (msn : double) (q : Q) :
  valid_binary Double.prec Double.emax msn = true ->
  Double.to_Q msn = Some q -> (4 <= q)%Q -> (q < 2052)%Q ->
  exists m e,
    msn = S754_finite false m e /\ q = Zpos m # Z.to_pos (2 ^ (- e)) /\
    2 ^ 52 <= Zpos m < 2 ^ 53 /\ -50 <= e <= -41 /\
    4 * 2 ^ (- e) <= Zpos m < 2052 * 2 ^ (- e).
Proof.
  intros Hv Hq Hlo Hhi.
  destruct msn as [s | s | | s m e]; cbn [Double.to_Q] in Hq; try discriminate.
  { injection Hq as <-. exfalso. revert Hlo. unfold Qle. cbn. lia. }
  cbn [valid_binary] in Hv. unfold bounded, canonical_mantissa in Hv.
  apply andb_prop in Hv. destruct Hv as [Hcan _].
  apply Z.eqb_eq in Hcan. unfold fexp, emin, Double.prec, Double.emax in Hcan.
  pose proof (digits2_pos_bounds m) as Hd.
  set (d := Zpos (digits2_pos m)) in *.
  assert (Hd1 : 1 <= d) by (unfold d; lia).
  destruct (0 <=? e) eqn:Ee.
  - (* an integer of 53 bits or more *)
    apply Z.leb_le in Ee. injection Hq as <-. exfalso.
    assert (Hd53 : d = 53) by lia.
    rewrite Hd53 in Hd. change (53 - 1) with 52 in Hd.
    assert (0 < 2 ^ e) by (apply Z.pow_pos_nonneg; lia).
    assert (Hp : 2 ^ 52 * 1 <= Zpos m * 2 ^ e)
      by (apply Z.mul_le_mono_nonneg; lia).
    revert Hlo Hhi. unfold Qle, Qlt, inject_Z. cbn [Qnum Qden].
    rewrite !Z.mul_1_r.
    destruct s; cbn [cond_Zopp]; [rewrite Z.mul_opp_l |]; lia.
  - apply Z.leb_gt in Ee. injection Hq as <-.
    assert (PT : 0 < 2 ^ (- e)) by (apply Z.pow_pos_nonneg; lia).
    revert Hlo Hhi. unfold Qle, Qlt. cbn [Qnum Qden].
    rewrite Z2Pos.id by exact PT. rewrite !Z.mul_1_r.
    destruct s; cbn [cond_Zopp]; intros Hlo Hhi; [exfalso; lia |].
    assert (Hd53' : d <= 53) by lia.
    assert (Hm53 : Zpos m < 2 ^ 53).
    { assert (2 ^ d <= 2 ^ 53) by (apply Z.pow_le_mono_r; lia). lia. }
    assert (He50 : -50 <= e).
    { destruct (Z_le_gt_dec (-50) e) as [? | Hs]; [assumption | exfalso].
      assert (2 ^ 51 <= 2 ^ (- e)) by (apply Z.pow_le_mono_r; lia). lia. }
    assert (Hd53 : d = 53) by lia.
    rewrite Hd53 in Hd. change (53 - 1) with 52 in Hd.
    assert (He41 : e <= -41).
    { destruct (Z_le_gt_dec e (-41)) as [? | Hs]; [assumption | exfalso].
      assert (2 ^ (- e) <= 2 ^ 40) by (apply Z.pow_le_mono_r; lia). lia. }
    exists m, e. repeat split; try lia.
Qed.

(** The distance of [m / T] from [a + b / c], in integers. *)
Lemma Q_within_step (m a b : Z) (T : positive) :
  Z.abs ((m - a * Zpos T) * 1000000 - b * Zpos T) < Zpos T ->
  (Qabs ((m # T) - (inject_Z a + (b # 1000000))) < 1 # 1000000)%Q.
Proof.
  intros H. unfold Qlt, Qabs, Qminus, Qplus, Qopp, inject_Z.
  cbn [Qnum Qden]. rewrite !Pos2Z.inj_mul, !Z.mul_1_l.
  replace (m * (1 * 1000000) + - (a * 1000000 + b * 1) * Zpos T)
    with ((m - a * Zpos T) * 1000000 - b * Zpos T) by ring.
  lia.
Qed.

(** C5: the PLL registers keep the multiplier as the encoder reads it,
    as long as P1 fits its 18 bits.  For every binary64 multiplier [msn]
    with [4 <= msn < 2052], the encoder reads the integer part
    [a = floor msn] and a numerator [b < c = 1,000,000] with
    [|msn - (a + b / c)| < 1 / c], and decoding the eight bytes it
    produces gives exactly this [a] and [b] back. *)
Theorem setMSN_roundtrip (msn : double) (q : Q) :
  valid_binary Double.prec Double.emax msn = true ->
  Double.to_Q msn = Some q -> (4 <= q)%Q -> (q < 2052)%Q ->
  let a := msn_A msn in
  let b := msn_B msn in
  decodeMSN (_setMSN_buf msn) = Some (a, b) /\
  (inject_Z a <= q)%Q /\ (q < inject_Z (a + 1))%Q /\
  0 <= b < SI_PLL_C /\
  (Qabs (q - (inject_Z a + (b # 1000000))) < 1 # 1000000)%Q.
Proof.
  intros Hv Hq Hlo Hhi a b.
  destruct (valid_multiplier_normal msn q Hv Hq Hlo Hhi)
    as (m & e & -> & -> & Hm & He & Hr).
  destruct (msn_B_bracket m e Hm He) as (B1 & B2 & B3). cbv zeta in B1, B2, B3.
  fold b in B1, B2, B3.
  set (T := 2 ^ (- e)) in *.
  assert (PT : 0 < T) by (apply Z.pow_pos_nonneg; lia).
  pose proof (Z_div_mod_eq_full (Zpos m) T) as Hdm.
  pose proof (Z.mod_pos_bound (Zpos m) T PT) as HF.
  assert (Hdiv : 4 <= Zpos m / T <= 2051).
  { split.
    - apply Z.div_le_lower_bound; lia.
    - assert (Zpos m / T < 2052) by (apply Z.div_lt_upper_bound; lia). lia. }
  assert (HA : a = Zpos m / T)
    by (unfold a; apply msn_A_finite; fold T; lia).
  assert (Hb0 : 0 <= b) by apply to_u32_range.
  split; [apply setMSN_roundtrip_read; fold a; fold b; lia |].
  set (F := Zpos m mod T) in *.
  assert (HFa : F = Zpos m - a * T) by lia.
  split; [| split; [| split]].
  - unfold Qle, inject_Z. cbn [Qnum Qden].
    rewrite Z2Pos.id by exact PT. lia.
  - unfold Qlt, inject_Z. cbn [Qnum Qden].
    rewrite Z2Pos.id by exact PT. lia.
  - lia.
  - apply Q_within_step. rewrite Z2Pos.id by exact PT. rewrite <- HFa.
    pose proof (Z.mul_succ_div_gt (F * SI_PLL_C) T PT) as Hg.
    assert (T * Z.succ (F * SI_PLL_C / T) <= T * Z.succ b)
      by (apply Z.mul_le_mono_nonneg_l; lia).
    unfold SI_PLL_C in *. lia.
Qed.

(** At the multiplier the planner stores for 14.2 MHz with a 25 MHz
    crystal, the [double] nearest to 28.4: the encoder reads 28 and
    399,999, one below the numerator 400,000 of the exact ratio, and the
    registers decode to this pair. *)
Lemma setMSN_roundtrip_witness :
  let msn := evaluate_msn 50 1 14200000 25000000 in
  let q := (7993889338582630 # 281474976710656)%Q in
  Double.to_Q msn = Some q /\
  msn_A msn = 28 /\ msn_B msn = 399999 /\
  decodeMSN (_setMSN_buf msn) = Some (28, 399999) /\
  (Qabs (q - (inject_Z 28 + (399999 # 1000000))) < 1 # 1000000)%Q.
Proof.
  cbv zeta.
  pose proof (setMSN_roundtrip (evaluate_msn 50 1 14200000 25000000)
                (7993889338582630 # 281474976710656)) as H.
  cbv zeta in H.
  replace (msn_A (evaluate_msn 50 1 14200000 25000000)) with 28 in H
    by (vm_compute; reflexivity).
  replace (msn_B (evaluate_msn 50 1 14200000 25000000)) with 399999 in H
    by (vm_compute; reflexivity).
  destruct H as (H1 & _ & _ & _ & H5).
  - vm_compute. reflexivity.
  - vm_compute. reflexivity.
  - unfold Qle. cbn. lia.
  - unfold Qlt. cbn. lia.
  - split; [vm_compute; reflexivity |].
    split; [vm_compute; reflexivity |].
    split; [vm_compute; reflexivity |].
    split; [exact H1 | exact H5].
Defined.

(** C5 as it is worded fails above [a = 2051]: for the multiplier 2052 the
    parameter P1 is [2 ^ 18], its top bit is cut off by the 18-bit field,
    and the registers decode to 4. *)
Lemma setMSN_roundtrip_fails_2052 :
  msn_A (Double.of_Z 2052) = 2052 /\ msn_B (Double.of_Z 2052) = 0 /\
  decodeMSN (_setMSN_buf (Double.of_Z 2052)) = Some (4, 0) /\
  decodeMSN (_setMSN_buf (Double.of_Z 2052)) <> Some (2052, 0).
Proof.
  split; [vm_compute; reflexivity |]. split; [vm_compute; reflexivity |].
  split; [vm_compute; reflexivity |]. vm_compute. discriminate.
Qed.

(** ** What [update] and [begin] put on the bus *)

Lemma vfo_set_Wire (w : TwoWire) (s : Si5351) (i : Z) :
  _vfo (set_Wire w s) i = _vfo s i.
Proof. reflexivity. Qed.

Lemma xtal_set_Wire (w : TwoWire) (s : Si5351) : _xtal (set_Wire w s) = _xtal s.
Proof. reflexivity. Qed.

Lemma log_wr (reg val : Z) (s : Si5351) :
  log (Wire (_wr reg val s)) = log (Wire s) ++ [BusWrite reg [val]].
Proof. reflexivity. Qed.

Lemma log_setMSN (pllIdx : Z) (m : double) (s : Si5351) :
  log (Wire (_setMSN pllIdx m s))
  = log (Wire s)
    ++ [BusWrite (if pllIdx =? 0 then SI_SYNTH_PLLA else SI_SYNTH_PLLB)
                 (_setMSN_buf m)].
Proof. reflexivity. Qed.

Lemma log_setMSI (clkIdx ms r : Z) (s : Si5351) :
  log (Wire (_setMSI clkIdx ms r s))
  = log (Wire s)
    ++ [BusWrite (if clkIdx =? 0 then SI_SYNTH_MS0
                  else if clkIdx =? 1 then SI_SYNTH_MS1 else SI_SYNTH_MS2)
                 (_setMSI_buf ms r)].
Proof. reflexivity. Qed.

(** C6: for every stored VFO0, [update(0)] writes one and the same
    MultiSynth divider image to the registers of CLK0 and of CLK1, writes
    0 to the phase offset register of CLK0, writes to the phase offset
    register of CLK1 the value of [msDivider] when the phase is 90 or 270
    degrees and 0 when it is 0 or 180 degrees, and writes a CLK1 control
    byte whose inversion bit is set exactly when the phase is 180 or 270
    degrees. *)
Theorem update_vfo0_writes (s : Si5351) :
  let v := _vfo s 0 in
  let img := _setMSI_buf (msi v) (_rDivToCode (ri v)) in
  exists phoff1 clk1ctl,
    log (Wire (update 0 s))
    = log (Wire s)
      ++ [ BusWrite SI_SYNTH_PLLA (_setMSN_buf (msn v));
           BusWrite SI_SYNTH_MS0 img;
           BusWrite SI_SYNTH_MS1 img;
           BusWrite SI_CLK0_PHOFF [0];
           BusWrite SI_CLK1_PHOFF [phoff1];
           BusWrite SI_CLK0_CTL [0x4D];
           BusWrite SI_CLK1_CTL [clk1ctl];
           BusWrite SI_PLL_RESET [0xA0] ] /\
    (phase v = PH090 \/ phase v = PH270 -> phoff1 = msi v) /\
    (phase v = PH000 \/ phase v = PH180 -> phoff1 = 0) /\
    (Z.land clk1ctl SI_CLK_INV = SI_CLK_INV <->
     phase v = PH180 \/ phase v = PH270).
Proof.
  intros v img.
  exists (if (phase v =? PH090) || (phase v =? PH270) then msi v else 0).
  exists (if (phase v =? PH180) || (phase v =? PH270) then 0x5D else 0x4D).
  split.
  - unfold update. change (1 <? 0) with false. change (0 =? 0) with true.
    cbv iota zeta. unfold resetPLL.
    rewrite !log_wr, !log_setMSI, log_setMSN.
    unfold _wr, _setMSI, _setMSN, _wrBulk. rewrite !vfo_set_Wire.
    fold v. fold img. rewrite <- !app_assoc. cbn [app Z.eqb].
    reflexivity.
  - unfold PH000, PH090, PH180, PH270, SI_CLK_INV. repeat split.
    + intros [-> | ->]; reflexivity.
    + intros [-> | ->]; reflexivity.
    + destruct (phase v =? 2) eqn:E2; [lia |].
      destruct (phase v =? 3) eqn:E3; [lia |]. cbn. discriminate.
    + intros [-> | ->]; reflexivity.
Qed.

Lemma vfo_wr (reg val : Z) (s : Si5351) (i : Z) : _vfo (_wr reg val s) i = _vfo s i.
Proof. reflexivity. Qed.

Lemma vfo_update (s : Si5351) (i j : Z) : _vfo (update i s) j = _vfo s j.
Proof.
  unfold update. destruct (1 <? i); [reflexivity |].
  destruct (i =? 0); reflexivity.
Qed.

Lemma vfo_enable (s : Si5351) (i j : Z) (en : bool) :
  _vfo (enable i en s) j = _vfo s j.
Proof. reflexivity. Qed.

Lemma xtal_update (s : Si5351) (i : Z) : _xtal (update i s) = _xtal s.
Proof.
  unfold update. destruct (1 <? i); [reflexivity |].
  destruct (i =? 0); reflexivity.
Qed.

(** The VFO array after [begin], whatever it held before. *)
Lemma begin_defaults (s : Si5351) :
  _vfo (begin s) 0 = mk_vfo 7074000 PH270 1 106 (Double.of_Z 30) /\
  _vfo (begin s) 1 = mk_vfo 10000000 PH000 1 76 (Double.of_Z 30) /\
  _xtal (begin s) = _xtal s.
Proof.
  split; [| split]; reflexivity.
Qed.

(** C3, at the failing input: [begin] with the default 25 MHz crystal
    installs for VFO0 the multiplier 30 next to M = 106, R = 1 and a target
    of 7,074,000 Hz, and for VFO1 the multiplier 30 next to M = 76 and
    10,000,000 Hz.  [msn * xtal] is 750,000,000 for both, against
    749,844,000 and 760,000,000: a drift of 156,000 Hz and of
    -10,000,000 Hz, where the resolution of the fraction allows 25 Hz.  The
    calls [setFreq(0, 7074000)] and [setFreq(1, 10000000)] of
    [example.cpp] find the targets stored and leave the drift in place. *)
Theorem begin_defaults_drift (w : TwoWire) :
  let s := begin (Si5351_ctor 25000000 w) in
  pll_drift (_xtal s) (_vfo s 0) = Some (156000 # 1)%Q /\
  pll_drift (_xtal s) (_vfo s 1) = Some (-10000000 # 1)%Q /\
  ~ within_resolution (_xtal s) (_vfo s 0) /\
  ~ within_resolution (_xtal s) (_vfo s 1) /\
  _vfo (setFreq 1 10000000 (setFreq 0 7074000 s)) 0 = _vfo s 0 /\
  _vfo (setFreq 1 10000000 (setFreq 0 7074000 s)) 1 = _vfo s 1.
Proof.
  cbv zeta.
  destruct (begin_defaults (Si5351_ctor 25000000 w)) as (H0 & H1 & Hx).
  set (s := begin (Si5351_ctor 25000000 w)) in *.
  change (_xtal (Si5351_ctor 25000000 w)) with 25000000 in Hx.
  assert (E0 : pll_drift (_xtal s) (_vfo s 0) = Some (156000 # 1)%Q)
    by (rewrite Hx, H0; vm_compute; reflexivity).
  assert (E1 : pll_drift (_xtal s) (_vfo s 1) = Some (-10000000 # 1)%Q)
    by (rewrite Hx, H1; vm_compute; reflexivity).
  split; [exact E0 |]. split; [exact E1 |].
  unfold within_resolution. rewrite E0, E1, Hx.
  split; [| split].
  - intros H. vm_compute in H. apply H. reflexivity.
  - intros H. vm_compute in H. apply H. reflexivity.
  - assert (N0 : setFreq 0 7074000 s = s).
    { unfold setFreq, _evaluate. change (1 <? 0) with false. cbv iota.
      rewrite H0. cbn [freq]. rewrite Z.eqb_refl. reflexivity. }
    rewrite N0.
    assert (N1 : setFreq 1 10000000 s = s).
    { unfold setFreq, _evaluate. change (1 <? 1) with false. cbv iota.
      rewrite H1. cbn [freq]. rewrite Z.eqb_refl. reflexivity. }
    rewrite N1. split; reflexivity.
Qed.

(** Where the planner has run, the identity holds: a plan for 10 MHz
    stores the multiplier 28 = 70 * 10,000,000 / 25,000,000 with no drift,
    and a plan for 7,074,000 Hz after another target stores the double
    nearest to 27.73008, a drift far below the resolution. *)
Lemma planned_examples_within_resolution :
  let s := setFreq 0 10000000 (Si5351_ctor 25000000 idle_bus) in
  let s' := setFreq 0 7074000 s in
  pll_drift 25000000 (_vfo s 0) = Some 0%Q /\
  within_resolution 25000000 (_vfo s 0) /\
  within_resolution 25000000 (_vfo s' 0).
Proof.
  cbv zeta. split; [vm_compute; reflexivity |].
  split; vm_compute; discriminate.
Qed.

(** X25: every multiplier the planner stores is the ratio it stands for up
    to the resolution of the fraction: with the binary64 rounding of the
    two multiplications and the division, [msn * xtal] differs from
    [msi * ri * freq] by at most [xtal / 1,000,000] Hz, for every 32-bit
    target and every crystal of 16,384 Hz or more. *)
Lemma planned_state_within_resolution (s : Si5351) (i f : Z) :
  0 <= i <= 1 -> 0 <= f < 2 ^ 32 -> freq (_vfo s i) <> f ->
  16384 <= _xtal s < 2 ^ 32 ->
  within_resolution (_xtal s) (_vfo (setFreq i f s) i).
Proof.
  intros Hi Hf Hne Hx. rewrite setFreq_planned by assumption.
  rewrite evaluate_msi_spec by assumption.
  pose proof (spec_msDivider_range f) as HM.
  assert (HR : 1 <= evaluate_ri f <= 128)
    by (destruct (evaluate_ri_cases f) as [[_ ->] | [[_ ->] | [_ ->]]]; lia).
  rewrite (u8_small (evaluate_ri f)) by lia.
  apply evaluate_msn_within_resolution; try lia.
  assert (spec_msDivider f * evaluate_ri f <= 126 * 128) by nia.
  assert (spec_msDivider f * evaluate_ri f * f
          <= 126 * 128 * f) by (apply Z.mul_le_mono_nonneg_r; lia).
  lia.
Qed.

(** * Further properties of the driver *)

(** ** The R divider code *)

(** X1: [_rDivToCode] is the base-2 logarithm on the eight R divider
    values: the code of [2 ^ k] is [k] for [k] from 0 to 7. *)
Theorem rDivToCode_pow2 (k : Z) :
  0 <= k <= 7 -> _rDivToCode (2 ^ k) = k.
Proof.
  intros Hk.
  assert (k = 0 \/ k = 1 \/ k = 2 \/ k = 3 \/ k = 4 \/ k = 5 \/ k = 6 \/ k = 7)
    as [-> | [-> | [-> | [-> | [-> | [-> | [-> | ->]]]]]]] by lia;
    reflexivity.
Qed.

Lemma rDivToCode_pow2_witness : _rDivToCode (2 ^ 5) = 5.
Proof. apply (rDivToCode_pow2 5). lia. Defined.

(** X2: whatever its argument, [_rDivToCode] returns a code from 0 to 7,
    so the mask [& 0x07] of [_setMSI] never cuts anything off; and a value
    that is none of the eight dividers gets the code 0 of R = 1. *)
Theorem rDivToCode_range (r : Z) :
  0 <= _rDivToCode r <= 7 /\
  Z.land (_rDivToCode r) 0x07 = _rDivToCode r /\
  ((forall k, 0 <= k <= 7 -> r <> 2 ^ k) -> _rDivToCode r = 0).
Proof.
  assert (Hcases :
    r = 1 \/ r = 2 \/ r = 4 \/ r = 8 \/ r = 16 \/ r = 32 \/ r = 64 \/ r = 128 \/
    _rDivToCode r = 0).
  { unfold _rDivToCode.
    repeat match goal with
           | |- context [match ?x with _ => _ end] => destruct x
           end; tauto. }
  split; [| split].
  - destruct Hcases as [-> | [-> | [-> | [-> | [-> | [-> | [-> | [-> | ->]]]]]]]];
      cbn; lia.
  - destruct Hcases as [-> | [-> | [-> | [-> | [-> | [-> | [-> | [-> | ->]]]]]]]];
      reflexivity.
  - intros Hno.
    destruct Hcases as [-> | [-> | [-> | [-> | [-> | [-> | [-> | [-> | H]]]]]]]];
      [ exfalso; apply (Hno 0); [lia | reflexivity]
      | exfalso; apply (Hno 1); [lia | reflexivity]
      | exfalso; apply (Hno 2); [lia | reflexivity]
      | exfalso; apply (Hno 3); [lia | reflexivity]
      | exfalso; apply (Hno 4); [lia | reflexivity]
      | exfalso; apply (Hno 5); [lia | reflexivity]
      | exfalso; apply (Hno 6); [lia | reflexivity]
      | exfalso; apply (Hno 7); [lia | reflexivity]
      | exact H ].
Qed.

(** X3: the R divider that the planner stores is always one the chip can
    express: its code is the exact logarithm, [2 ^ code = R], for every
    target frequency. *)
Theorem planned_rdiv_encodable (f : Z) :
  let R := u8 (evaluate_ri f) in
  2 ^ _rDivToCode R = R /\ R = evaluate_ri f.
Proof.
  cbv zeta.
  destruct (evaluate_ri_cases f) as [[_ ->] | [[_ ->] | [_ ->]]];
    split; reflexivity.
Qed.

(** ** More on the planner *)

(** X4: from 6 MHz to 175 MHz the planner keeps the VCO within one output
    period of the 700 MHz it aims at:
    [700,000,000 - f < f * R * M <= 700,000,000 + f]. *)
Theorem planner_vco_near_700MHz (s : Si5351) (i f : Z) :
  0 <= i <= 1 -> 6000000 <= f <= 175000000 -> freq (_vfo s i) <> f ->
  let v := _vfo (setFreq i f s) i in
  700000000 - f < vco_of v <= 700000000 + f.
Proof.
  intros Hi Hf Hne v. subst v. rewrite setFreq_planned by assumption.
  unfold vco_of. cbn [freq ri msi].
  rewrite evaluate_msi_spec by lia.
  destruct (evaluate_ri_cases f) as [[? _] | [[? _] | [_ ->]]]; [lia | lia |].
  rewrite u8_small by lia.
  destruct (spec_msDivider_high f ltac:(lia)) as [Hq HM].
  set (t := 700000000 / f) in *.
  destruct HM as [[Ht _] | [Ht [-> | ->]]].
  - exfalso.
    assert (f * t <= f * 3) by (apply Z.mul_le_mono_nonneg_l; lia). lia.
  - lia.
  - lia.
Qed.

Lemma planner_vco_near_700MHz_witness :
  let v := _vfo (setFreq 0 14200000 (Si5351_ctor 25000000 idle_bus)) 0 in
  700000000 - 14200000 < vco_of v <= 700000000 + 14200000.
Proof.
  apply (planner_vco_near_700MHz (Si5351_ctor 25000000 idle_bus) 0 14200000).
  - lia.
  - lia.
  - vm_compute. discriminate.
Defined.

(** X5: the 64-bit product of line 229 never wraps: for every 32-bit
    target frequency it is the exact VCO frequency [f * M * R], which stays
    below [2 ^ 46]. *)
Theorem evaluate_fvco_exact (f : Z) :
  0 <= f < 2 ^ 32 ->
  let R := evaluate_ri f in
  let M := evaluate_msi f R in
  evaluate_fvco f M R = f * M * R /\ f * M * R < 2 ^ 46.
Proof.
  intros Hf R M. subst R M. rewrite evaluate_msi_spec by assumption.
  pose proof (spec_msDivider_range f) as HM.
  assert (HR : 1 <= evaluate_ri f <= 128)
    by (destruct (evaluate_ri_cases f) as [[_ ->] | [[_ ->] | [_ ->]]]; lia).
  set (M := spec_msDivider f) in *. set (R := evaluate_ri f) in *.
  assert (H1 : 0 <= f * M <= 126 * 2 ^ 32) by nia.
  assert (H2 : 0 <= f * M * R <= 126 * 2 ^ 32 * 128) by nia.
  unfold evaluate_fvco. rewrite (u64_small (f * M)) by lia.
  rewrite u64_small by lia. split; [reflexivity | lia].
Qed.

Lemma evaluate_fvco_exact_witness :
  evaluate_fvco 4294967295 (evaluate_msi 4294967295 (evaluate_ri 4294967295))
                (evaluate_ri 4294967295)
  = 4294967295 * evaluate_msi 4294967295 (evaluate_ri 4294967295)
    * evaluate_ri 4294967295 /\
  4294967295 * evaluate_msi 4294967295 (evaluate_ri 4294967295)
  * evaluate_ri 4294967295 < 2 ^ 46.
Proof. apply (evaluate_fvco_exact 4294967295). lia. Defined.

(** X6: [setFreq] only plans.  For any index and frequency it leaves the
    bus, the crystal frequency, the phase of both VFOs and the whole of
    the other VFO as they are: nothing reaches the chip before
    [update]. *)
Theorem setFreq_frame (s : Si5351) (i f : Z) :
  Wire (setFreq i f s) = Wire s /\
  _xtal (setFreq i f s) = _xtal s /\
  phase (_vfo0 (setFreq i f s)) = phase (_vfo0 s) /\
  phase (_vfo1 (setFreq i f s)) = phase (_vfo1 s) /\
  (i <> 0 -> _vfo0 (setFreq i f s) = _vfo0 s) /\
  (i = 0 \/ 1 < i -> _vfo1 (setFreq i f s) = _vfo1 s).
Proof.
  unfold setFreq, _evaluate.
  destruct (1 <? i) eqn:E1; [repeat split; reflexivity |].
  destruct (freq (_vfo s i) =? f); [repeat split; reflexivity |].
  cbv zeta. unfold set_vfo, _vfo.
  destruct (i =? 0) eqn:E0; cbn;
    (split; [| split; [| split; [| split; [| split]]]]);
    try reflexivity; intros; try reflexivity; lia.
Qed.

(** X7: [setFreq] is idempotent: a second call with the same arguments
    finds the target stored and changes nothing. *)
Theorem setFreq_idempotent (s : Si5351) (i f : Z) :
  setFreq i f (setFreq i f s) = setFreq i f s.
Proof.
  destruct (1 <? i) eqn:E1.
  - unfold setFreq. rewrite E1. reflexivity.
  - destruct (freq (_vfo s i) =? f) eqn:Ef.
    + assert (H : setFreq i f s = s)
        by (unfold setFreq, _evaluate; rewrite E1, Ef; reflexivity).
      rewrite !H. reflexivity.
    + set (v := mk_vfo f (phase (_vfo s i)) (u8 (evaluate_ri f))
                  (evaluate_msi f (evaluate_ri f))
                  (evaluate_msn (evaluate_msi f (evaluate_ri f))
                                (evaluate_ri f) f (_xtal s))).
      assert (H : setFreq i f s = set_vfo i v s)
        by (unfold setFreq, _evaluate; rewrite E1, Ef; reflexivity).
      assert (Hv : _vfo (set_vfo i v s) i = v)
        by (unfold _vfo, set_vfo; destruct (i =? 0) eqn:E0; cbn; now rewrite ?E0).
      rewrite H. unfold setFreq, _evaluate. rewrite E1, Hv.
      unfold v at 1. cbn [freq]. rewrite Z.eqb_refl. reflexivity.
Qed.

(** ** The output enable register *)

Lemma enable_wire (s : Si5351) (i : Z) (en : bool) :
  let oe := if present (Wire s) then reg_value s SI_CLK_OE else 0xFF in
  let v := enable_oe i en oe in
  Wire (enable i en s)
  = mk_wire (present (Wire s))
            (if present (Wire s)
             then <[SI_CLK_OE := v]> (regs (Wire s)) else regs (Wire s))
            (log (Wire s) ++ [BusRead SI_CLK_OE; BusWrite SI_CLK_OE [v]]).
Proof.
  cbv zeta. unfold enable, _rd, _wr, bus_write, set_Wire, enable_oe, reg_value.
  cbn. rewrite <- app_assoc. destruct (present (Wire s)); reflexivity.
Qed.

Lemma testbit_u8 (x n : Z) :
  0 <= n -> Z.testbit (u8 x) n = (n <? 8) && Z.testbit x n.
Proof.
  intros Hn. unfold u8. destruct (n <? 8) eqn:E.
  - rewrite Z.mod_pow2_bits_low by lia. reflexivity.
  - rewrite Z.mod_pow2_bits_high by lia. reflexivity.
Qed.

Lemma enable_oe_bits (i : Z) (en : bool) (oe n : Z) :
  0 <= n ->
  Z.testbit (enable_oe i en oe) n
  = (n <? 8) && (if Z.testbit (oe_mask i) n then negb en else Z.testbit oe n).
Proof.
  intros Hn. unfold enable_oe, oe_mask.
  destruct (i =? 0), en; rewrite testbit_u8 by assumption; f_equal;
    rewrite ?Z.land_spec, ?Z.lor_spec, ?Z.lnot_spec by assumption;
    destruct (Z.testbit oe n); try destruct (Z.testbit 3 n);
    try destruct (Z.testbit 4 n); reflexivity.
Qed.

Lemma enable_oe_idempotent (i : Z) (en : bool) (oe : Z) :
  enable_oe i en (enable_oe i en oe) = enable_oe i en oe.
Proof.
  apply Z.bits_inj'. intros n Hn. rewrite !enable_oe_bits by assumption.
  destruct (n <? 8), (Z.testbit (oe_mask i) n); reflexivity.
Qed.

Lemma enable_oe_commute (j : Z) (a b : bool) (oe : Z) :
  j <> 0 ->
  enable_oe 0 a (enable_oe j b oe) = enable_oe j b (enable_oe 0 a oe).
Proof.
  intros Hj. apply Z.bits_inj'. intros n Hn.
  rewrite !enable_oe_bits by assumption. unfold oe_mask.
  replace (j =? 0) with false by (symmetry; apply Z.eqb_neq, Hj).
  change (0 =? 0) with true. cbv iota.
  assert (Hd : Z.testbit 3 n && Z.testbit 4 n = false).
  { rewrite <- Z.land_spec. change (Z.land 3 4) with 0. apply Z.bits_0. }
  destruct (n <? 8), (Z.testbit 3 n), (Z.testbit 4 n);
    try discriminate; reflexivity.
Qed.

Lemma reg_value_enable (s : Si5351) (i : Z) (en : bool) :
  present (Wire s) = true ->
  reg_value (enable i en s) SI_CLK_OE
  = enable_oe i en (reg_value s SI_CLK_OE).
Proof.
  intros Hp. unfold reg_value at 1. rewrite enable_wire, Hp. cbn [regs].
  now rewrite lookup_insert_eq.
Qed.

(** X8: with the chip answering, [enable] is a read-modify-write of the
    output enable register alone: it stores a byte in which the bits of
    the VFO (0 and 1 for VFO0, 2 otherwise) are cleared to enable and set
    to disable, and every other bit is as it was read; no other register
    and nothing of the driver's own state changes. *)
Theorem enable_owned_bits (s : Si5351) (i : Z) (en : bool) :
  present (Wire s) = true ->
  let s' := enable i en s in
  regs (Wire s') = <[SI_CLK_OE := reg_value s' SI_CLK_OE]> (regs (Wire s)) /\
  0 <= reg_value s' SI_CLK_OE < 2 ^ 8 /\
  (forall n, 0 <= n < 8 ->
     Z.testbit (reg_value s' SI_CLK_OE) n
     = if Z.testbit (oe_mask i) n then negb en
       else Z.testbit (reg_value s SI_CLK_OE) n) /\
  _vfo0 s' = _vfo0 s /\ _vfo1 s' = _vfo1 s /\ _xtal s' = _xtal s.
Proof.
  intros Hp s'. subst s'. rewrite reg_value_enable by assumption.
  split; [| split; [| split]].
  - rewrite enable_wire, Hp. reflexivity.
  - unfold enable_oe, u8. destruct (i =? 0), en; apply Z.mod_pos_bound; lia.
  - intros n Hn. rewrite enable_oe_bits by lia.
    replace (n <? 8) with true by (symmetry; apply Z.ltb_lt; lia). reflexivity.
  - split; [| split]; reflexivity.
Qed.

Lemma enable_owned_bits_witness :
  let s := begin (Si5351_ctor 25000000 idle_bus) in
  let s' := enable 1 true s in
  regs (Wire s') = <[SI_CLK_OE := reg_value s' SI_CLK_OE]> (regs (Wire s)) /\
  0 <= reg_value s' SI_CLK_OE < 2 ^ 8 /\
  (forall n, 0 <= n < 8 ->
     Z.testbit (reg_value s' SI_CLK_OE) n
     = if Z.testbit (oe_mask 1) n then negb true
       else Z.testbit (reg_value s SI_CLK_OE) n) /\
  _vfo0 s' = _vfo0 s /\ _vfo1 s' = _vfo1 s /\ _xtal s' = _xtal s.
Proof.
  apply (enable_owned_bits (begin (Si5351_ctor 25000000 idle_bus)) 1 true).
  vm_compute. reflexivity.
Defined.

(** X9: with the chip answering, [enable] is idempotent on the chip: a
    repeated call leaves the register file as the first call left it. *)
Theorem enable_idempotent (s : Si5351) (i : Z) (en : bool) :
  present (Wire s) = true ->
  regs (Wire (enable i en (enable i en s))) = regs (Wire (enable i en s)).
Proof.
  intros Hp.
  assert (Hp' : present (Wire (enable i en s)) = true)
    by (rewrite enable_wire; exact Hp).
  rewrite (enable_wire (enable i en s)), Hp'. cbn [regs].
  rewrite reg_value_enable by assumption.
  rewrite enable_oe_idempotent.
  rewrite enable_wire, Hp. cbn [regs]. apply insert_insert_eq.
Qed.

Lemma enable_idempotent_witness :
  let s := begin (Si5351_ctor 25000000 idle_bus) in
  regs (Wire (enable 1 false (enable 1 false s)))
  = regs (Wire (enable 1 false s)).
Proof.
  apply (enable_idempotent (begin (Si5351_ctor 25000000 idle_bus)) 1 false).
  vm_compute. reflexivity.
Defined.

(** X10: the two VFOs own different bits, so enabling or disabling VFO0
    and VFO1 in either order leaves the same register file. *)
Theorem enable_vfo0_vfo1_commute (s : Si5351) (j : Z) (a b : bool) :
  present (Wire s) = true -> j <> 0 ->
  regs (Wire (enable 0 a (enable j b s)))
  = regs (Wire (enable j b (enable 0 a s))).
Proof.
  intros Hp Hj.
  assert (Hpj : present (Wire (enable j b s)) = true)
    by (rewrite enable_wire; exact Hp).
  assert (Hp0 : present (Wire (enable 0 a s)) = true)
    by (rewrite enable_wire; exact Hp).
  rewrite (enable_wire (enable j b s)), Hpj.
  rewrite (enable_wire (enable 0 a s)), Hp0. cbn [regs].
  rewrite !reg_value_enable by assumption.
  rewrite enable_oe_commute by assumption.
  rewrite !enable_wire, Hp. cbn [regs].
  now rewrite !insert_insert_eq.
Qed.

Lemma enable_vfo0_vfo1_commute_witness :
  let s := begin (Si5351_ctor 25000000 idle_bus) in
  regs (Wire (enable 0 false (enable 1 true s)))
  = regs (Wire (enable 1 true (enable 0 false s))).
Proof.
  apply (enable_vfo0_vfo1_commute
           (begin (Si5351_ctor 25000000 idle_bus)) 1 false true).
  - vm_compute. reflexivity.
  - discriminate.
Defined.

(** X11: when the chip does not answer the read, [enable] takes the
    substitute 0xFF of [_rd] for the register and still sends a write
    derived from it: 0xFC or 0xFB to enable, 0xFF to disable. *)
Theorem enable_absent_chip (s : Si5351) (i : Z) (en : bool) :
  present (Wire s) = false ->
  log (Wire (enable i en s))
  = log (Wire s)
    ++ [ BusRead SI_CLK_OE;
         BusWrite SI_CLK_OE
           [if en then (if i =? 0 then 0xFC else 0xFB) else 0xFF] ] /\
  regs (Wire (enable i en s)) = regs (Wire s).
Proof.
  intros Hp. rewrite enable_wire, Hp. cbn [log regs]. split; [| reflexivity].
  unfold enable_oe. destruct (i =? 0), en; reflexivity.
Qed.

Lemma enable_absent_chip_witness :
  let s := Si5351_ctor 25000000 (mk_wire false ∅ []) in
  log (Wire (enable 0 true s))
  = log (Wire s)
    ++ [ BusRead SI_CLK_OE;
         BusWrite SI_CLK_OE
           [if true then (if 0 =? 0 then 0xFC else 0xFB) else 0xFF] ] /\
  regs (Wire (enable 0 true s)) = regs (Wire s).
Proof.
  apply (enable_absent_chip (Si5351_ctor 25000000 (mk_wire false ∅ [])) 0 true).
  reflexivity.
Defined.

(** ** Phase, [update] and the reachable states *)

(** X12: a phase set by [setPhase] reaches the chip with the next
    [update(0)] and not before.  For a phase code [ph] from 0 to 3 the
    call itself leaves the bus alone, and the following [update(0)] writes
    the CLK1 phase offset [msi] for an odd code and 0 for an even one, and
    the CLK1 control byte [0x4D + 0x10 * (ph / 2)]. *)
Theorem setPhase_then_update (s : Si5351) (ph : Z) :
  0 <= ph <= 3 ->
  let v := _vfo s 0 in
  let img := _setMSI_buf (msi v) (_rDivToCode (ri v)) in
  Wire (setPhase 0 ph s) = Wire s /\
  log (Wire (update 0 (setPhase 0 ph s)))
  = log (Wire s)
    ++ [ BusWrite SI_SYNTH_PLLA (_setMSN_buf (msn v));
         BusWrite SI_SYNTH_MS0 img;
         BusWrite SI_SYNTH_MS1 img;
         BusWrite SI_CLK0_PHOFF [0];
         BusWrite SI_CLK1_PHOFF [if Z.odd ph then msi v else 0];
         BusWrite SI_CLK0_CTL [0x4D];
         BusWrite SI_CLK1_CTL [0x4D + 0x10 * (ph / 2)];
         BusWrite SI_PLL_RESET [0xA0] ].
Proof.
  intros Hph v img.
  assert (Hs : setPhase 0 ph s
               = set_vfo 0 (mk_vfo (freq v) ph (ri v) (msi v) (msn v)) s).
  { unfold setPhase. change (0 =? 0) with true.
    replace (3 <? ph) with false by (symmetry; apply Z.ltb_ge; lia).
    reflexivity. }
  rewrite Hs. split; [reflexivity |].
  set (s1 := set_vfo 0 (mk_vfo (freq v) ph (ri v) (msi v) (msn v)) s).
  assert (Hv : _vfo s1 0 = mk_vfo (freq v) ph (ri v) (msi v) (msn v))
    by reflexivity.
  unfold update. change (1 <? 0) with false. change (0 =? 0) with true.
  cbv iota zeta. unfold resetPLL.
  rewrite !log_wr, !log_setMSI, log_setMSN.
  unfold _wr, _setMSI, _setMSN, _wrBulk. rewrite !vfo_set_Wire.
  rewrite Hv. cbn [phase ri msi msn]. fold img.
  rewrite <- !app_assoc. cbn [app Z.eqb].
  change (log (Wire s1)) with (log (Wire s)).
  assert (ph = 0 \/ ph = 1 \/ ph = 2 \/ ph = 3) as [-> | [-> | [-> | ->]]]
    by lia; reflexivity.
Qed.

Lemma setPhase_then_update_witness :
  let s := begin (Si5351_ctor 25000000 idle_bus) in
  let v := _vfo s 0 in
  let img := _setMSI_buf (msi v) (_rDivToCode (ri v)) in
  Wire (setPhase 0 1 s) = Wire s /\
  log (Wire (update 0 (setPhase 0 1 s)))
  = log (Wire s)
    ++ [ BusWrite SI_SYNTH_PLLA (_setMSN_buf (msn v));
         BusWrite SI_SYNTH_MS0 img;
         BusWrite SI_SYNTH_MS1 img;
         BusWrite SI_CLK0_PHOFF [0];
         BusWrite SI_CLK1_PHOFF [if Z.odd 1 then msi v else 0];
         BusWrite SI_CLK0_CTL [0x4D];
         BusWrite SI_CLK1_CTL [0x4D + 0x10 * (1 / 2)];
         BusWrite SI_PLL_RESET [0xA0] ].
Proof.
  apply (setPhase_then_update (begin (Si5351_ctor 25000000 idle_bus)) 1). lia.
Defined.

(** X13: [update(1)] writes the PLLB multiplier, the MultiSynth divider of
    CLK2 and a CLK2 control byte that selects PLLB in integer mode, then
    resets the PLLs; it writes no register of CLK0 or CLK1 and no phase
    offset, whatever phase is stored. *)
Theorem update_vfo1_writes (s : Si5351) :
  let v := _vfo s 1 in
  log (Wire (update 1 s))
  = log (Wire s)
    ++ [ BusWrite SI_SYNTH_PLLB (_setMSN_buf (msn v));
         BusWrite SI_SYNTH_MS2 (_setMSI_buf (msi v) (_rDivToCode (ri v)));
         BusWrite SI_CLK2_CTL [0x6D];
         BusWrite SI_PLL_RESET [0xA0] ].
Proof.
  intros v. unfold update. change (1 <? 1) with false.
  change (1 =? 0) with false. cbv iota zeta. unfold resetPLL.
  rewrite !log_wr, log_setMSI, log_setMSN.
  unfold _wr, _setMSI, _setMSN, _wrBulk. rewrite !vfo_set_Wire.
  fold v. rewrite <- !app_assoc. reflexivity.
Qed.

(** X14: [update] only talks to the chip: for any index it leaves both
    stored VFOs and the crystal frequency as they are, and for index 0 or
    1 the last thing it puts on the bus is the reset of both PLLs. *)
Theorem update_frame_and_reset (s : Si5351) (i : Z) :
  _vfo0 (update i s) = _vfo0 s /\
  _vfo1 (update i s) = _vfo1 s /\
  _xtal (update i s) = _xtal s /\
  present (Wire (update i s)) = present (Wire s) /\
  (0 <= i <= 1 ->
   last (log (Wire (update i s))) = Some (BusWrite SI_PLL_RESET [0xA0])).
Proof.
  unfold update. destruct (1 <? i) eqn:E1.
  - repeat split; try reflexivity. lia.
  - destruct (i =? 0) eqn:E0; cbv zeta;
      (split; [reflexivity |]); (split; [reflexivity |]);
      (split; [reflexivity |]); (split; [reflexivity |]);
      intros _; unfold resetPLL; rewrite log_wr; apply last_snoc.
Qed.

Lemma planned_vfo_ok (f ph xtal : Z) :
  0 <= f < 2 ^ 32 -> 0 <= ph <= 3 ->
  vfo_ok (mk_vfo f ph (u8 (evaluate_ri f)) (evaluate_msi f (evaluate_ri f))
                 (evaluate_msn (evaluate_msi f (evaluate_ri f))
                               (evaluate_ri f) f xtal)).
Proof.
  intros Hf Hph. unfold vfo_ok. cbn [freq phase ri msi].
  rewrite evaluate_msi_spec by assumption.
  split; [assumption |]. split; [assumption |]. split.
  - destruct (evaluate_ri_cases f) as [[_ ->] | [[_ ->] | [_ ->]]];
      [right; right | right; left | left]; reflexivity.
  - split; [apply spec_msDivider_even | apply spec_msDivider_range].
Qed.

Lemma setFreq_vfo_ok (s : Si5351) (i f : Z) :
  0 <= f < 2 ^ 32 -> vfo_ok (_vfo0 s) -> vfo_ok (_vfo1 s) ->
  vfo_ok (_vfo0 (setFreq i f s)) /\ vfo_ok (_vfo1 (setFreq i f s)).
Proof.
  intros Hf H0 H1. unfold setFreq, _evaluate.
  destruct (1 <? i); [now split |].
  destruct (freq (_vfo s i) =? f); [now split |].
  cbv zeta. unfold set_vfo, _vfo.
  destruct (i =? 0); cbn [_vfo0 _vfo1]; split; try assumption;
    apply planned_vfo_ok; try assumption.
  - apply H0.
  - apply H1.
Qed.

Lemma xtal_setFreq (s : Si5351) (i f : Z) : _xtal (setFreq i f s) = _xtal s.
Proof.
  unfold setFreq, _evaluate. destruct (1 <? i); [reflexivity |].
  destruct (freq (_vfo s i) =? f); [reflexivity |].
  cbv zeta. unfold set_vfo. destruct (i =? 0); reflexivity.
Qed.

(** X15: in every state a program can reach, by [begin] and then any
    calls of the public operations with arguments of their parameter
    types, both stored VFOs are as the comments of [vfo_t] say: the target
    fits 32 bits, the phase code is at most 3, the R divider is 1, 32 or
    128, and the MultiSynth divider is even and within [4,126]; and the
    crystal frequency is the one given at construction. *)
Theorem reachable_vfo_ok (s0 s : Si5351) :
  reachable s0 s ->
  vfo_ok (_vfo0 s) /\ vfo_ok (_vfo1 s) /\ _xtal s = _xtal s0.
Proof.
  induction 1 as [| c s Hr IH Hc].
  - destruct (begin_defaults s0) as (E0 & E1 & Ex).
    change (_vfo (begin s0) 0) with (_vfo0 (begin s0)) in E0.
    change (_vfo (begin s0) 1) with (_vfo1 (begin s0)) in E1.
    rewrite E0, E1, Ex. unfold vfo_ok, PH270, PH000. cbn.
    repeat split; lia || (left; reflexivity) || discriminate.
  - destruct IH as (H0 & H1 & Hx).
    destruct c as [| i en | i ph | i f | i]; cbn [run_call call_args_ok] in *.
    + split; [exact H0 | split; [exact H1 | exact Hx]].
    + split; [exact H0 | split; [exact H1 | exact Hx]].
    + unfold setPhase.
      destruct (negb (i =? 0) || (3 <? ph)) eqn:E;
        [split; [exact H0 | split; [exact H1 | exact Hx]] |].
      apply orb_false_elim in E. destruct E as [_ E3].
      apply Z.ltb_ge in E3.
      split; [| split; [exact H1 | exact Hx]].
      unfold vfo_ok in *. cbn. repeat split; try apply H0; lia.
    + destruct (setFreq_vfo_ok s i f) as [K0 K1]; try assumption; [lia |].
      split; [exact K0 | split; [exact K1 |]].
      rewrite xtal_setFreq. exact Hx.
    + change (_vfo0 (update i s)) with (_vfo (update i s) 0).
      change (_vfo1 (update i s)) with (_vfo (update i s) 1).
      rewrite !vfo_update, xtal_update.
      split; [exact H0 | split; [exact H1 | exact Hx]].
Qed.

Lemma reachable_vfo_ok_witness :
  let s0 := Si5351_ctor 25000000 idle_bus in
  let s := run_call (CallSetFreq 1 14200000) (begin s0) in
  vfo_ok (_vfo0 s) /\ vfo_ok (_vfo1 s) /\ _xtal s = _xtal s0.
Proof.
  apply (reachable_vfo_ok (Si5351_ctor 25000000 idle_bus)).
  apply reach_call.
  - apply reach_begin.
  - cbn. lia.
Defined.

Lemma planned_state_within_resolution_witness :
  within_resolution 25000000
    (_vfo (setFreq 0 14200000 (Si5351_ctor 25000000 idle_bus)) 0).
Proof.
  apply (planned_state_within_resolution
           (Si5351_ctor 25000000 idle_bus) 0 14200000).
  - lia.
  - lia.
  - vm_compute. discriminate.
  - cbn. lia.
Defined.

(** ** More on the register images *)

Lemma byte_land_FF (x : Z) : 0 <= Z.land x 0xFF < 2 ^ 8.
Proof. rewrite land_ones_8. apply Z.mod_pos_bound. lia. Qed.

(** X16: whatever [double] it is given, a NaN, an infinity or a negative
    value included, [_setMSN] sends exactly eight values that are bytes,
    and the third one is at most 3: the reserved bits next to P1[17:16]
    stay clear. *)
Theorem setMSN_buf_wellformed (msn : double) :
  length (_setMSN_buf msn) = 8%nat /\
  Forall (fun b => 0 <= b < 2 ^ 8) (_setMSN_buf msn) /\
  (forall b2, _setMSN_buf msn !! 2%nat = Some b2 -> 0 <= b2 <= 3).
Proof.
  unfold _setMSN_buf. cbv zeta.
  set (P1 := u32 _). set (P2 := u32 _).
  split; [reflexivity |]. split.
  - repeat constructor; try apply byte_land_FF.
    + rewrite land_ones_2. pose proof (Z.mod_pos_bound (Z.shiftr P1 16) 4). lia.
    + rewrite land_ones_2. pose proof (Z.mod_pos_bound (Z.shiftr P1 16) 4). lia.
    + change (Z.land (Z.shiftr SI_PLL_C 12) 240) with (Z.shiftl 15 4).
      rewrite land_ones_4.
      pose proof (Z.mod_pos_bound (Z.shiftr P2 16) 16 ltac:(lia)).
      rewrite lor_nibbles by lia. lia.
    + change (Z.land (Z.shiftr SI_PLL_C 12) 240) with (Z.shiftl 15 4).
      rewrite land_ones_4.
      pose proof (Z.mod_pos_bound (Z.shiftr P2 16) 16 ltac:(lia)).
      rewrite lor_nibbles by lia. lia.
  - intros b2 Hb. cbn in Hb. injection Hb as <-.
    rewrite land_ones_2. pose proof (Z.mod_pos_bound (Z.shiftr P1 16) 4). lia.
Qed.

Lemma setMSI_P1_low16 (m : Z) :
  0 <= m < 2 ^ 8 ->
  let P1 := u32 (128 * m - 512) in
  256 * u8 (Z.land (Z.shiftr P1 8) 0xFF) + u8 (Z.land P1 0xFF)
  = (128 * m - 512) mod 65536.
Proof.
  intros Hm P1. subst P1. unfold u8, u32.
  rewrite !land_ones_8, Z.shiftr_div_pow2 by lia.
  change (2 ^ 8) with 256. change (2 ^ 32) with 4294967296.
  Z.div_mod_to_equations. lia.
Qed.

Lemma setMSI_buf_inj (m m' r r' : Z) :
  0 <= m < 2 ^ 8 -> 0 <= m' < 2 ^ 8 -> 0 <= r <= 7 -> 0 <= r' <= 7 ->
  _setMSI_buf m r = _setMSI_buf m' r' -> m = m' /\ r = r'.
Proof.
  intros Hm Hm' Hr Hr' H.
  pose proof (setMSI_P1_low16 m Hm) as L.
  pose proof (setMSI_P1_low16 m' Hm') as L'.
  cbv zeta in L, L'. unfold _setMSI_buf in H. cbv zeta in H.
  injection H as H2 H3 H4.
  rewrite H3, H4, L' in L.
  assert (Em : m = m').
  { change (2 ^ 8) with 256 in *. revert L. Z.div_mod_to_equations. lia. }
  subst m'. split; [reflexivity |].
  set (t := Z.land (Z.shiftr (u32 (128 * m - 512)) 16) 0x03) in *.
  assert (Ht : 0 <= t < 4)
    by (unfold t; rewrite land_ones_2; apply Z.mod_pos_bound; lia).
  assert (Hmask : forall x, 0 <= x <= 7 -> Z.land x 0x07 = x).
  { intros x Hx. change 0x07 with (Z.ones 3). rewrite Z.land_ones by lia.
    apply Z.mod_small. cbn. lia. }
  rewrite (Hmask r), (Hmask r') in H2 by assumption.
  assert (Hb : forall x, 0 <= x <= 7 ->
                 u8 (Z.lor (u8 t) (u8 (Z.shiftl x 4))) = 16 * x + t).
  { intros x Hx. rewrite (u8_small t) by lia.
    rewrite (u8_small (Z.shiftl x 4))
      by (rewrite Z.shiftl_mul_pow2 by lia; change (2 ^ 4) with 16; lia).
    rewrite Z.lor_comm, lor_nibbles by lia. apply u8_small. lia. }
  rewrite (Hb r), (Hb r') in H2 by assumption. lia.
Qed.

(** X17: the image of an output divider determines the divider: for
    8-bit values of [msiEven] and R codes from 0 to 7, calls of [_setMSI]
    with a different divider or a different R code send different bytes,
    so no two settings share a register image. *)
Theorem setMSI_buf_injective (m m' r r' : Z) :
  0 <= m < 2 ^ 8 -> 0 <= m' < 2 ^ 8 -> 0 <= r <= 7 -> 0 <= r' <= 7 ->
  m <> m' \/ r <> r' ->
  _setMSI_buf m r <> _setMSI_buf m' r'.
Proof.
  intros Hm Hm' Hr Hr' Hne H.
  destruct (setMSI_buf_inj m m' r r' Hm Hm' Hr Hr' H) as [Em Er]. lia.
Qed.

Lemma setMSI_buf_injective_witness :
  _setMSI_buf 98 0 <> _setMSI_buf 226 0.
Proof. apply (setMSI_buf_injective 98 226 0 0); lia. Defined.

(** X18: for any arguments at all, [_setMSI] sends exactly eight values
    that are bytes; in the third one bit 7 and the bits 3:2 of the
    divide-by-4 field are always clear. *)
Theorem setMSI_buf_wellformed (m r : Z) :
  length (_setMSI_buf m r) = 8%nat /\
  Forall (fun b => 0 <= b < 2 ^ 8) (_setMSI_buf m r) /\
  (forall b2, _setMSI_buf m r !! 2%nat = Some b2 -> Z.land b2 0x8C = 0).
Proof.
  unfold _setMSI_buf. cbv zeta. set (P1 := u32 _).
  split; [reflexivity |]. split.
  - repeat constructor; try (unfold u8; apply Z.mod_pos_bound; lia);
      try (pose proof (Z.mod_pos_bound 0 256); lia).
  - intros b2 Hb. cbn in Hb. injection Hb as <-.
    set (t := Z.land (Z.shiftr P1 16) 0x03).
    set (x := Z.land r 0x07).
    assert (Ht : 0 <= t < 4)
      by (unfold t; rewrite land_ones_2; apply Z.mod_pos_bound; lia).
    assert (Hx : 0 <= x < 8).
    { unfold x. change 0x07 with (Z.ones 3). rewrite Z.land_ones by lia.
      apply Z.mod_pos_bound. lia. }
    rewrite (u8_small t) by lia.
    rewrite (u8_small (Z.shiftl x 4))
      by (rewrite Z.shiftl_mul_pow2 by lia; change (2 ^ 4) with 16; lia).
    rewrite Z.lor_comm, lor_nibbles by lia. rewrite u8_small by lia.
    assert (x = 0 \/ x = 1 \/ x = 2 \/ x = 3 \/ x = 4 \/ x = 5 \/ x = 6 \/ x = 7)
      as [-> | [-> | [-> | [-> | [-> | [-> | [-> | ->]]]]]]] by lia;
      (assert (t = 0 \/ t = 1 \/ t = 2 \/ t = 3) as [-> | [-> | [-> | ->]]]
         by lia); reflexivity.
Qed.

Lemma three_bytes (x K : Z) :
  0 < K ->
  (x / 65536) mod K * 65536 + (x / 256) mod 256 * 256 + x mod 256
  = x mod (65536 * K).
Proof.
  intros HK.
  assert (E1 : x mod (65536 * K) = x mod 65536 + 65536 * ((x / 65536) mod K))
    by (apply Z.rem_mul_r; lia).
  assert (E2 : x mod (256 * 256) = x mod 256 + 256 * ((x / 256) mod 256))
    by (apply Z.rem_mul_r; lia).
  change (256 * 256) with 65536 in E2. lia.
Qed.

Lemma nibble_split (hi lo : Z) :
  0 <= lo < 16 -> (16 * hi + lo) / 16 = hi /\ (16 * hi + lo) mod 16 = lo.
Proof.
  intros Hlo. split; symmetry.
  - apply (Z.div_unique _ 16 _ lo); lia.
  - apply (Z.mod_unique _ 16 hi); lia.
Qed.

Lemma unpack_pack_params_mod (P1 P2 P3 : Z) :
  unpack_params (pack_params P1 P2 P3)
  = Some (P1 mod 2 ^ 18, P2 mod 2 ^ 20, P3 mod 2 ^ 20).
Proof.
  unfold pack_params, unpack_params.
  rewrite !land_ones_8, !land_ones_4, land_ones_2.
  rewrite !Z.shiftr_div_pow2 by lia.
  change (2 ^ 8) with 256. change (2 ^ 16) with 65536.
  pose proof (Z.mod_pos_bound (P3 / 65536) 16 ltac:(lia)) as H3.
  pose proof (Z.mod_pos_bound (P2 / 65536) 16 ltac:(lia)) as H2.
  rewrite lor_nibbles by lia.
  destruct (nibble_split ((P3 / 65536) mod 16) ((P2 / 65536) mod 16) H2)
    as [-> ->].
  change (2 ^ 2) with 4. rewrite !Z.mod_mod by lia.
  rewrite !three_bytes by lia. reflexivity.
Qed.

(** X19: what the PLL registers keep of any multiplier.  For the
    [a + b / c] the encoder reads off its argument, with [b < c], decoding
    the eight bytes gives [b] back exactly and [a] modulo 2048 counted
    from 4: the integer part survives from 4 to 2051 and wraps around
    outside, below 4 as well as above 2051. *)
Theorem setMSN_roundtrip_mod (msn : double) :
  let a := msn_A msn in
  let b := msn_B msn in
  b < SI_PLL_C ->
  decodeMSN (_setMSN_buf msn) = Some (4 + (a - 4) mod 2048, b).
Proof.
  intros a b Hb.
  assert (Hb0 : 0 <= b) by apply to_u32_range.
  rewrite (setMSN_buf_params msn Hb). fold a b.
  unfold decodeMSN. rewrite unpack_pack_params_mod. unfold pll_P1, pll_P2.
  pose proof (Z_div_mod_eq_full (128 * b) SI_PLL_C) as Hdm.
  pose proof (Z.mod_pos_bound (128 * b) SI_PLL_C ltac:(reflexivity)) as Hmod.
  set (tmp := 128 * b / SI_PLL_C) in *.
  assert (Htmp : 0 <= tmp < 128).
  { unfold tmp, SI_PLL_C in *. split.
    - apply Z.div_pos; lia.
    - apply Z.div_lt_upper_bound; lia. }
  unfold SI_PLL_C in *.
  assert (HP1 : (128 * a + tmp - 512) mod 2 ^ 18
                = tmp + ((a - 4) mod 2048) * 128).
  { replace (128 * a + tmp - 512) with (tmp + (a - 4) * 128) by lia.
    change (2 ^ 18) with (128 * 2048). rewrite Z.rem_mul_r by lia.
    rewrite Z.mod_add, Z.div_add by lia.
    rewrite Z.mod_small, Z.div_small by lia. rewrite Z.add_0_l. lia. }
  rewrite HP1.
  rewrite (Z.mod_small (128 * b - 1000000 * tmp)) by lia.
  rewrite (Z.mod_small 1000000) by lia.
  pose proof (Z.mod_pos_bound (a - 4) 2048 ltac:(lia)) as Hq.
  replace (tmp + (a - 4) mod 2048 * 128 + 512)
    with (tmp + ((a - 4) mod 2048 + 4) * 128) by lia.
  rewrite Z.div_add, Z.mod_add by lia.
  rewrite (Z.div_small tmp 128), (Z.mod_small tmp 128) by lia.
  f_equal. f_equal; [lia |].
  replace (128 * b - 1000000 * tmp + 1000000 * tmp) with (b * 128) by lia.
  apply Z.div_mul. lia.
Qed.

Lemma setMSN_roundtrip_mod_witness :
  decodeMSN (_setMSN_buf (Double.of_Z 2052)) = Some (4 + (2052 - 4) mod 2048, 0).
Proof.
  pose proof (setMSN_roundtrip_mod (Double.of_Z 2052)) as H.
  cbv zeta in H.
  replace (msn_A (Double.of_Z 2052)) with 2052 in H by (vm_compute; reflexivity).
  replace (msn_B (Double.of_Z 2052)) with 0 in H by (vm_compute; reflexivity).
  apply H. reflexivity.
Defined.

Lemma floor_of_Z (n : Z) :
  0 <= n < 2 ^ 53 -> Double.floor (Double.of_Z n) = Double.of_Z n.
Proof.
  intros Hn. destruct (Z.eq_dec n 0) as [-> | Hnz]; [reflexivity |].
  destruct (of_Z_normal n) as (m & e & E & Hm & He & Hv); [lia |].
  rewrite E. unfold Double.floor, Double.floorZ. cbn [cond_Zopp].
  fold (Double.of_Z (Z.shiftl (Zpos m) e)). rewrite <- E. f_equal.
  rewrite Z.shiftl_div_pow2 by lia. rewrite Hv. apply Z.div_mul.
  apply Z.pow_nonzero; lia.
Qed.

Lemma sub_self_finite (s : bool) (m : positive) (e : Z) :
  Double.sub (S754_finite s m e) (S754_finite s m e) = S754_zero false.
Proof.
  unfold Double.sub, SFsub, shl_align. rewrite Z.min_id, Z.sub_diag.
  reflexivity.
Qed.

(** X20: a multiplier that is an integer [n] below [2 ^ 32], such as the
    30.0 of the bring-up defaults, is read by the encoder as [a = n] and
    [b = 0] exactly, and its registers are those of P1 = 128 n - 512,
    P2 = 0 and P3 = 1,000,000. *)
Theorem integer_multiplier_image (n : Z) :
  0 <= n < 2 ^ 32 ->
  msn_A (Double.of_Z n) = n /\
  msn_B (Double.of_Z n) = 0 /\
  _setMSN_buf (Double.of_Z n) = pack_params (128 * n - 512) 0 SI_PLL_C.
Proof.
  intros Hn.
  assert (HA : msn_A (Double.of_Z n) = n).
  { unfold msn_A. rewrite floor_of_Z, to_u32_of_Z by lia. lia. }
  assert (HB : msn_B (Double.of_Z n) = 0).
  { unfold msn_B. rewrite HA.
    destruct (Z.eq_dec n 0) as [-> | Hnz]; [reflexivity |].
    destruct (of_Z_normal n) as (m & e & E & _); [lia |].
    rewrite E, sub_self_finite. reflexivity. }
  split; [exact HA |]. split; [exact HB |].
  pose proof (setMSN_buf_params (Double.of_Z n)) as H. cbv zeta in H.
  rewrite HA, HB in H. rewrite H by reflexivity.
  unfold pll_P1, pll_P2. change (128 * 0 / SI_PLL_C) with 0.
  f_equal; lia.
Qed.

Lemma integer_multiplier_image_witness :
  msn_A (Double.of_Z 30) = 30 /\
  msn_B (Double.of_Z 30) = 0 /\
  _setMSN_buf (Double.of_Z 30) = pack_params (128 * 30 - 512) 0 SI_PLL_C.
Proof. apply (integer_multiplier_image 30). lia. Defined.

(** ** The chip's register file *)

Lemma store_bytes_outside (data : list Z) (reg r : Z) (m : gmap Z Z) :
  r < reg \/ reg + Z.of_nat (length data) <= r ->
  store_bytes reg data m !! r = m !! r.
Proof.
  revert reg m. induction data as [| b bs IH]; intros reg m Hr; [reflexivity |].
  cbn [store_bytes]. rewrite IH by (cbn [length] in Hr; lia).
  apply lookup_insert_ne. cbn [length] in Hr. lia.
Qed.

(** X21: a bulk write to a chip that answers puts byte [k] of the buffer
    into register [reg + k], for every [k] below the length sent, and
    leaves every register outside that window as it was. *)
Theorem wrBulk_registers (s : Si5351) (reg len : Z) (data : list Z) :
  present (Wire s) = true ->
  let sent := firstn (Z.to_nat len) data in
  (forall k : nat, (k < length sent)%nat ->
     regs (Wire (_wrBulk reg data len s)) !! (reg + Z.of_nat k) = sent !! k) /\
  (forall r, r < reg \/ reg + Z.of_nat (length sent) <= r ->
     regs (Wire (_wrBulk reg data len s)) !! r = regs (Wire s) !! r).
Proof.
  intros Hp sent. unfold _wrBulk, bus_write, set_Wire. cbn [Wire regs].
  rewrite Hp. fold sent. split.
  - generalize (regs (Wire s)). generalize reg. clear.
    induction sent as [| b bs IH]; intros reg m k Hk; [cbn in Hk; lia |].
    cbn [store_bytes]. destruct k as [| k].
    + rewrite store_bytes_outside by lia. rewrite Z.add_0_r.
      cbn. apply lookup_insert_eq.
    + replace (reg + Z.of_nat (S k)) with (reg + 1 + Z.of_nat k) by lia.
      rewrite IH by (cbn in Hk; lia). reflexivity.
  - intros r Hr. apply store_bytes_outside, Hr.
Qed.

Lemma wrBulk_registers_witness :
  let s := Si5351_ctor 25000000 idle_bus in
  let sent := firstn (Z.to_nat 8) (_setMSI_buf 98 0) in
  (forall k : nat, (k < length sent)%nat ->
     regs (Wire (_wrBulk SI_SYNTH_MS0 (_setMSI_buf 98 0) 8 s))
       !! (SI_SYNTH_MS0 + Z.of_nat k) = sent !! k) /\
  (forall r, r < SI_SYNTH_MS0 \/ SI_SYNTH_MS0 + Z.of_nat (length sent) <= r ->
     regs (Wire (_wrBulk SI_SYNTH_MS0 (_setMSI_buf 98 0) 8 s)) !! r
     = regs (Wire s) !! r).
Proof.
  apply (wrBulk_registers (Si5351_ctor 25000000 idle_bus) SI_SYNTH_MS0 8
                          (_setMSI_buf 98 0)).
  reflexivity.
Defined.

Lemma regs_wr (reg val : Z) (s : Si5351) :
  present (Wire s) = true ->
  regs (Wire (_wr reg val s)) = <[reg := val]> (regs (Wire s)).
Proof. intros Hp. unfold _wr, bus_write, set_Wire. cbn. now rewrite Hp. Qed.

Lemma regs_setMSI (clkIdx ms r : Z) (s : Si5351) :
  present (Wire s) = true ->
  regs (Wire (_setMSI clkIdx ms r s))
  = store_bytes (if clkIdx =? 0 then SI_SYNTH_MS0
                 else if clkIdx =? 1 then SI_SYNTH_MS1 else SI_SYNTH_MS2)
                (_setMSI_buf ms r) (regs (Wire s)).
Proof.
  intros Hp. unfold _setMSI, _wrBulk, bus_write, set_Wire. cbn [Wire regs].
  rewrite Hp. reflexivity.
Qed.

Lemma regs_setMSN (pllIdx : Z) (m : double) (s : Si5351) :
  present (Wire s) = true ->
  regs (Wire (_setMSN pllIdx m s))
  = store_bytes (if pllIdx =? 0 then SI_SYNTH_PLLA else SI_SYNTH_PLLB)
                (_setMSN_buf m) (regs (Wire s)).
Proof.
  intros Hp. unfold _setMSN, _wrBulk, bus_write, set_Wire. cbn [Wire regs].
  rewrite Hp. reflexivity.
Qed.

Lemma vfo_setMSI (clkIdx ms r : Z) (s : Si5351) (i : Z) :
  _vfo (_setMSI clkIdx ms r s) i = _vfo s i.
Proof. reflexivity. Qed.

Lemma vfo_setMSN (pllIdx : Z) (m : double) (s : Si5351) (i : Z) :
  _vfo (_setMSN pllIdx m s) i = _vfo s i.
Proof. reflexivity. Qed.

Lemma present_wr (reg val : Z) (s : Si5351) :
  present (Wire (_wr reg val s)) = present (Wire s).
Proof. reflexivity. Qed.

Lemma present_setMSI (clkIdx ms r : Z) (s : Si5351) :
  present (Wire (_setMSI clkIdx ms r s)) = present (Wire s).
Proof. reflexivity. Qed.

Lemma present_setMSN (pllIdx : Z) (m : double) (s : Si5351) :
  present (Wire (_setMSN pllIdx m s)) = present (Wire s).
Proof. reflexivity. Qed.

Lemma update0_regs (s : Si5351) :
  present (Wire s) = true ->
  let v := _vfo s 0 in
  let img := _setMSI_buf (msi v) (_rDivToCode (ri v)) in
  regs (Wire (update 0 s))
  = <[SI_PLL_RESET := 0xA0]>
      (<[SI_CLK1_CTL :=
           if (phase v =? PH180) || (phase v =? PH270) then 0x5D else 0x4D]>
         (<[SI_CLK0_CTL := 0x4D]>
            (<[SI_CLK1_PHOFF :=
                 if (phase v =? PH090) || (phase v =? PH270)
                 then msi v else 0]>
               (<[SI_CLK0_PHOFF := 0]>
                  (store_bytes SI_SYNTH_MS1 img
                     (store_bytes SI_SYNTH_MS0 img
                        (store_bytes SI_SYNTH_PLLA (_setMSN_buf (msn v))
                           (regs (Wire s))))))))).
Proof.
  intros Hp v img. unfold update. change (1 <? 0) with false.
  change (0 =? 0) with true. cbv iota zeta. unfold resetPLL.
  repeat first
    [ rewrite regs_wr
        by (rewrite ?present_wr, ?present_setMSI, ?present_setMSN; exact Hp)
    | rewrite regs_setMSI
        by (rewrite ?present_wr, ?present_setMSI, ?present_setMSN; exact Hp)
    | rewrite regs_setMSN by exact Hp ].
  rewrite ?vfo_wr, ?vfo_setMSI, ?vfo_setMSN. fold v. fold img.
  change (0 =? 0) with true. change (1 =? 0) with false.
  change (1 =? 1) with true. cbv iota.
  destruct ((phase v =? PH180) || (phase v =? PH270)); reflexivity.
Qed.

Lemma store_bytes_inside (data : list Z) (reg : Z) (m : gmap Z Z) (k : nat) :
  (k < length data)%nat ->
  store_bytes reg data m !! (reg + Z.of_nat k) = data !! k.
Proof.
  revert reg m k. induction data as [| b bs IH]; intros reg m k Hk;
    [cbn in Hk; lia |].
  cbn [store_bytes]. destruct k as [| k].
  - rewrite store_bytes_outside by lia. rewrite Z.add_0_r.
    cbn. apply lookup_insert_eq.
  - replace (reg + Z.of_nat (S k)) with (reg + 1 + Z.of_nat k) by lia.
    rewrite IH by (cbn in Hk; lia). reflexivity.
Qed.

(** X22: with the chip answering, [update(0)] leaves the register file
    as follows: the eight MultiSynth registers of CLK0 and those of CLK1
    hold the same image byte for byte, the PLLA registers hold the image
    of the stored multiplier, the phase offset of CLK0 is 0 and that of
    CLK1 is [msi] for the phases 90 and 270 and 0 otherwise, the control
    byte of CLK1 is 0x5D for the phases 180 and 270 and 0x4D otherwise;
    the PLLB and CLK2 registers, the output enable register and all the
    rest are untouched. *)
Theorem update0_register_file (s : Si5351) :
  present (Wire s) = true ->
  let v := _vfo s 0 in
  let img := _setMSI_buf (msi v) (_rDivToCode (ri v)) in
  let m' := regs (Wire (update 0 s)) in
  (forall k : nat, (k < 8)%nat ->
     m' !! (SI_SYNTH_MS0 + Z.of_nat k) = img !! k /\
     m' !! (SI_SYNTH_MS1 + Z.of_nat k) = img !! k /\
     m' !! (SI_SYNTH_PLLA + Z.of_nat k) = _setMSN_buf (msn v) !! k) /\
  m' !! SI_CLK0_PHOFF = Some 0 /\
  m' !! SI_CLK1_PHOFF
    = Some (if (phase v =? PH090) || (phase v =? PH270) then msi v else 0) /\
  m' !! SI_CLK0_CTL = Some 0x4D /\
  m' !! SI_CLK1_CTL
    = Some (if (phase v =? PH180) || (phase v =? PH270) then 0x5D else 0x4D) /\
  m' !! SI_PLL_RESET = Some 0xA0 /\
  (forall r,
     ~ 26 <= r < 34 -> ~ 42 <= r < 58 ->
     r <> 16 -> r <> 17 -> r <> 165 -> r <> 166 -> r <> 177 ->
     m' !! r = regs (Wire s) !! r).
Proof.
  intros Hp v img m'. subst m'. rewrite (update0_regs s Hp). fold v img.
  unfold SI_PLL_RESET, SI_CLK1_CTL, SI_CLK0_CTL, SI_CLK1_PHOFF, SI_CLK0_PHOFF,
    SI_SYNTH_MS1, SI_SYNTH_MS0, SI_SYNTH_PLLA.
  assert (Limg : length img = 8%nat) by reflexivity.
  assert (Lpll : length (_setMSN_buf (msn v)) = 8%nat) by reflexivity.
  split; [| split; [| split; [| split; [| split; [| split]]]]].
  - intros k Hk. split; [| split].
    + rewrite !lookup_insert_ne by lia.
      rewrite store_bytes_outside by (rewrite Limg; lia).
      apply store_bytes_inside. rewrite Limg. exact Hk.
    + rewrite !lookup_insert_ne by lia.
      apply store_bytes_inside. rewrite Limg. exact Hk.
    + rewrite !lookup_insert_ne by lia.
      rewrite !store_bytes_outside by (rewrite Limg; lia).
      apply store_bytes_inside. rewrite Lpll. exact Hk.
  - rewrite !lookup_insert_ne by lia. apply lookup_insert_eq.
  - rewrite !lookup_insert_ne by lia. apply lookup_insert_eq.
  - rewrite !lookup_insert_ne by lia. apply lookup_insert_eq.
  - rewrite !lookup_insert_ne by lia. apply lookup_insert_eq.
  - apply lookup_insert_eq.
  - intros r H1 H2 H3 H4 H5 H6 H7.
    rewrite !lookup_insert_ne by lia.
    rewrite !store_bytes_outside by (rewrite ?Limg, ?Lpll; lia).
    reflexivity.
Qed.

Lemma update0_register_file_witness :
  let s := setPhase 0 PH090 (begin (Si5351_ctor 25000000 idle_bus)) in
  let m' := regs (Wire (update 0 s)) in
  m' !! SI_CLK1_PHOFF = Some 106 /\ m' !! SI_CLK1_CTL = Some 0x4D.
Proof.
  cbv zeta.
  pose proof (update0_register_file
                (setPhase 0 PH090 (begin (Si5351_ctor 25000000 idle_bus)))) as H.
  cbv zeta in H. destruct H as (_ & _ & H1 & _ & H2 & _); [reflexivity |].
  split; [exact H1 | exact H2].
Defined.

Lemma update1_regs (s : Si5351) :
  present (Wire s) = true ->
  let v := _vfo s 1 in
  regs (Wire (update 1 s))
  = <[SI_PLL_RESET := 0xA0]>
      (<[SI_CLK2_CTL := 0x6D]>
         (store_bytes SI_SYNTH_MS2 (_setMSI_buf (msi v) (_rDivToCode (ri v)))
            (store_bytes SI_SYNTH_PLLB (_setMSN_buf (msn v))
               (regs (Wire s))))).
Proof.
  intros Hp v. unfold update. change (1 <? 1) with false.
  change (1 =? 0) with false. cbv iota zeta. unfold resetPLL.
  repeat first
    [ rewrite regs_wr
        by (rewrite ?present_wr, ?present_setMSI, ?present_setMSN; exact Hp)
    | rewrite regs_setMSI
        by (rewrite ?present_wr, ?present_setMSI, ?present_setMSN; exact Hp)
    | rewrite regs_setMSN by exact Hp ].
  rewrite ?vfo_wr, ?vfo_setMSI, ?vfo_setMSN. fold v. reflexivity.
Qed.

Lemma present_update (s : Si5351) (i : Z) :
  present (Wire (update i s)) = present (Wire s).
Proof.
  unfold update. destruct (1 <? i); [reflexivity |].
  destruct (i =? 0); reflexivity.
Qed.

Lemma present_enable (s : Si5351) (i : Z) (en : bool) :
  present (Wire (enable i en s)) = present (Wire s).
Proof. now rewrite enable_wire. Qed.

Lemma regs_enable (s : Si5351) (i : Z) (en : bool) :
  present (Wire s) = true ->
  regs (Wire (enable i en s))
  = <[SI_CLK_OE := enable_oe i en (reg_value s SI_CLK_OE)]> (regs (Wire s)).
Proof. intros Hp. now rewrite enable_wire, Hp. Qed.

(** The register file after [begin], from the one before. *)
Lemma begin_regs (s : Si5351) :
  present (Wire s) = true ->
  regs (Wire (begin s))
  = <[SI_CLK_OE :=
        enable_oe 1 false (enable_oe 0 true (reg_value s SI_CLK_OE))]>
      (<[SI_PLL_RESET := 0xA0]>
         (<[SI_CLK2_CTL := 0x6D]>
            (store_bytes SI_SYNTH_MS2 [0; 1; 0; 36; 0; 0; 0; 0]
               (store_bytes SI_SYNTH_PLLB [66; 64; 0; 13; 0; 240; 0; 0]
                  (<[SI_PLL_RESET := 0xA0]>
                     (<[SI_CLK1_CTL := 0x5D]>
                        (<[SI_CLK0_CTL := 0x4D]>
                           (<[SI_CLK1_PHOFF := 106]>
                              (<[SI_CLK0_PHOFF := 0]>
                                 (store_bytes SI_SYNTH_MS1
                                    [0; 1; 0; 51; 0; 0; 0; 0]
                                    (store_bytes SI_SYNTH_MS0
                                       [0; 1; 0; 51; 0; 0; 0; 0]
                                       (store_bytes SI_SYNTH_PLLA
                                          [66; 64; 0; 13; 0; 240; 0; 0]
                                          (<[SI_CLK2_CTL := 0x2D]>
                                             (<[SI_CLK1_CTL := 0x0D]>
                                                (<[SI_CLK0_CTL := 0x0D]>
                                                   (<[SI_SS_EN := 0]>
                                                      (regs (Wire s)))))))))))))))))).
Proof.
  intros Hp. unfold begin. cbv zeta.
  set (s4 := _wr SI_CLK2_CTL _ (_wr SI_CLK1_CTL _ (_wr SI_CLK0_CTL _
               (_wr SI_SS_EN 0 s)))).
  assert (Hp4 : present (Wire s4) = true) by exact Hp.
  assert (R4 : regs (Wire s4)
               = <[SI_CLK2_CTL := 0x2D]>
                   (<[SI_CLK1_CTL := 0x0D]>
                      (<[SI_CLK0_CTL := 0x0D]>
                         (<[SI_SS_EN := 0]> (regs (Wire s)))))).
  { unfold s4. rewrite !regs_wr by exact Hp. reflexivity. }
  set (s6 := set_vfo 1 _ (set_vfo 0 _ s4)).
  assert (Hp6 : present (Wire s6) = true) by exact Hp.
  assert (R6 : regs (Wire s6) = regs (Wire s4)) by reflexivity.
  assert (V0 : _vfo s6 0 = mk_vfo 7074000 PH270 1 106 (Double.of_Z 30))
    by reflexivity.
  assert (V1 : _vfo s6 1 = mk_vfo 10000000 PH000 1 76 (Double.of_Z 30))
    by reflexivity.
  assert (Hp7 : present (Wire (update 0 s6)) = true)
    by (rewrite present_update; exact Hp6).
  assert (Hp8 : present (Wire (update 1 (update 0 s6))) = true)
    by (rewrite present_update; exact Hp7).
  assert (Hp9 : present (Wire (enable 0 true (update 1 (update 0 s6)))) = true)
    by (rewrite present_enable; exact Hp8).
  rewrite (regs_enable _ 1 false Hp9).
  rewrite reg_value_enable by exact Hp8.
  rewrite (regs_enable _ 0 true Hp8).
  rewrite insert_insert_eq.
  assert (R8 : regs (Wire (update 1 (update 0 s6)))
               = <[SI_PLL_RESET := 0xA0]>
      (<[SI_CLK2_CTL := 0x6D]>
         (store_bytes SI_SYNTH_MS2 [0; 1; 0; 36; 0; 0; 0; 0]
            (store_bytes SI_SYNTH_PLLB [66; 64; 0; 13; 0; 240; 0; 0]
               (<[SI_PLL_RESET := 0xA0]>
                  (<[SI_CLK1_CTL := 0x5D]>
                     (<[SI_CLK0_CTL := 0x4D]>
                        (<[SI_CLK1_PHOFF := 106]>
                           (<[SI_CLK0_PHOFF := 0]>
                              (store_bytes SI_SYNTH_MS1
                                 [0; 1; 0; 51; 0; 0; 0; 0]
                                 (store_bytes SI_SYNTH_MS0
                                    [0; 1; 0; 51; 0; 0; 0; 0]
                                    (store_bytes SI_SYNTH_PLLA
                                       [66; 64; 0; 13; 0; 240; 0; 0]
                                       (regs (Wire s4)))))))))))))).
  { rewrite (update1_regs _ Hp7). rewrite vfo_update, V1. cbn [msi ri msn].
    rewrite (update0_regs _ Hp6). rewrite V0. cbn [msi ri msn phase].
    replace (_setMSN_buf (Double.of_Z 30)) with [66; 64; 0; 13; 0; 240; 0; 0]
      by (vm_compute; reflexivity).
    reflexivity. }
  assert (OE : reg_value (update 1 (update 0 s6)) SI_CLK_OE
               = reg_value s SI_CLK_OE).
  { unfold reg_value. rewrite R8, R4.
    unfold SI_PLL_RESET, SI_CLK2_CTL, SI_CLK1_CTL, SI_CLK0_CTL, SI_CLK1_PHOFF,
      SI_CLK0_PHOFF, SI_SYNTH_MS2, SI_SYNTH_MS1, SI_SYNTH_MS0, SI_SYNTH_PLLA,
      SI_SYNTH_PLLB, SI_SS_EN, SI_CLK_OE.
    repeat first [ rewrite lookup_insert_ne by lia
                 | rewrite store_bytes_outside by (cbn [length]; lia) ].
    reflexivity. }
  rewrite OE, R8, R4. reflexivity.
Qed.

Ltac skip_writes :=
  repeat first [ rewrite lookup_insert_ne by lia
               | rewrite store_bytes_outside by (cbn [length]; lia) ].

(** X23: bring-up on a chip that answers.  After [begin], whatever the
    registers held before: spread spectrum is off; CLK0 and CLK1 are in
    integer mode on PLLA with CLK1 inverted and a phase offset of 106, the
    defaults of VFO0 at 270 degrees; CLK2 is in integer mode on PLLB; both
    PLLs hold the multiplier 30 and the MultiSynth dividers are 106, 106
    and 76; in the output enable register the bits 0 and 1 are clear and
    bit 2 is set, so VFO0 is on and VFO1 off, with the bits 3 to 7 as they
    were; every register outside the ones named is untouched. *)
Theorem begin_register_file (s : Si5351) :
  present (Wire s) = true ->
  let m' := regs (Wire (begin s)) in
  m' !! SI_SS_EN = Some 0 /\
  m' !! SI_CLK0_CTL = Some 0x4D /\
  m' !! SI_CLK1_CTL = Some 0x5D /\
  m' !! SI_CLK2_CTL = Some 0x6D /\
  m' !! SI_CLK0_PHOFF = Some 0 /\
  m' !! SI_CLK1_PHOFF = Some 106 /\
  (forall k : nat, (k < 8)%nat ->
     m' !! (SI_SYNTH_PLLA + Z.of_nat k) = [66; 64; 0; 13; 0; 240; 0; 0] !! k /\
     m' !! (SI_SYNTH_PLLB + Z.of_nat k) = [66; 64; 0; 13; 0; 240; 0; 0] !! k /\
     m' !! (SI_SYNTH_MS0 + Z.of_nat k) = [0; 1; 0; 51; 0; 0; 0; 0] !! k /\
     m' !! (SI_SYNTH_MS1 + Z.of_nat k) = [0; 1; 0; 51; 0; 0; 0; 0] !! k /\
     m' !! (SI_SYNTH_MS2 + Z.of_nat k) = [0; 1; 0; 36; 0; 0; 0; 0] !! k) /\
  (exists oe,
     m' !! SI_CLK_OE = Some oe /\
     Z.testbit oe 0 = false /\ Z.testbit oe 1 = false /\
     Z.testbit oe 2 = true /\
     forall n, 3 <= n < 8 ->
       Z.testbit oe n = Z.testbit (reg_value s SI_CLK_OE) n) /\
  (forall r,
     r <> 3 -> ~ 16 <= r <= 18 -> ~ 26 <= r < 66 ->
     r <> 149 -> r <> 165 -> r <> 166 -> r <> 177 ->
     m' !! r = regs (Wire s) !! r).
Proof.
  intros Hp m'. subst m'. rewrite (begin_regs s Hp).
  unfold SI_PLL_RESET, SI_CLK2_CTL, SI_CLK1_CTL, SI_CLK0_CTL, SI_CLK1_PHOFF,
    SI_CLK0_PHOFF, SI_SYNTH_MS2, SI_SYNTH_MS1, SI_SYNTH_MS0, SI_SYNTH_PLLA,
    SI_SYNTH_PLLB, SI_SS_EN, SI_CLK_OE.
  split; [skip_writes; apply lookup_insert_eq |].
  split; [skip_writes; apply lookup_insert_eq |].
  split; [skip_writes; apply lookup_insert_eq |].
  split; [skip_writes; apply lookup_insert_eq |].
  split; [skip_writes; apply lookup_insert_eq |].
  split; [skip_writes; apply lookup_insert_eq |].
  split; [| split].
  - intros k Hk. repeat split; skip_writes;
      apply store_bytes_inside; cbn [length]; exact Hk.
  - eexists. split; [apply lookup_insert_eq |].
    split; [| split; [| split]].
    + rewrite !enable_oe_bits by lia. reflexivity.
    + rewrite !enable_oe_bits by lia. reflexivity.
    + rewrite !enable_oe_bits by lia. reflexivity.
    + intros n Hn. rewrite !enable_oe_bits by lia.
      replace (n <? 8) with true by (symmetry; apply Z.ltb_lt; lia).
      unfold oe_mask. cbn [Z.eqb andb].
      assert (n = 3 \/ n = 4 \/ n = 5 \/ n = 6 \/ n = 7)
        as [-> | [-> | [-> | [-> | ->]]]] by lia; reflexivity.
  - intros r H1 H2 H3 H4 H5 H6 H7. skip_writes. reflexivity.
Qed.

Lemma begin_register_file_witness :
  regs (Wire (begin (Si5351_ctor 25000000 idle_bus))) !! SI_CLK1_PHOFF
  = Some 106.
Proof.
  pose proof (begin_register_file (Si5351_ctor 25000000 idle_bus)) as H.
  cbv zeta in H. destruct H as (_ & _ & _ & _ & _ & H & _); [reflexivity |].
  exact H.
Defined.

Lemma setFreq_stored (s : Si5351) (i f : Z) :
  freq (_vfo s i) = f -> setFreq i f s = s.
Proof.
  intros Hf. unfold setFreq, _evaluate.
  destruct (1 <? i); [reflexivity |].
  rewrite Hf, Z.eqb_refl. reflexivity.
Qed.

Lemma vfo_resetPLL (s : Si5351) (i : Z) : _vfo (resetPLL s) i = _vfo s i.
Proof. unfold resetPLL. apply vfo_wr. Qed.

Lemma xtal_wr (reg val : Z) (s : Si5351) : _xtal (_wr reg val s) = _xtal s.
Proof. unfold _wr. apply xtal_set_Wire. Qed.

Lemma xtal_enable (s : Si5351) (i : Z) (en : bool) :
  _xtal (enable i en s) = _xtal s.
Proof. reflexivity. Qed.

Lemma xtal_set_vfo (i : Z) (v : vfo_t) (s : Si5351) :
  _xtal (set_vfo i v s) = _xtal s.
Proof. unfold set_vfo. destruct (i =? 0); reflexivity. Qed.

Lemma setPhase_vfo0 (s : Si5351) (ph : Z) :
  0 <= ph <= 3 ->
  setPhase 0 ph s
  = set_vfo 0 (mk_vfo (freq (_vfo s 0)) ph (ri (_vfo s 0)) (msi (_vfo s 0))
                      (msn (_vfo s 0))) s.
Proof.
  intros Hp. unfold setPhase.
  replace (3 <? ph) with false by (symmetry; apply Z.ltb_ge; lia).
  reflexivity.
Qed.

(** X24: the demonstration program does not retune.  After [setup] of
    [example.cpp], on any bus, VFO0 still holds the bring-up divider 106
    and multiplier 30 and VFO1 the bring-up divider 76 and multiplier 30:
    both [setFreq] calls ask for the target already stored and plan
    nothing; only the phase of VFO0 has become 90 degrees. *)
Theorem setup_keeps_defaults (s : Si5351) :
  _vfo0 (setup s) = mk_vfo 7074000 PH090 1 106 (Double.of_Z 30) /\
  _vfo1 (setup s) = mk_vfo 10000000 PH000 1 76 (Double.of_Z 30) /\
  _xtal (setup s) = _xtal s.
Proof.
  unfold setup. cbv zeta.
  destruct (begin_defaults s) as (E0 & E1 & Ex).
  rewrite <- (vfo_resetPLL (begin s) 0) in E0.
  rewrite <- (vfo_resetPLL (begin s) 1) in E1.
  assert (X1 : _xtal (resetPLL (begin s)) = _xtal s)
    by (unfold resetPLL; rewrite xtal_wr; exact Ex).
  generalize dependent (resetPLL (begin s)). intros s1 V0 V1 X1. clear Ex.
  rewrite (setFreq_stored s1 0 7074000) by (rewrite V0; reflexivity).
  rewrite (setPhase_vfo0 s1 PH090) by (unfold PH090; lia).
  rewrite V0. cbn [freq ri msi msn].
  assert (W0 : _vfo (set_vfo 0 (mk_vfo 7074000 PH090 1 106 (Double.of_Z 30))
                       s1) 0
               = mk_vfo 7074000 PH090 1 106 (Double.of_Z 30))
    by (apply vfo_set_vfo; lia).
  assert (W1 : _vfo (set_vfo 0 (mk_vfo 7074000 PH090 1 106 (Double.of_Z 30))
                       s1) 1
               = mk_vfo 10000000 PH000 1 76 (Double.of_Z 30))
    by (rewrite vfo_set_vfo_other by lia; exact V1).
  assert (X2 : _xtal (set_vfo 0 (mk_vfo 7074000 PH090 1 106 (Double.of_Z 30))
                        s1) = _xtal s)
    by (rewrite xtal_set_vfo; exact X1).
  generalize dependent
    (set_vfo 0 (mk_vfo 7074000 PH090 1 106 (Double.of_Z 30)) s1).
  intros s2 W0 W1 X2. clear V0 V1 X1.
  rewrite (setFreq_stored (update 0 (enable 0 true s2)) 1 10000000)
    by (rewrite vfo_update, vfo_enable, W1; reflexivity).
  change (_vfo0 (update 1 (enable 1 true (update 0 (enable 0 true s2)))))
    with (_vfo (update 1 (enable 1 true (update 0 (enable 0 true s2)))) 0).
  change (_vfo1 (update 1 (enable 1 true (update 0 (enable 0 true s2)))))
    with (_vfo (update 1 (enable 1 true (update 0 (enable 0 true s2)))) 1).
  rewrite !vfo_update, !vfo_enable, !vfo_update, !vfo_enable.
  rewrite !xtal_update, xtal_enable, xtal_update, xtal_enable.
  split; [exact W0 | split; [exact W1 | exact X2]].
Qed.

(** X26: an index above 1 is ignored by [setFreq], [update] and
    [setPhase] alike: each returns at its guard, so neither the stored
    VFOs nor the bus change.  ([enable] has no such guard.) *)
Theorem guarded_calls_ignore_index (s : Si5351) (i f ph : Z) :
  1 < i ->
  setFreq i f s = s /\ update i s = s /\ setPhase i ph s = s.
Proof.
  intros Hi. split; [| split].
  - apply setFreq_invalid_index, Hi.
  - apply update_invalid_index, Hi.
  - apply setPhase_invalid. left. lia.
Qed.

Lemma guarded_calls_ignore_index_witness :
  let s := begin (Si5351_ctor 25000000 idle_bus) in
  setFreq 2 14200000 s = s /\ update 2 s = s /\ setPhase 2 PH090 s = s.
Proof.
  apply (guarded_calls_ignore_index
           (begin (Si5351_ctor 25000000 idle_bus)) 2 14200000 PH090).
  lia.
Defined.
